(** * Nepal Kanun Patrika scraper: a shallow embedding of
    [Kanun_Patrika_Scrapper.py] and the properties of its field-extraction
    procedures, citation/holding segmenter, link collection and persistence,
    of its numeral translation and search URL, and of the counts of
    [run_scraper].

    Texts are Python [str] values, modelled as [string] holding the UTF-8
    bytes of the text.  Substring containment, prefix and equality tests on
    code points coincide with the same tests on UTF-8 bytes (UTF-8 is
    self-synchronising), so [kw in text], [text.startswith(kw)] and
    [kw == text] are modelled on bytes. *)

From Stdlib Require Import String Ascii List ZArith Lia Bool Arith.
From Stdlib Require Import DecimalString.
From stdpp Require Import gmap strings list.
Import ListNotations.
Open Scope string_scope.
Open Scope list_scope.
Open Scope nat_scope.

(** ** Python string tests *)

(** [kw in text] *)
Fixpoint contains (kw text : string) : bool :=
  String.prefix kw text ||
  match text with
  | EmptyString => false
  | String _ rest => contains kw rest
  end.

(** [text.startswith(kw)] *)
Definition startswith (text kw : string) : bool := String.prefix kw text.

(** truth value of a [str]: [if text:] *)
Definition truthy (text : string) : bool :=
  match text with
  | EmptyString => false
  | String _ _ => true
  end.

(** [any(kw in text for kw in KEYWORDS)] *)
Definition any_in (KEYWORDS : list string) (text : string) : bool :=
  existsb (fun kw => contains kw text) KEYWORDS.

(** [any(kw == text for kw in KEYWORDS)] *)
Definition any_eq (KEYWORDS : list string) (text : string) : bool :=
  existsb (fun kw => String.eqb kw text) KEYWORDS.

(** [any(text.startswith(kw) for kw in KEYWORDS)] *)
Definition any_startswith (KEYWORDS : list string) (text : string) : bool :=
  existsb (fun kw => startswith text kw) KEYWORDS.

(** ["मिति" in text or "मिती" in text] *)
Definition has_miti (text : string) : bool :=
  contains "मिति" text || contains "मिती" text.

(** ["फैसला"==text or "आदेश"==text or "फैसलाः"==text], also written
    [text in ["फैसला", "आदेश", "फैसलाः"]] *)
Definition is_tahar_token (text : string) : bool :=
  String.eqb "फैसला" text || String.eqb "आदेश" text || String.eqb "फैसलाः" text.

(** ** Keyword tables

    The literal lists of [scrape_case_details_2015_to_2044] ([KW2015]) and of
    the four later procedures ([KW2045]: the lists of
    [scrape_case_details_2045_to_2050], [..._2051_to_2061],
    [..._2062_to_2072] and [..._2073_to_2080_and_beyond] are the same
    literals). *)

Module KW2015.
Definition KEYWORDS_2 : list string :=
["(प्रकरण नं"; "(प्रकारण नं."; "९प्रकरण नं।"; "(प्रकरण"; "(प्र नं."; "( प्र. नं"; "(प्र.नं"; "(प्र. नं"; "( प्रकरण नं."; "( प्रकरणन"; "( प्र.नं."; "( प्र . नं ."; "( प ्र . नं ."; "(प्ररकण नं."; "(प्रकराण नं."].
Definition KEYWORDS_3 : list string :=
["निवेदक"; "वादी"; "पुनरावेदक"; "निबेदक"; "पुनरावदेक"; "निवेदिका"; "निवेदीका"; "निवदेक"; "न ि वेदक ः"; "नि वेदक ः"; "पुनरावेदन"; "पुनरवेदिका"; "पुनरावेदिका"; "पुनरावेदीका"; "बादि"; "पुनराबेदक"; "प्रतिबादी"; "पुनरावेक"; "अपीलाट"; "निवेदनक"; "उजुरवाला"; "अपिलबाट"; "अपिलाट"].
Definition KEYWORDS_4 : list string :=
["विपक्षी"; "प्रतिवादी"; "प्रत्यर्थी"; "बिपक्षी"; "विपक्षी ः"; "पिपक्षी"; "विरुद्ध"; "प्रत्यार्थी"; "विरूद्ध"; "बिरूद्ध"; "विपक्ष"; "रेस्पोण्डेण्ट"; "रेस्पोन्डेन्ट"].
Definition KEYWORDS_5 : list string :=
["विषय"; "मुद्दा"; "बिषय"; "मूद्दा"; "मुद्द"; "मद्दा"; "विपक्ष"; "मुद्धा"].
Definition KEYWORDS_6 : list string :=
["इजलास"; "इजालास"; "इजलाश"; "बेञ्च"].
Definition KEYWORDS_7 : list string :=
["आदेश"; "फैसला"; "फैसलमा"; "निर्णय"; "फै सला"].
Definition KEYWORDS_8 : list string :=
["न्यायाधीश"; "माननीय"; "न्यायधीश"; "न्यायाधीस"; "न्ययाधीश"; "न्यायाधिश"; "न्यायाधी"; "न्यानायधीश"; "नयायाधीश"; "न्यायाधधिश"; "नयाधश"].
End KW2015.

Module KW2045.
Definition KEYWORDS_2 : list string :=
["प्रकरण नं."; "(प्रकरण नं"; "(प्रकारण नं."; "९प्रकरण नं।"; "(प्रकरण"; "(प्र नं."; "( प्र. नं"; "(प्र.नं"; "(प्र. नं"; "( प्रकरण नं."; "( प्रकरणन"; "( प्र.नं."; "( प्र . नं ."; "( प ्र . नं ."; "(प्ररकण नं."; "(प्रकराण नं."].
Definition KEYWORDS_3 : list string :=
["निवेदक"; "वादी"; "पुनरावेदक"; "निबेदक"; "पुनरावदेक"; "निवेदिका"; "निवेदीका"; "निवदेक"; "न ि वेदक ः"; "नि वेदक ः"; "पुनरावेदन"; "पुनरवेदिका"; "पुनरावेदिका"; "पुनरावेदीका"; "बादि"; "पुनराबेदक"; "प्रतिबादी"; "पुनरावेक"; "अपीलाट"; "निवेदनक"; "उजुरवाला"; "अपिलबाट"; "अपिलाट"].
Definition KEYWORDS_4 : list string :=
["विपक्षी"; "प्रतिवादी"; "प्रत्यर्थी"; "बिपक्षी"; "विपक्षी ः"; "पिपक्षी"; "प्रत्यार्थी"; "विपक्ष"; "रेस्पोण्डेण्ट"; "रेस्पोन्डेन्ट"; "प्रत्यथी"].
Definition KEYWORDS_5 : list string :=
["विषय"; "मुद्दा"; "बिषय"; "मूद्दा"; "मुद्द"; "मद्दा"; "विपक्ष"; "मुद्धा"; "मुद् दा"].
Definition KEYWORDS_6 : list string :=
["अदालत"; "इजलास"; "इजालास"; "इजलाश"; "बेञ्च"].
Definition KEYWORDS_7 : list string :=
["आदेश"; "फैसला"; "फैसलमा"; "निर्णय"; "फै सला"; "मुद्दा"].
Definition KEYWORDS_8 : list string :=
["न्यायाधीश"; "माननीय"; "न्यायधीश"; "न्यायाधीस"; "न्ययाधीश"; "न्यायाधिश"; "न्यायाधी"; "न्यानायधीश"; "नयायाधीश"; "न्यायाधधिश"; "नयाधश"].
Definition KEYWORDS_9 : list string :=
["विरूद्ध"; "बिरूद्ध"; "विरुद्ध"; "बिरुद्ध"].
Definition KEYWORDS_10 : list string :=
["AP"; "FN"; "RE"; "RI"; "LE"; "RV"; "NF"; "CI"; "CR"; "RC"; "SA"; "MS"; "ND"; "RB"; "CF"; "DF"; "RF"; "WO"; "WH"; "WS"; "WF"; "WC"; "CC"; "EC"].
End KW2045.

(** ** Blocks

    [tags = div_tag.find_all(['h1', 'p'])].  A tag is seen by the procedures
    only through its text (with and without the [' '] separator) and through
    the [li] texts of the [ul]/[ol] siblings that directly follow it. *)

Record Tag := mkTag {
  (** [tag.get_text(separator=' ', strip=True)] *)
  get_text_sep : string;
  (** [tag.get_text(strip=True)] *)
  get_text_strip : string;
  (** [li.get_text(separator=' ', strip=True)] for each [li] of the
      [ul]/[ol] siblings following the tag, in document order *)
  list_items : list string
}.

(** a paragraph with plain text and no list after it *)
Definition P (text : string) : Tag := mkTag text text [].

(** ** Exceptions and results *)

Inductive exn := IndexError | InterfaceError | ValueError.

Inductive result (A : Type) :=
| Ok (a : A)
| Raise (e : exn).
Arguments Ok {A} a.
Arguments Raise {A} e.

#[global] Instance result_ret : MRet result := fun A a => Ok a.

#[global] Instance result_fmap : FMap result := fun A B f r =>
  match r with
  | Ok a => Ok (f a)
  | Raise e => Raise e
  end.

#[global] Instance result_bind : MBind result := fun A B f r =>
  match r with
  | Ok a => f a
  | Raise e => Raise e
  end.

(** ** The [details] dictionary

    [details] maps a key, one of ten string literals, to a text or to a list
    of texts. *)

Inductive details_key :=
| K_ijlas          (** ["इजलास"] *)
| K_adalat_ijlas   (** ["अदालत / इजलास"] *)
| K_nyayadhish     (** ["न्यायाधीश"] *)
| K_adesh_miti     (** ["आदेश मिति"] *)
| K_case_no        (** ["केस_नम्बर"] *)
| K_bisaya         (** ["विषय"] *)
| K_nibedak        (** ["निवेदक"] *)
| K_bipakshi       (** ["विपक्षी"] *)
| K_prakaran       (** ["प्रकरण"] *)
| K_thahar         (** ["ठहर"] *).

Definition key_name (k : details_key) : string :=
  match k with
  | K_ijlas => "इजलास"
  | K_adalat_ijlas => "अदालत / इजलास"
  | K_nyayadhish => "न्यायाधीश"
  | K_adesh_miti => "आदेश मिति"
  | K_case_no => "केस_नम्बर"
  | K_bisaya => "विषय"
  | K_nibedak => "निवेदक"
  | K_bipakshi => "विपक्षी"
  | K_prakaran => "प्रकरण"
  | K_thahar => "ठहर"
  end.

Definition key_code (k : details_key) : nat :=
  match k with
  | K_ijlas => 0 | K_adalat_ijlas => 1 | K_nyayadhish => 2
  | K_adesh_miti => 3 | K_case_no => 4 | K_bisaya => 5 | K_nibedak => 6
  | K_bipakshi => 7 | K_prakaran => 8 | K_thahar => 9
  end.

Definition key_of_code (c : nat) : option details_key :=
  match c with
  | 0 => Some K_ijlas | 1 => Some K_adalat_ijlas | 2 => Some K_nyayadhish
  | 3 => Some K_adesh_miti | 4 => Some K_case_no | 5 => Some K_bisaya
  | 6 => Some K_nibedak | 7 => Some K_bipakshi | 8 => Some K_prakaran
  | 9 => Some K_thahar | _ => None
  end.

#[global] Instance key_eq_dec : EqDecision details_key.
Proof. solve_decision. Defined.

#[global] Instance key_countable : Countable details_key.
Proof.
  apply (inj_countable key_code key_of_code). intros k. now destruct k.
Defined.

Inductive value :=
| VStr (s : string)
| VList (l : list string).

(** ** The cursor and its checkpoint *)

Record cursor := mkCursor { ind : nat; temp_ind_32 : nat }.

(** [if ind >= n: ind = temp_ind_32 else: temp_ind_32 = ind] *)
Definition checkpoint (n : nat) (c : cursor) : cursor :=
  if n <=? ind c then mkCursor (temp_ind_32 c) (temp_ind_32 c)
  else mkCursor (ind c) (ind c).

(** The slip of the 2073 procedure:
    [if ind > n: ind = temp_ind_32 else: temp_ind_32 = ind] *)
Definition checkpoint_gt (n : nat) (c : cursor) : cursor :=
  if n <? ind c then mkCursor (temp_ind_32 c) (temp_ind_32 c)
  else mkCursor (ind c) (ind c).

(** [if ind >= n: ind = temp_ind_32] with no [else] *)
Definition revert_only (n : nat) (c : cursor) : cursor :=
  if n <=? ind c then mkCursor (temp_ind_32 c) (temp_ind_32 c)
  else c.

(** ** Scanning loops

    Every scanning loop has the shape
    [while ind < n: text = tags[ind]...; <body>; ind += 1], where the body
    changes [ind] only on the way to a [break].  One pass of the body either
    falls through to [ind += 1] ([Next]), leaves the loop with a new [ind]
    ([Break]) or raises ([Throw]).  A read of [tags[ind + 1]] inside a body
    is the lookup [tags !! (ind + 1)], which is [None] exactly when Python
    raises [IndexError]. *)

Inductive outcome (S : Type) :=
| Next (s : S)
| Break (ind' : nat) (s : S)
| Throw (e : exn).
Arguments Next {S} s.
Arguments Break {S} ind' s.
Arguments Throw {S} e.

(** [rest] is [tags[ind:]]; the loop ends with [ind = n] when no pass
    breaks. *)
Fixpoint while_from {S} (body : nat -> Tag -> S -> outcome S)
    (rest : list Tag) (ind : nat) (s : S) : result (nat * S) :=
  match rest with
  | [] => Ok (ind, s)
  | tag :: rest' =>
      match body ind tag s with
      | Next s' => while_from body rest' (ind + 1) s'
      | Break ind' s' => Ok (ind', s')
      | Throw e => Raise e
      end
  end.

(** [while ind < n: ...] started at [ind] *)
Definition while_ind {S} (tags : list Tag)
    (body : nat -> Tag -> S -> outcome S) (ind : nat) (s : S)
    : result (nat * S) :=
  while_from body (drop ind tags) ind s.

(** ** Citation / holding segmentation ("Extract prakarans and tahar")

    The five procedures carry the same text for this phase; only the
    [KEYWORDS_2] list of the procedure differs. *)

Record seg := mkSeg {
  prakarans : list string;
  prev : string;
  tahar : list string;
  temp_flag_tahar : bool
}.

Definition seg_init : seg := mkSeg [] EmptyString [] false.

(** [prev = prev + " " + text if prev else text] *)
Definition join_prev (prev text : string) : string :=
  if truthy prev then prev +:+ " " +:+ text else text.

(** [prakarans.append(x)] *)
Definition append_prakaran (x : string) (s : seg) : seg :=
  mkSeg (prakarans s ++ [x]) (prev s) (tahar s) (temp_flag_tahar s).

Definition set_prev (p : string) (s : seg) : seg :=
  mkSeg (prakarans s) p (tahar s) (temp_flag_tahar s).

(** [if prev: prakarans.append(prev)]; [prakarans.append(text)]; [prev]
    is set to the empty string *)
Definition flush_and_append (text : string) (s : seg) : seg :=
  let s1 := if truthy (prev s) then append_prakaran (prev s) s else s in
  set_prev EmptyString (append_prakaran text s1).

(** [if text in ["फैसला", "आदेश", "फैसलाः"] or temp_flag_tahar:
       temp_flag_tahar = True; tahar.append(text)] *)
Definition tahar_step (text : string) (s : seg) : seg :=
  if is_tahar_token text || temp_flag_tahar s
  then mkSeg (prakarans s) (prev s) (tahar s ++ [text]) true
  else s.

Section Segmenter.
Variable KEYWORDS_2 : list string.

(** the branch taken by a text that contains [§], starts with a
    [KEYWORDS_2] marker or equals a holding token *)
Definition citation_step (text : string) (s : seg) : seg :=
  let sa := if any_startswith KEYWORDS_2 text
            then flush_and_append text s else s in
  let sb := if contains "§" text then append_prakaran text sa else sa in
  if is_tahar_token text
  then match prakarans sb with
       | [] => append_prakaran (prev sb) sb
       | _ :: _ => sb
       end
  else sb.

(** the body of [for tag in tags[ind:]] up to the list items *)
Definition seg_text (text : string) (s : seg) : seg :=
  if truthy text then
    tahar_step text
      (if contains "§" text || any_startswith KEYWORDS_2 text
          || is_tahar_token text
       then citation_step text s
       else set_prev (join_prev (prev s) text) s)
  else s.

(** the body of [for li in next_sib.find_all('li')] *)
Definition seg_li (li_text : string) (s : seg) : seg :=
  if truthy li_text then
    let s1 :=
      if any_startswith KEYWORDS_2 li_text
      then flush_and_append li_text s
      else set_prev (join_prev (prev s) li_text) s
    in tahar_step li_text s1
  else s.

Definition seg_tag (s : seg) (tag : Tag) : seg :=
  fold_left (fun s li_text => seg_li li_text s) (list_items tag)
            (seg_text (get_text_sep tag) s).

(** [for tag in tags[ind:]: ...] from the initial accumulators *)
Definition segment (tags : list Tag) (ind : nat) : seg :=
  fold_left seg_tag (drop ind tags) seg_init.

(** [details["प्रकरण"] = prakarans; details["ठहर"] = tahar] *)
Definition store_segment (tags : list Tag) (ind : nat)
    (details : gmap details_key value) : gmap details_key value :=
  let s := segment tags ind in
  <[K_thahar := VList (tahar s)]> (<[K_prakaran := VList (prakarans s)]> details).
End Segmenter.

(** ** Petitioner / respondent scans

    [while ind < n:
        text = tags[ind].get_text(...)
        if any(kw in text for kw in KEYWORDS):
            if any(kw2 == text for kw2 in KEYWORDS):
                ind += 1
                text = tags[ind].get_text(...)
            <record text>
            ind += 1
            break
        ind += 1]

    [get] is the text accessor the procedure uses.  With [guarded] the read
    of the next tag is under [if ind < n:] (the 2051 procedure); without it
    the read raises [IndexError] past the end.  The loop state is the
    recorded text, if any. *)

Definition party_body (get : Tag -> string) (KEYWORDS : list string)
    (guarded : bool) (tags : list Tag)
    (ind : nat) (tag : Tag) (found : option string) : outcome (option string) :=
  let text := get tag in
  if any_in KEYWORDS text then
    if any_eq KEYWORDS text then
      match tags !! (ind + 1) with
      | Some tag2 => Break (ind + 1 + 1) (Some (get tag2))
      | None => if guarded then Break (ind + 1 + 1) (Some text)
                else Throw IndexError
      end
    else Break (ind + 1) (Some text)
  else Next found.

Definition party_scan (get : Tag -> string) (KEYWORDS : list string)
    (guarded : bool) (tags : list Tag) (ind : nat)
    : result (nat * option string) :=
  while_ind tags (party_body get KEYWORDS guarded tags) ind None.

(** the scan followed by [details[key] = text] on a match *)
Definition party_phase (get : Tag -> string) (KEYWORDS : list string)
    (guarded : bool) (key : details_key) (tags : list Tag)
    (st : cursor * gmap details_key value) : result (cursor * gmap details_key value) :=
  let '(c, details) := st in
  '(i, found) ← party_scan get KEYWORDS guarded tags (ind c);
  mret (mkCursor i (temp_ind_32 c),
        match found with
        | Some text => <[key := VStr text]> details
        | None => details
        end).

(** [if ind >= n: ... else: ...] on a phase state *)
Definition checkpointed (n : nat) (st : cursor * gmap details_key value)
    : cursor * gmap details_key value :=
  (checkpoint n (fst st), snd st).

(** ** [scrape_case_details_2015_to_2044]: the body of [if div_tag:] *)

Module Era2015.
Import KW2015.

(** "Extract court information" *)
Definition court_body (tags : list Tag) (ind : nat) (tag : Tag)
    (s : gmap details_key value * string) : outcome (gmap details_key value * string) :=
  let '(details, temp_ijlash) := s in
  let text := get_text_sep tag in
  if truthy text then
    if any_eq KEYWORDS_6 text then
      Break (ind + 1)
            (if negb (contains "निर्णय नं." temp_ijlash)
             then <[K_ijlas := VStr temp_ijlash]> details else details,
             temp_ijlash)
    else if any_in KEYWORDS_6 text then
      match tags !! (ind + 1) with
      | None => Throw IndexError
      | Some tag2 =>
          let text_2 := get_text_sep tag2 in
          if negb (any_in KEYWORDS_8 text_2)
          then Break (ind + 1 + 1)
                     (<[K_ijlas := VStr (text +:+ " " +:+ text_2)]>
                        (<[K_ijlas := VStr text]> details), temp_ijlash)
          else Break (ind + 1) (<[K_ijlas := VStr text]> details, temp_ijlash)
      end
    else if any_in KEYWORDS_8 text then
      Break ind
            (if negb (contains "निर्णय नं." temp_ijlash)
             then <[K_ijlas := VStr temp_ijlash]> details else details,
             temp_ijlash)
    else Next (details, text)
  else Next s.

Definition court_phase (tags : list Tag) (st : cursor * gmap details_key value)
    : result (cursor * gmap details_key value) :=
  let '(c, details) := st in
  '(i, (details', _)) ← while_ind tags (court_body tags) (ind c)
                                   (details, EmptyString);
  mret (mkCursor i (temp_ind_32 c), details').

(** "Extract judges" *)
Definition judges_body (ind : nat) (tag : Tag)
    (s : gmap details_key value * list string)
    : outcome (gmap details_key value * list string) :=
  let '(details, judges) := s in
  let text := get_text_sep tag in
  if truthy text then
    if any_in KEYWORDS_8 text then Next (details, judges ++ [text])
    else
      let details1 := <[K_nyayadhish := VList judges]> details in
      if negb (any_in KEYWORDS_3 text) && negb (any_in KEYWORDS_5 text)
      then Break (ind + 1) (<[K_case_no := VStr text]> details1, judges)
      else Break ind (details1, judges)
  else Next s.

Definition judges_phase (tags : list Tag) (st : cursor * gmap details_key value)
    : result (cursor * gmap details_key value) :=
  let '(c, details) := st in
  '(i, (details', _)) ← while_ind tags judges_body (ind c) (details, []);
  mret (mkCursor i (temp_ind_32 c), details').

(** the look-ahead over [temp_ind_64] that sets [bisaya_before_niweduck] *)
Definition lookahead_body (ind : nat) (tag : Tag) (b : bool) : outcome bool :=
  let text := get_text_sep tag in
  if any_in KEYWORDS_3 text || any_in KEYWORDS_4 text then Break ind b
  else if any_in KEYWORDS_5 text then Break ind true
  else Next b.

Definition bisaya_before_niweduck (tags : list Tag) (ind : nat) : bool :=
  match while_ind tags lookahead_body ind false with
  | Ok (_, b) => b
  | Raise _ => false
  end.

(** the scan for the subject line; [stop] is the keyword list whose
    occurrence sends the cursor back to the checkpoint *)
Definition subject_body (stop : list string) (temp : nat) (ind : nat)
    (tag : Tag) (details : gmap details_key value) : outcome (gmap details_key value) :=
  let text := get_text_sep tag in
  if any_startswith KEYWORDS_5 text
  then Break (ind + 1) (<[K_bisaya := VStr text]> details)
  else if any_in stop text then Break temp details
  else Next details.

(** the scan for the order-date line *)
Definition order_date_body (stop : list string) (temp : nat) (ind : nat)
    (tag : Tag) (details : gmap details_key value) : outcome (gmap details_key value) :=
  let text := get_text_sep tag in
  if any_startswith KEYWORDS_7 text && has_miti text
  then Break (ind + 1) (<[K_adesh_miti := VStr text]> details)
  else if any_in stop text then Break temp details
  else Next details.

Definition run_body (tags : list Tag)
    (body : nat -> nat -> Tag -> gmap details_key value -> outcome (gmap details_key value))
    (st : cursor * gmap details_key value) : result (cursor * gmap details_key value) :=
  let '(c, details) := st in
  '(i, details') ← while_ind tags (body (temp_ind_32 c)) (ind c) details;
  mret (mkCursor i (temp_ind_32 c), details').

(** [if bisaya_before_niweduck: ... else: ...] before the parties *)
Definition before_parties_phase (tags : list Tag) (bisaya : bool)
    (st : cursor * gmap details_key value) : result (cursor * gmap details_key value) :=
  if bisaya then run_body tags (subject_body KEYWORDS_3) st
  else run_body tags (order_date_body KEYWORDS_3) st.

(** [if bisaya_before_niweduck==False: ... else: ...] after the parties *)
Definition after_parties_phase (tags : list Tag) (bisaya : bool)
    (st : cursor * gmap details_key value) : result (cursor * gmap details_key value) :=
  if negb bisaya then run_body tags (subject_body KEYWORDS_2) st
  else run_body tags (order_date_body KEYWORDS_2) st.

Definition petitioner_phase :=
  party_phase get_text_sep KEYWORDS_3 false K_nibedak.
Definition respondent_phase :=
  party_phase get_text_sep KEYWORDS_4 false K_bipakshi.

(** the phases up to the segmentation, each followed by its checkpoint *)
Definition fields (tags : list Tag) : result (cursor * gmap details_key value) :=
  let n := length tags in
  let st0 := (mkCursor 0 0, (∅ : gmap details_key value)) in
  st1 ← checkpointed n <$> court_phase tags st0;
  st2 ← checkpointed n <$> judges_phase tags st1;
  let bisaya := bisaya_before_niweduck tags (ind (fst st2)) in
  st3 ← checkpointed n <$> before_parties_phase tags bisaya st2;
  st4 ← checkpointed n <$> petitioner_phase tags st3;
  st5 ← checkpointed n <$> respondent_phase tags st4;
  checkpointed n <$> after_parties_phase tags bisaya st5.

Definition extract (tags : list Tag) : result (gmap details_key value) :=
  '(c, details) ← fields tags;
  mret (store_segment KEYWORDS_2 tags (ind c) details).
End Era2015.

(** ** [scrape_case_details_2045_to_2050]: the body of [if div_tag:] *)

Module Era2045.
Import KW2045.

(** ["न्यायाधीश" in text or "माननीय" in text] *)
Definition is_judge_line (text : string) : bool :=
  contains "न्यायाधीश" text || contains "माननीय" text.

(** "Extract court information" *)
Definition court_body (ind : nat) (tag : Tag)
    (s : gmap details_key value * string) : outcome (gmap details_key value * string) :=
  let '(details, temp_ijlash) := s in
  let text := get_text_sep tag in
  if truthy text then
    if any_eq KEYWORDS_6 text
    then Break (ind + 1) (<[K_ijlas := VStr temp_ijlash]> details, temp_ijlash)
    else if any_in KEYWORDS_6 text
    then Break (ind + 1) (<[K_ijlas := VStr text]> details, temp_ijlash)
    else if is_judge_line text
    then Break ind (<[K_ijlas := VStr temp_ijlash]> details, temp_ijlash)
    else Next (details, text)
  else Next s.

Definition court_phase (tags : list Tag) (st : cursor * gmap details_key value)
    : result (cursor * gmap details_key value) :=
  let '(c, details) := st in
  '(i, (details', _)) ← while_ind tags court_body (ind c)
                                   (details, EmptyString);
  mret (mkCursor i (temp_ind_32 c), details').

(** "Extract judges"; [is_date] is the test of the [elif] *)
Definition judges_body (is_date : string -> bool) (ind : nat) (tag : Tag)
    (s : gmap details_key value * list string)
    : outcome (gmap details_key value * list string) :=
  let '(details, judges) := s in
  let text := get_text_sep tag in
  if truthy text then
    if is_judge_line text then Next (details, judges ++ [text])
    else if is_date text
    then Break (ind + 1)
               (<[K_adesh_miti := VStr text]>
                  (<[K_nyayadhish := VList judges]> details), judges)
    else Next (<[K_case_no := VStr text]> details, judges)
  else Next s.

(** [any(kw in text for kw in KEYWORDS_7) and "मिति" in text] *)
Definition is_date (text : string) : bool :=
  any_in KEYWORDS_7 text && contains "मिति" text.

Definition judges_phase (tags : list Tag) (st : cursor * gmap details_key value)
    : result (cursor * gmap details_key value) :=
  let '(c, details) := st in
  '(i, (details', _)) ← while_ind tags (judges_body is_date) (ind c)
                                   (details, []);
  mret (mkCursor i (temp_ind_32 c), details').

(** the scan that sets [bisaya_before_niweduck]; here it moves [ind] *)
Definition lookahead_body (ind : nat) (tag : Tag) (b : bool) : outcome bool :=
  let text := get_text_sep tag in
  if any_in KEYWORDS_3 text || any_in KEYWORDS_4 text then Break ind b
  else if any_in KEYWORDS_5 text then Break ind true
  else Next b.

(** [bisaya_before_niweduck = False], [details["विषय"]] set to the empty
    string, and the scan *)
Definition lookahead_phase (tags : list Tag) (st : cursor * gmap details_key value)
    : result (cursor * gmap details_key value * bool) :=
  let '(c, details) := st in
  '(i, bisaya) ← while_ind tags lookahead_body (ind c) false;
  mret (mkCursor i (temp_ind_32 c),
        <[K_bisaya := VStr EmptyString]> details, bisaya).

(** the scan for the subject line *)
Definition subject_body (ind : nat) (tag : Tag) (details : gmap details_key value)
    : outcome (gmap details_key value) :=
  let text := get_text_sep tag in
  if any_in KEYWORDS_5 text
  then Break (ind + 1) (<[K_bisaya := VStr text]> details)
  else Next details.

Definition subject_phase (tags : list Tag) (st : cursor * gmap details_key value)
    : result (cursor * gmap details_key value) :=
  let '(c, details) := st in
  '(i, details') ← while_ind tags subject_body (ind c) details;
  mret (mkCursor i (temp_ind_32 c), details').

Definition petitioner_phase :=
  party_phase get_text_sep KEYWORDS_3 false K_nibedak.
Definition respondent_phase :=
  party_phase get_text_sep KEYWORDS_4 false K_bipakshi.

Definition fields (tags : list Tag) : result (cursor * gmap details_key value) :=
  let n := length tags in
  let st0 := (mkCursor 0 0, (∅ : gmap details_key value)) in
  st1 ← checkpointed n <$> court_phase tags st0;
  st2 ← checkpointed n <$> judges_phase tags st1;
  '(c3, details3, bisaya) ← lookahead_phase tags st2;
  let st3 := checkpointed n (c3, details3) in
  st4 ← (if bisaya then checkpointed n <$> subject_phase tags st3
         else mret st3);
  st5 ← checkpointed n <$> petitioner_phase tags st4;
  st6 ← checkpointed n <$> respondent_phase tags st5;
  if negb bisaya then checkpointed n <$> subject_phase tags st6
  else mret st6.

Definition extract (tags : list Tag) : result (gmap details_key value) :=
  '(c, details) ← fields tags;
  mret (store_segment KEYWORDS_2 tags (ind c) details).
End Era2045.

(** ** [scrape_case_details_2051_to_2061]: the body of [if div_tag:] *)

Module Era2051.
Import KW2045.

(** "Extract court information" *)
Definition court_body (ind : nat) (tag : Tag) (details : gmap details_key value)
    : outcome (gmap details_key value) :=
  let text := get_text_sep tag in
  if truthy text && (contains "इजलास" text || contains "इजालास" text)
  then Break (ind + 1) (<[K_ijlas := VStr text]> details)
  else Next details.

Definition run_body (tags : list Tag)
    (body : nat -> Tag -> gmap details_key value -> outcome (gmap details_key value))
    (st : cursor * gmap details_key value) : result (cursor * gmap details_key value) :=
  let '(c, details) := st in
  '(i, details') ← while_ind tags body (ind c) details;
  mret (mkCursor i (temp_ind_32 c), details').

Definition court_phase (tags : list Tag) := run_body tags court_body.

(** [("आदेश" in text or "फैसला" in text or "फैसलमा" in text
      or "निर्णय" in text) and "मिति" in text] *)
Definition is_date (text : string) : bool :=
  (contains "आदेश" text || contains "फैसला" text || contains "फैसलमा" text
   || contains "निर्णय" text) && contains "मिति" text.

(** "Extract judges": the loop of the 2045 procedure with this date test *)
Definition judges_phase (tags : list Tag) (st : cursor * gmap details_key value)
    : result (cursor * gmap details_key value) :=
  let '(c, details) := st in
  '(i, (details', _)) ← while_ind tags (Era2045.judges_body is_date) (ind c)
                                   (details, []);
  mret (mkCursor i (temp_ind_32 c), details').

(** "Standard case structure": the subject line *)
Definition subject_body (ind : nat) (tag : Tag) (details : gmap details_key value)
    : outcome (gmap details_key value) :=
  let text := get_text_sep tag in
  if contains "विषय" text || contains "मुद्दा" text || contains "बिषय" text
     || contains "मूद्दाः" text
  then Break (ind + 1) (<[K_bisaya := VStr text]> details)
  else Next details.

Definition subject_phase (tags : list Tag) := run_body tags subject_body.

Definition petitioner_phase :=
  party_phase get_text_sep KEYWORDS_3 true K_nibedak.
Definition respondent_phase :=
  party_phase get_text_sep KEYWORDS_4 true K_bipakshi.

(** the subject phase is followed by [if ind >= n: ind = temp_ind_32]
    alone: the checkpoint is not moved after a match *)
Definition fields (tags : list Tag) : result (cursor * gmap details_key value) :=
  let n := length tags in
  let st0 := (mkCursor 0 0, (∅ : gmap details_key value)) in
  st1 ← checkpointed n <$> court_phase tags st0;
  st2 ← checkpointed n <$> judges_phase tags st1;
  '(c3, details3) ← subject_phase tags st2;
  let st3 := (revert_only n c3, details3) in
  st4 ← checkpointed n <$> petitioner_phase tags st3;
  checkpointed n <$> respondent_phase tags st4.

Definition extract (tags : list Tag) : result (gmap details_key value) :=
  '(c, details) ← fields tags;
  mret (store_segment KEYWORDS_2 tags (ind c) details).
End Era2051.

(** ** [scrape_case_details_2062_to_2072]: the body of [if div_tag:] *)

Module Era2062.
Import KW2045.

(** "Extract court information" *)
Definition court_body (tags : list Tag) (ind : nat) (tag : Tag)
    (s : gmap details_key value * string) : outcome (gmap details_key value * string) :=
  let '(details, temp_ijlash) := s in
  let text := get_text_sep tag in
  if truthy text then
    if any_eq KEYWORDS_6 text then
      Break (ind + 1)
            (if negb (contains "निर्णय नं." temp_ijlash)
             then <[K_adalat_ijlas := VStr temp_ijlash]> details else details,
             temp_ijlash)
    else if any_in KEYWORDS_6 text then
      match tags !! (ind + 1) with
      | None => Throw IndexError
      | Some tag2 =>
          let text_2 := get_text_sep tag2 in
          if negb (any_in KEYWORDS_8 text_2)
          then Break (ind + 1 + 1)
                     (<[K_adalat_ijlas := VStr (text +:+ " " +:+ text_2)]>
                        (<[K_adalat_ijlas := VStr text]> details),
                      temp_ijlash)
          else Break (ind + 1)
                     (<[K_adalat_ijlas := VStr text]> details, temp_ijlash)
      end
    else if any_in KEYWORDS_8 text then
      Break ind
            (if negb (contains "निर्णय नं." temp_ijlash)
             then <[K_adalat_ijlas := VStr temp_ijlash]> details else details,
             temp_ijlash)
    else Next (details, text)
  else Next s.

Definition court_phase (tags : list Tag) (st : cursor * gmap details_key value)
    : result (cursor * gmap details_key value) :=
  let '(c, details) := st in
  '(i, (details', _)) ← while_ind tags (court_body tags) (ind c)
                                   (details, EmptyString);
  mret (mkCursor i (temp_ind_32 c), details').

(** "Extract judges"; the boolean of the state is
    [faisla_miti_before_case_no] *)
Definition judges_body (tags : list Tag) (ind : nat) (tag : Tag)
    (s : gmap details_key value * list string * bool)
    : outcome (gmap details_key value * list string * bool) :=
  let '(details, judges, faisla) := s in
  let text := get_text_sep tag in
  if truthy text then
    if any_in KEYWORDS_8 text then Next (details, judges ++ [text], faisla)
    else
      let details1 := <[K_nyayadhish := VList judges]> details in
      if any_startswith KEYWORDS_7 text && has_miti text
      then Break (ind + 1) (<[K_adesh_miti := VStr text]> details1, judges, true)
      else if any_in KEYWORDS_10 text
      then Break ind (<[K_case_no := VStr text]> details1, judges, faisla)
      else if negb (any_in KEYWORDS_3 text) && negb (any_in KEYWORDS_5 text)
      then
        if negb (String.eqb text "फैसला")
        then Break (ind + 1)
                   (<[K_case_no := VStr text]> details1, judges, faisla)
        else match tags !! (ind + 1) with
             | None => Throw IndexError
             | Some tag2 =>
                 Break (ind + 1 + 1)
                       (<[K_case_no := VStr (get_text_sep tag2)]> details1,
                        judges, faisla)
             end
      else Break ind (details1, judges, faisla)
  else Next s.

Definition judges_phase (tags : list Tag) (st : cursor * gmap details_key value)
    : result (cursor * gmap details_key value * bool) :=
  let '(c, details) := st in
  '(i, (details', _, faisla)) ←
      while_ind tags (judges_body tags) (ind c) (details, [], false);
  mret (mkCursor i (temp_ind_32 c), details', faisla).

(** [if faisla_miti_before_case_no:] the first non-empty line; the boolean
    of the state is [subject_before_case_no] *)
Definition after_date_body (ind : nat) (tag : Tag)
    (s : gmap details_key value * bool) : outcome (gmap details_key value * bool) :=
  let '(details, subject_before) := s in
  let text := get_text_sep tag in
  if truthy text then
    if any_in KEYWORDS_10 text
    then Break (ind + 1) (<[K_case_no := VStr text]> details, subject_before)
    else if any_startswith KEYWORDS_5 text
    then Break (ind + 1) (<[K_bisaya := VStr text]> details, true)
    else Break (ind + 1) (<[K_case_no := VStr text]> details, subject_before)
  else Next s.

(** [else:] the order-date line, given up at a citation or holding line *)
Definition order_date_body (temp : nat) (ind : nat) (tag : Tag)
    (s : gmap details_key value * bool) : outcome (gmap details_key value * bool) :=
  let '(details, subject_before) := s in
  let text := get_text_sep tag in
  if truthy text then
    if any_startswith KEYWORDS_7 text && has_miti text
    then Break (ind + 1) (<[K_adesh_miti := VStr text]> details, subject_before)
    else if any_startswith KEYWORDS_2 text || is_tahar_token text
    then Break temp s
    else Next s
  else Next s.

Definition date_or_case_phase (tags : list Tag) (faisla : bool)
    (st : cursor * gmap details_key value)
    : result (cursor * gmap details_key value * bool) :=
  let '(c, details) := st in
  '(i, (details', subject_before)) ←
      while_ind tags (if faisla then after_date_body
                      else order_date_body (temp_ind_32 c))
                (ind c) (details, false);
  mret (mkCursor i (temp_ind_32 c), details', subject_before).

(** [if subject_before_case_no:] the first non-empty line is the case
    number *)
Definition case_no_body (ind : nat) (tag : Tag) (details : gmap details_key value)
    : outcome (gmap details_key value) :=
  let text := get_text_sep tag in
  if truthy text then Break (ind + 1) (<[K_case_no := VStr text]> details)
  else Next details.

(** [else:] the subject line, given up at a petitioner line *)
Definition subject_body (temp : nat) (ind : nat) (tag : Tag)
    (details : gmap details_key value) : outcome (gmap details_key value) :=
  let text := get_text_sep tag in
  if truthy text then
    if any_startswith KEYWORDS_5 text
    then Break (ind + 1) (<[K_bisaya := VStr text]> details)
    else if any_in KEYWORDS_3 text then Break temp details
    else Next details
  else Next details.

Definition case_or_subject_phase (tags : list Tag) (subject_before : bool)
    (st : cursor * gmap details_key value) : result (cursor * gmap details_key value) :=
  let '(c, details) := st in
  '(i, details') ←
      while_ind tags (if subject_before then case_no_body
                      else subject_body (temp_ind_32 c))
                (ind c) details;
  mret (mkCursor i (temp_ind_32 c), details').

(** the count of exact [KEYWORDS_9] lines from the cursor up to the first
    line that starts with a [KEYWORDS_2] marker *)
Definition count_body (ind : nat) (tag : Tag) (count : nat) : outcome nat :=
  let text := get_text_sep tag in
  let count' := if truthy text && any_eq KEYWORDS_9 text
                then count + 1 else count in
  if any_startswith KEYWORDS_2 text then Break ind count'
  else Next count'.

Definition count_how_many (tags : list Tag) (ind : nat) : nat :=
  match while_ind tags count_body ind 0 with
  | Ok (_, count) => count
  | Raise _ => 0
  end.

(** [while count_how_many > 0:] one petitioner scan and one respondent
    scan per round, each with its checkpoint *)
Fixpoint pairs (tags : list Tag) (count : nat) (c : cursor)
    (appellant opposition : list string)
    : result (cursor * list string * list string) :=
  match count with
  | 0 => Ok (c, appellant, opposition)
  | S count' =>
      let n := length tags in
      '(i, found) ← party_scan get_text_sep KEYWORDS_3 false tags (ind c);
      let appellant' := match found with
                        | Some text => appellant ++ [text]
                        | None => appellant
                        end in
      let c1 := checkpoint n (mkCursor i (temp_ind_32 c)) in
      '(j, found2) ← party_scan get_text_sep KEYWORDS_4 false tags (ind c1);
      let opposition' := match found2 with
                         | Some text => opposition ++ [text]
                         | None => opposition
                         end in
      let c2 := checkpoint n (mkCursor j (temp_ind_32 c1)) in
      pairs tags count' c2 appellant' opposition'
  end.

(** the scan over [temp_ind_128] from the top of the document *)
Definition case_no_list_body (ind : nat) (tag : Tag) (case_no : list string)
    : outcome (list string) :=
  let text := get_text_sep tag in
  if truthy text then
    let case_no' := if any_in KEYWORDS_10 text
                    then case_no ++ [text] else case_no in
    if any_startswith KEYWORDS_2 text || any_eq KEYWORDS_7 text
    then Break ind case_no'
    else Next case_no'
  else Next case_no.

Definition collect_case_no (tags : list Tag) : list string :=
  match while_ind tags case_no_list_body 0 [] with
  | Ok (_, case_no) => case_no
  | Raise _ => []
  end.

Definition petitioner_phase :=
  party_phase get_text_sep KEYWORDS_3 false K_nibedak.
Definition respondent_phase :=
  party_phase get_text_sep KEYWORDS_4 false K_bipakshi.

(** [if count_how_many > 1: ... else: ...] *)
Definition parties_phase (tags : list Tag) (st : cursor * gmap details_key value)
    : result (cursor * gmap details_key value) :=
  let n := length tags in
  let count := count_how_many tags (ind (fst st)) in
  if 1 <? count then
    '(c, appellant, opposition) ← pairs tags count (fst st) [] [];
    mret (c, <[K_bipakshi := VList opposition]>
               (<[K_nibedak := VList appellant]>
                  (<[K_case_no := VList (collect_case_no tags)]> (snd st))))
  else
    st1 ← checkpointed n <$> petitioner_phase tags st;
    checkpointed n <$> respondent_phase tags st1.

(** the phases before the parties, each followed by its checkpoint *)
Definition before_parties (tags : list Tag)
    : result (cursor * gmap details_key value) :=
  let n := length tags in
  let st0 := (mkCursor 0 0, (∅ : gmap details_key value)) in
  st1 ← checkpointed n <$> court_phase tags st0;
  '(c2, details2, faisla) ← judges_phase tags st1;
  let st2 := checkpointed n (c2, details2) in
  '(c3, details3, subject_before) ← date_or_case_phase tags faisla st2;
  let st3 := checkpointed n (c3, details3) in
  checkpointed n <$> case_or_subject_phase tags subject_before st3.

Definition fields (tags : list Tag) : result (cursor * gmap details_key value) :=
  st ← before_parties tags;
  parties_phase tags st.

Definition extract (tags : list Tag) : result (gmap details_key value) :=
  '(c, details) ← fields tags;
  mret (store_segment KEYWORDS_2 tags (ind c) details).
End Era2062.

(** ** [scrape_case_details_2073_to_2080_and_beyond]: the body of
    [if div_tag:].  The field phases read [get_text(strip=True)]; the
    segmentation reads [get_text(separator=' ', strip=True)]. *)

Module Era2073.
Import KW2045.

(** "Extract court information" *)
Definition court_body (ind : nat) (tag : Tag) (details : gmap details_key value)
    : outcome (gmap details_key value) :=
  let text := get_text_strip tag in
  if truthy text && any_in KEYWORDS_6 text
  then Break (ind + 1) (<[K_adalat_ijlas := VStr text]> details)
  else Next details.

Definition run_body (tags : list Tag)
    (body : nat -> Tag -> gmap details_key value -> outcome (gmap details_key value))
    (st : cursor * gmap details_key value) : result (cursor * gmap details_key value) :=
  let '(c, details) := st in
  '(i, details') ← while_ind tags body (ind c) details;
  mret (mkCursor i (temp_ind_32 c), details').

Definition court_phase (tags : list Tag) := run_body tags court_body.

(** "Extract judges" *)
Definition judges_body (ind : nat) (tag : Tag)
    (s : gmap details_key value * list string)
    : outcome (gmap details_key value * list string) :=
  let '(details, judges) := s in
  let text := get_text_strip tag in
  if truthy text then
    let judges' := if any_in KEYWORDS_8 text
                   then judges ++ [text] else judges in
    if any_startswith KEYWORDS_7 text && has_miti text
    then Break (ind + 1)
               (<[K_adesh_miti := VStr text]>
                  (<[K_nyayadhish := VList judges']> details), judges')
    else Next (details, judges')
  else Next s.

Definition judges_phase (tags : list Tag) (st : cursor * gmap details_key value)
    : result (cursor * gmap details_key value) :=
  let '(c, details) := st in
  '(i, (details', _)) ← while_ind tags judges_body (ind c) (details, []);
  mret (mkCursor i (temp_ind_32 c), details').

(** "Extract case details"; the boolean of the state is
    [bisaya_before_kas_no] *)
Definition case_body (ind : nat) (tag : Tag) (s : gmap details_key value * bool)
    : outcome (gmap details_key value * bool) :=
  let '(details, bisaya) := s in
  let text := get_text_strip tag in
  if truthy text then
    if any_in KEYWORDS_5 text
    then Break (ind + 1) (<[K_bisaya := VStr text]> details, true)
    else Break ind (<[K_case_no := VStr text]> details, bisaya)
  else Next s.

Definition case_phase (tags : list Tag) (st : cursor * gmap details_key value)
    : result (cursor * gmap details_key value * bool) :=
  let '(c, details) := st in
  '(i, (details', bisaya)) ← while_ind tags case_body (ind c) (details, false);
  mret (mkCursor i (temp_ind_32 c), details', bisaya).

(** the case-number scan of the consolidated branch: the first non-empty
    line *)
Definition first_text_body (ind : nat) (tag : Tag) (found : option string)
    : outcome (option string) :=
  let text := get_text_strip tag in
  if truthy text then Break (ind + 1) (Some text) else Next found.

(** "Check for end condition": [Some true] at a [KEYWORDS_2] line,
    [Some false] at an exact [KEYWORDS_9] line, [None] at the end *)
Fixpoint end_condition (rest : list Tag) : option bool :=
  match rest with
  | [] => None
  | tag :: rest' =>
      let text := get_text_strip tag in
      if any_in KEYWORDS_2 text then Some true
      else if any_eq KEYWORDS_9 text then Some false
      else end_condition rest'
  end.

Definition push (l : list string) (found : option string) : list string :=
  match found with
  | Some text => l ++ [text]
  | None => l
  end.

(** [while temp_flag and ind < n:]; [None] when [fuel] rounds were not
    enough to leave the loop *)
Fixpoint consolidated (fuel : nat) (tags : list Tag) (ind : nat)
    (case_no appellant opposition : list string)
    (details : gmap details_key value)
    : option (result (nat * gmap details_key value)) :=
  if ind <? length tags then
    match fuel with
    | 0 => None
    | S fuel' =>
        match while_ind tags first_text_body ind None with
        | Raise e => Some (Raise e)
        | Ok (i1, found1) =>
        match party_scan get_text_strip KEYWORDS_3 false tags i1 with
        | Raise e => Some (Raise e)
        | Ok (i2, found2) =>
        match party_scan get_text_strip KEYWORDS_4 false tags i2 with
        | Raise e => Some (Raise e)
        | Ok (i3, found3) =>
            let case_no' := push case_no found1 in
            let appellant' := push appellant found2 in
            let opposition' := push opposition found3 in
            match end_condition (drop i3 tags) with
            | Some true =>
                Some (Ok (i3,
                          <[K_bipakshi := VList opposition']>
                            (<[K_nibedak := VList appellant']>
                               (<[K_case_no := VList case_no']> details))))
            | _ => consolidated fuel' tags i3 case_no' appellant'
                                opposition' details
            end
        end end end
    end
  else Some (Ok (ind, details)).

Definition subject_body (ind : nat) (tag : Tag) (details : gmap details_key value)
    : outcome (gmap details_key value) :=
  let text := get_text_strip tag in
  if any_in KEYWORDS_5 text
  then Break (ind + 1) (<[K_bisaya := VStr text]> details)
  else Next details.

Definition subject_phase (tags : list Tag) := run_body tags subject_body.

Definition petitioner_phase :=
  party_phase get_text_strip KEYWORDS_3 false K_nibedak.
Definition respondent_phase :=
  party_phase get_text_strip KEYWORDS_4 false K_bipakshi.

(** "Handle different case structures" *)
Definition structure_phase (fuel : nat) (tags : list Tag) (bisaya : bool)
    (st : cursor * gmap details_key value)
    : option (result (cursor * gmap details_key value)) :=
  let n := length tags in
  if bisaya then
    match consolidated fuel tags (ind (fst st)) [] [] [] (snd st) with
    | None => None
    | Some r =>
        Some ('(i, details) ← r;
              mret (checkpoint n (mkCursor i (temp_ind_32 (fst st))),
                    details))
    end
  else
    Some (st1 ← checkpointed n <$> subject_phase tags st;
          st2 ← checkpointed n <$> petitioner_phase tags st1;
          checkpointed n <$> respondent_phase tags st2).

(** the phases before the case structure; the third one is followed by
    [if ind > n: ind = temp_ind_32 else: temp_ind_32 = ind] *)
Definition before_structure (tags : list Tag)
    : result (cursor * gmap details_key value * bool) :=
  let n := length tags in
  let st0 := (mkCursor 0 0, (∅ : gmap details_key value)) in
  st1 ← checkpointed n <$> court_phase tags st0;
  st2 ← checkpointed n <$> judges_phase tags st1;
  '(c3, details3, bisaya) ← case_phase tags st2;
  mret (checkpoint_gt n c3, details3, bisaya).

Definition fields_fuel (fuel : nat) (tags : list Tag)
    : option (result (cursor * gmap details_key value)) :=
  match before_structure tags with
  | Raise e => Some (Raise e)
  | Ok (c, details, bisaya) => structure_phase fuel tags bisaya (c, details)
  end.

Definition extract_fuel (fuel : nat) (tags : list Tag)
    : option (result (gmap details_key value)) :=
  match fields_fuel fuel tags with
  | None => None
  | Some r =>
      Some ('(c, details) ← r;
            mret (store_segment KEYWORDS_2 tags (ind c) details))
  end.

(** one round of the consolidated loop moves [ind] forward, so
    [length tags] rounds are enough (see [extract_fuel_enough]) *)
Definition extract (tags : list Tag) : option (result (gmap details_key value)) :=
  extract_fuel (length tags) tags.
End Era2073.

(** ** [json.dumps(..., ensure_ascii=False)] on strings and lists of strings *)

Definition hex_digit (k : nat) : ascii :=
  ascii_of_nat (if k <? 10 then 48 + k else 87 + k).

Definition quote_char : ascii := ascii_of_nat 34.
Definition backslash : ascii := ascii_of_nat 92.

(** the replacement of one character inside a JSON string *)
Definition json_escape_char (c : ascii) : string :=
  let k := nat_of_ascii c in
  if k =? 34 then String backslash (String quote_char EmptyString)
  else if k =? 92 then String backslash (String backslash EmptyString)
  else if k =? 10 then String backslash "n"
  else if k =? 13 then String backslash "r"
  else if k =? 9 then String backslash "t"
  else if k =? 8 then String backslash "b"
  else if k =? 12 then String backslash "f"
  else if k <? 32
  then String backslash
         ("u00" +:+ String (hex_digit (k / 16))
                      (String (hex_digit (k mod 16)) EmptyString))
  else String c EmptyString.

Fixpoint json_escape (s : string) : string :=
  match s with
  | EmptyString => EmptyString
  | String c rest => json_escape_char c +:+ json_escape rest
  end.

Definition json_str (s : string) : string :=
  String quote_char (json_escape s +:+ String quote_char EmptyString).

Fixpoint json_items (l : list string) : string :=
  match l with
  | [] => EmptyString
  | [x] => json_str x
  | x :: rest => json_str x +:+ ", " +:+ json_items rest
  end.

Definition json_list (l : list string) : string :=
  "[" +:+ json_items l +:+ "]".

(** ** The [data] dictionary handed to [save_to_sqlite]

    The keys are fixed, so [data] is a record; its fields are named after
    the columns: [link] लिङ्क, [nirnaya_no] निर्णय नं., [bhaag] भाग,
    [mudda_type] मुद्दाको किसिम, [saal] साल, [mahina] महिना, [anka] अंक,
    [faisala_miti] फैसला मिति, [adalat] अदालत / इजलास, [nyayadhish]
    न्यायाधीश, [adesh_miti] आदेश मिति, [case_no] केस_नम्बर, [bisaya] विषय,
    [nibedak] निवेदक, [bipakshi] विपक्षी, [prakaran] प्रकरण, [thahar] ठहर.
    A field that may hold [None] is an [option]. *)

Record Data := mkData {
  link : string;
  nirnaya_no : string;
  bhaag : option string;
  mudda_type : option string;
  saal : option string;
  mahina : option string;
  anka : option string;
  faisala_miti : string;
  adalat : string;
  nyayadhish : string;
  adesh_miti : string;
  case_no : string;
  bisaya : string;
  nibedak : string;
  bipakshi : string;
  prakaran : string;
  thahar : string;
  html_file_path : string
}.

(** what the procedures look at in the page before the detail block:
    [title_words] is [title_tag.get_text(strip=True).split()] for
    [title_tag = soup.find("h1", class_="post-title")], [None] when there is
    no such tag; the edition fields are the results of [get_edition_field];
    [date_words] is
    [post_meta.text.strip().split("फैसला मिति :")[-1].split("\n")[0].strip().split()]
    for [post_meta = soup.find("div", class_="post-meta")], [None] when there
    is no such tag or its text does not hold ["फैसला मिति"]; [div_tag] is
    [div_tag.find_all(['h1', 'p'])] when the detail block exists *)
Record Page := mkPage {
  title_words : option (list string);
  page_bhaag : option string;
  page_saal : option string;
  page_mahina : option string;
  page_anka : option string;
  date_words : option (list string);
  div_tag : option (list Tag)
}.

(** the title as the four earlier procedures read it:
    [words[2] if title_tag and len(words) > 2 else "N/A"] *)
Definition decision_title (page : Page) : string :=
  match title_words page with
  | Some words =>
      match words !! 2 with
      | Some word => word
      | None => "N/A"
      end
  | None => "N/A"
  end.

(** the decision date as the four earlier procedures read it: ["N/A"],
    replaced by [words[0]] under [try: ... except IndexError:] *)
Definition decision_date (page : Page) : string :=
  match date_words page with
  | Some words =>
      match words !! 0 with
      | Some word => word
      | None => "N/A"
      end
  | None => "N/A"
  end.

(** the same reads in the 2073 procedure, which has neither the length test
    nor the [try]: [words[2] if title_tag else "N/A"], and [words[0]] *)
Definition decision_title_2073 (page : Page) : result string :=
  match title_words page with
  | Some words =>
      match words !! 2 with
      | Some word => Ok word
      | None => Raise IndexError
      end
  | None => Ok "N/A"
  end.

Definition decision_date_2073 (page : Page) : result string :=
  match date_words page with
  | Some words =>
      match words !! 0 with
      | Some word => Ok word
      | None => Raise IndexError
      end
  | None => Ok "N/A"
  end.

(** both, in the order of the procedure *)
Definition reads_2073 (page : Page) : result (string * string) :=
  title ← decision_title_2073 page;
  date ← decision_date_2073 page;
  mret (title, date).

(** [x or "N/A"] *)
Definition or_na (x : option string) : option string :=
  match x with
  | Some s => if truthy s then Some s else Some "N/A"
  | None => Some "N/A"
  end.

(** [details.get(key, "N/A")] as a column value.  A list bound to a text
    column is refused by sqlite3 when the statement is executed; the
    procedures never store a list under these keys. *)
Definition get_text_field (details : gmap details_key value) (key : details_key)
    : result string :=
  match details !! key with
  | None => Ok "N/A"
  | Some (VStr s) => Ok s
  | Some (VList _) => Raise InterfaceError
  end.

(** [json.dumps(details.get(key, []), ensure_ascii=False)] *)
Definition get_json_field (details : gmap details_key value) (key : details_key)
    : string :=
  match details !! key with
  | None => json_list []
  | Some (VStr s) => json_str s
  | Some (VList l) => json_list l
  end.

(** [json.dumps(details.get(key, []), ensure_ascii=False)
     if isinstance(details.get(key), list) else details.get(key, "N/A")] *)
Definition get_list_or_text_field (details : gmap details_key value) (key : details_key)
    : string :=
  match details !! key with
  | None => "N/A"
  | Some (VStr s) => s
  | Some (VList l) => json_list l
  end.

(** "Combine all data"; [court_key] is the key the procedure stores the
    court under, [defaulted] tells whether the edition fields go through
    [or "N/A"] *)
Definition combine_data (court_key : details_key) (defaulted : bool)
    (url : string) (mudda : option string) (page : Page) (path : string)
    (details : gmap details_key value) : result Data :=
  let ed := if defaulted then or_na else (fun x => x) in
  court ← get_text_field details court_key;
  adesh ← get_text_field details K_adesh_miti;
  subject ← get_text_field details K_bisaya;
  mret (mkData url (decision_title page) (ed (page_bhaag page)) mudda
               (ed (page_saal page)) (ed (page_mahina page))
               (ed (page_anka page))
               ("'" +:+ decision_date page +:+ "'")
               court
               (get_json_field details K_nyayadhish)
               adesh
               (get_list_or_text_field details K_case_no)
               subject
               (get_list_or_text_field details K_nibedak)
               (get_list_or_text_field details K_bipakshi)
               (get_json_field details K_prakaran)
               (get_json_field details K_thahar)
               path).

(** ** The [cases] table

    [id INTEGER PRIMARY KEY AUTOINCREMENT], [लिङ्क TEXT UNIQUE], the other
    columns of [data], [created_at TIMESTAMP DEFAULT CURRENT_TIMESTAMP].
    [seq] is the AUTOINCREMENT counter sqlite keeps for the table. *)

Record Row := mkRow { row_id : Z; row_data : Data; created_at : Z }.

Record DB := mkDB { cases : list Row; seq : Z }.

Definition empty_db : DB := mkDB [] 0.

(** [SELECT लिङ्क FROM cases WHERE लिङ्क = ?] followed by
    [cursor.fetchone()] *)
Definition link_exists (db : DB) (url : string) : bool :=
  existsb (fun r => String.eqb (link (row_data r)) url) (cases db).

Definition max_row_id (rows : list Row) : Z :=
  fold_right (fun r m => Z.max (row_id r) m) 0%Z rows.

(** [INSERT OR REPLACE INTO cases (...) VALUES (...)] at time [now]: the
    rows in conflict on the UNIQUE link are deleted, the new row takes the
    next AUTOINCREMENT id and the current timestamp. *)
Definition save_to_sqlite (db : DB) (data : Data) (now : Z) : DB :=
  let id := (Z.max (seq db) (max_row_id (cases db)) + 1)%Z in
  let kept := List.filter
                (fun r => negb (String.eqb (link (row_data r)) (link data)))
                (cases db) in
  mkDB (kept ++ [mkRow id data now]) id.

(** the columns of [data] stored under a link *)
Definition stored (db : DB) (url : string) : list Data :=
  map row_data
      (List.filter (fun r => String.eqb (link (row_data r)) url) (cases db)).

(** ** The five procedures

    [Fetch] is what the outside world answers during one call: the page
    returned by [return_soup] ([None] when it fails), the path computed for
    the saved HTML file, whether [requests.get] answered 200 (read by the
    2073 procedure only) and the time of the insertion. *)

Record Fetch := mkFetch {
  soup : option Page;
  saved_path : string;
  status_200 : bool;
  now : Z
}.

(** from "Get HTML file path" to the end of the [try] block, given the
    outcome of the detail extraction.  Any exception ends in
    [except Exception: return False] with nothing saved. *)
Definition finish (court_key : details_key) (defaulted : bool)
    (url : string) (mudda : option string) (f : Fetch) (page : Page) (db : DB)
    (details : result (gmap details_key value)) : bool * DB :=
  match details ≫= combine_data court_key defaulted url mudda page (saved_path f) with
  | Ok data => (true, save_to_sqlite db data (now f))
  | Raise _ => (false, db)
  end.

(** [details = {}] and [if div_tag: ...] *)
Definition details_of (extract : list Tag -> result (gmap details_key value))
    (page : Page) : result (gmap details_key value) :=
  match div_tag page with
  | Some tags => extract tags
  | None => Ok ∅
  end.

(** the procedures that first look the link up in [cases] *)
Definition scrape_checked (extract : list Tag -> result (gmap details_key value))
    (court_key : details_key)
    (url : string) (mudda : option string) (f : Fetch) (db : DB)
    : bool * DB :=
  if link_exists db url then (true, db)
  else match soup f with
       | None => (false, db)
       | Some page =>
           finish court_key true url mudda f page db (details_of extract page)
       end.

Definition scrape_case_details_2015_to_2044 :=
  scrape_checked Era2015.extract K_ijlas.
Definition scrape_case_details_2045_to_2050 :=
  scrape_checked Era2045.extract K_ijlas.
Definition scrape_case_details_2051_to_2061 :=
  scrape_checked Era2051.extract K_ijlas.
Definition scrape_case_details_2062_to_2072 :=
  scrape_checked Era2062.extract K_adalat_ijlas.

(** the 2073 procedure asks the server first and does not look the link up;
    it reads the title and the decision date without bounds checks, and an
    [IndexError] there ends, like any exception, in
    [except Exception: return False]; when both reads return they return
    [decision_title page] and [decision_date page] (see
    [reads_2073_agree]), the values [combine_data] stores; its edition
    fields are stored as read.  [None] only if the consolidated loop were
    to run out of rounds. *)
Definition scrape_case_details_2073_to_2080_and_beyond
    (url : string) (mudda : option string) (f : Fetch) (db : DB)
    : option (bool * DB) :=
  if negb (status_200 f) then Some (false, db)
  else match soup f with
       | None => Some (false, db)
       | Some page =>
           match reads_2073 page with
           | Raise _ => Some (false, db)
           | Ok _ =>
               match div_tag page with
               | None =>
                   Some (finish K_adalat_ijlas false url mudda f page db
                                (Ok ∅))
               | Some tags =>
                   finish K_adalat_ijlas false url mudda f page db
                     <$> Era2073.extract tags
               end
           end
       end.

(** ** Choosing the procedure *)

Inductive Era := E2015 | E2045 | E2051 | E2062 | E2073.



(** the bound method [determine_scraper_method] returns for an era, applied
    to the arguments of the call *)
Definition scraper_of (url : string) (mudda : option string) (f : Fetch)
    (e : Era) (db : DB) : option (bool * DB) :=
  match e with
  | E2015 => Some (scrape_case_details_2015_to_2044 url mudda f db)
  | E2045 => Some (scrape_case_details_2045_to_2050 url mudda f db)
  | E2051 => Some (scrape_case_details_2051_to_2061 url mudda f db)
  | E2062 => Some (scrape_case_details_2062_to_2072 url mudda f db)
  | E2073 => scrape_case_details_2073_to_2080_and_beyond url mudda f db
  end.

Section Generic.
(** the procedures, as any functions of the era and the database *)
Variable scraper_method : Era -> DB -> option (bool * DB).

End Generic.

(** ** [from_each_page]

    [links] is the list of [href] attributes of the anchors
    ([links[i].get('href')], [None] when the attribute is missing). *)

(** [href and "#" in href] *)
Definition is_marker (href : option string) : bool :=
  match href with
  | Some h => truthy h && contains "#" h
  | None => false
  end.

(** the [while] loop over [i]: [links] is [links[i:]], the result is what
    the loop appends to [li] *)
Fixpoint collect_links (links : list (option string)) : list string :=
  match links with
  | [] => []
  | href :: rest =>
      if is_marker href then
        match rest with
        | [] => []
        | Some temp_href :: _ =>
            if truthy temp_href then temp_href :: collect_links rest
            else collect_links rest
        | None :: _ => collect_links rest
        end
      else collect_links rest
  end.

(** [list(dict.fromkeys(li))]: the keys of the dictionary in insertion
    order *)
Definition dict_fromkeys (li : list string) : list string :=
  fold_left (fun keys k => if existsb (String.eqb k) keys then keys
                           else keys ++ [k]) li [].

Definition from_each_page (links : list (option string)) : list string :=
  let li := collect_links links in
  if 1 <? length li then dict_fromkeys li else [].

(** ** Notions used to state the properties *)

(** the position of the first occurrence of [x] in [l] *)
Fixpoint first_index (x : string) (l : list string) : nat :=
  match l with
  | [] => 0
  | y :: r => if String.eqb x y then 0 else S (first_index x r)
  end.

(** the keys added by reading [l] into a dictionary that already holds
    [seen] *)
Fixpoint new_keys (seen l : list string) : list string :=
  match l with
  | [] => []
  | x :: r => if existsb (String.eqb x) seen then new_keys seen r
              else x :: new_keys (seen ++ [x]) r
  end.

(** a record with every extracted field unknown *)
Definition sample_data (url : string) : Data :=
  mkData url "N/A" None None None None None "'N/A'" "N/A" "[]" "N/A" "N/A"
         "N/A" "N/A" "N/A" "[]" "[]" EmptyString.

(** the fields of a record that come from the detail block: court, judges,
    order date, case number, subject, petitioner, respondent, citations,
    holding *)
Definition extracted_fields (d : Data) : list string :=
  [adalat d; nyayadhish d; adesh_miti d; case_no d; bisaya d; nibedak d;
   bipakshi d; prakaran d; thahar d].

(** their values when nothing was found: ["N/A"] for a text, the empty JSON
    array for a list *)
Definition unknown_fields : list string :=
  ["N/A"; "[]"; "N/A"; "N/A"; "N/A"; "N/A"; "N/A"; "[]"; "[]"].

(** the same with the empty string for the subject *)
Definition unknown_fields_empty_subject : list string :=
  ["N/A"; "[]"; "N/A"; "N/A"; EmptyString; "N/A"; "N/A"; "[]"; "[]"].

(** a page with the given detail block and nothing else of interest: no
    title, no edition field, no decision date *)
Definition page_of (tags : option (list Tag)) : Page :=
  mkPage None None None None None None tags.

(** the same page with a title of two words *)
Definition short_title_page (tags : option (list Tag)) : Page :=
  mkPage (Some ["निर्णय"; "नं."]) None None None None None tags.

(** the answer of the outside world with that page *)
Definition fetch_of (tags : option (list Tag)) : Fetch :=
  mkFetch (Some (page_of tags)) EmptyString true 0.

(** an empty paragraph followed by a list holding one citation *)
Definition drift_tags_2073 : list Tag :=
  [mkTag EmptyString EmptyString ["(प्रकरण नं. १) क"]].

(** a subject line followed by a line without keywords *)
Definition drift_tags_2051 : list Tag := [P "विषय : क"; P "ख"].

(** the texts the segmentation visits, in order: each tag's text followed
    by the texts of its list items *)
Definition visited (tags : list Tag) : list string :=
  flat_map (fun tag => get_text_sep tag :: list_items tag) tags.

(** the holding list and its flag *)
Definition hold (s : seg) : list string * bool :=
  (tahar s, temp_flag_tahar s).

(** what one visited text does to the holding list and its flag *)
Definition holding_step (h : list string * bool) (text : string)
    : list string * bool :=
  if truthy text && (is_tahar_token text || snd h)
  then (fst h ++ [text], true) else h.

(** [t] is inside a citation entry, in the holding list, or inside the
    pending accumulator *)
Definition kept (t : string) (s : seg) : Prop :=
  (exists e, In e (prakarans s) /\ contains t e = true) \/
  In t (tahar s) \/
  contains t (prev s) = true.

(** a [details] entry that is missing or holds a text, not a list *)
Definition scalar_or_absent (o : option value) : Prop :=
  match o with
  | Some (VList _) => False
  | _ => True
  end.





(** one case with its versus line *)
Definition single_case_tags : list Tag :=
  [P "निवेदक : क"; P "विरुद्ध"; P "विपक्षी : ख"; P "(प्रकरण नं. १) घ"].

(** ** Numerals, case types and the search URL *)

(** [self.mudda_type_arr] *)
Definition mudda_type_arr : list string :=
  ["दुनियाबादी देवानी";
   "सरकारबादी देवानी";
   "दुनियावादी फौजदारी";
   "सरकारवादी फौजदारी";
   "रिट";
   "निवेदन";
   "विविध"].

(** [str(n)] of a non-negative integer *)
Definition py_str (n : nat) : string :=
  NilEmpty.string_of_uint (Nat.to_uint n).

(** [l.index(x)]: the first position of [x], [None] where Python raises
    [ValueError] *)
Fixpoint list_index (x : string) (l : list string) : option nat :=
  match l with
  | [] => None
  | y :: r => if String.eqb y x then Some 0
              else option_map S (list_index x r)
  end.

Definition get_mudda_type_number (mudda_type : string) : result string :=
  match list_index mudda_type mudda_type_arr with
  | Some k => Ok (py_str (k + 1))
  | None => Raise ValueError
  end.

(** the dictionary [nepali_to_english] of [nepali_sal_to_english_sal] *)
Definition nepali_to_english : list (string * string) :=
  [("०", "0"); ("१", "1"); ("२", "2"); ("३", "3"); ("४", "4");
   ("५", "5"); ("६", "6"); ("७", "7"); ("८", "8"); ("९", "9")].

(** The keys of [nepali_to_english] are the code points U+0966 to U+096F,
    in UTF-8 the bytes 224 165 166 to 224 165 175; [devanagari_digit a b c]
    is the value of the dictionary for the character made of the bytes
    [a b c], if it is a key. *)
Definition devanagari_digit (a b c : ascii) : option ascii :=
  if (nat_of_ascii a =? 224) && (nat_of_ascii b =? 165)
     && (166 <=? nat_of_ascii c) && (nat_of_ascii c <=? 175)
  then Some (ascii_of_nat (nat_of_ascii c - 166 + 48))
  else None.

(** [''.join(nepali_to_english.get(char, char) for char in str(sal))].
    A key can only start at the first byte of a character, so replacing the
    keys found while reading the bytes from the left replaces exactly the
    characters that are keys. *)
Fixpoint translate_digits (s : string) : string :=
  match s with
  | EmptyString => EmptyString
  | String a r1 =>
      match r1 with
      | String b (String c rest) =>
          match devanagari_digit a b c with
          | Some d => String d (translate_digits rest)
          | None => String a (translate_digits r1)
          end
      | _ => String a (translate_digits r1)
      end
  end.

(** [if not sal:] returns the empty string; otherwise the translation *)
Definition nepali_sal_to_english_sal (sal : string) : string :=
  if truthy sal then translate_digits sal else EmptyString.

(** [urllib.parse.quote_plus] on the UTF-8 bytes of a text: the letters,
    the digits and [_.-~] are kept, a space becomes [+], any other byte
    becomes [%XX] *)
Definition always_safe (c : ascii) : bool :=
  let k := nat_of_ascii c in
  (65 <=? k) && (k <=? 90) || (97 <=? k) && (k <=? 122)
  || (48 <=? k) && (k <=? 57)
  || (k =? 95) || (k =? 46) || (k =? 45) || (k =? 126).

Definition hex_upper (k : nat) : ascii :=
  ascii_of_nat (if k <? 10 then 48 + k else 55 + k).

Definition quote_plus_char (c : ascii) : string :=
  let k := nat_of_ascii c in
  if always_safe c then String c EmptyString
  else if k =? 32 then "+"
  else String "%" (String (hex_upper (k / 16))
                     (String (hex_upper (k mod 16)) EmptyString)).

Fixpoint quote_plus (s : string) : string :=
  match s with
  | EmptyString => EmptyString
  | String c rest => quote_plus_char c +:+ quote_plus rest
  end.

(** [urlencode(params)] for a dictionary of texts, in insertion order *)
Definition urlencode (params : list (string * string)) : string :=
  String.concat "&"
    (map (fun kv => quote_plus (fst kv) +:+ "=" +:+ quote_plus (snd kv))
         params).

(** [{name: str(idx + 1) for idx, name in enumerate(self.mudda_type_arr)}]
    as the list of its items; a later item for the same name would replace
    an earlier one *)
Definition mudda_types : list (string * string) :=
  imap (fun idx name => (name, py_str (idx + 1))) mudda_type_arr.

(** [d[key]] in a dictionary given by its items in the order they were
    set *)
Fixpoint dict_get (key : string) (items : list (string * string))
    : option string :=
  match items with
  | [] => None
  | (k, v) :: rest =>
      match dict_get key rest with
      | Some v' => Some v'
      | None => if String.eqb k key then Some v else None
      end
  end.

Definition search_url (mudda_type sal : string) : result string :=
  match dict_get mudda_type mudda_types with
  | None => Raise ValueError
  | Some number =>
      let english_sal := nepali_sal_to_english_sal sal in
      let base_url := "https://nkp.gov.np/" in
      let params :=
        [("mudda_number", EmptyString);
         ("faisala_date_from", EmptyString);
         ("faisala_date_to", EmptyString);
         ("mudda_type", number);
         ("mudda_name", EmptyString);
         ("badi", EmptyString);
         ("pratibadi", EmptyString);
         ("judge", EmptyString);
         ("ijlas_type", EmptyString);
         ("nirnaya_number", EmptyString);
         ("faisala_type", EmptyString);
         ("keywords", EmptyString);
         ("edition", EmptyString);
         ("year", english_sal);
         ("month", EmptyString);
         ("volume", EmptyString);
         ("Submit", "खोज्‍नुहोस्")] in
      Ok (base_url +:+ "?" +:+ urlencode params +:+ "#")
  end.

(** the Devanagari numeral and the ASCII numeral with the given digits:
    the keys, and the values, of [nepali_to_english] at these positions *)
Definition nepali_numeral (ds : list nat) : string :=
  fold_right (fun d acc => nth d (map fst nepali_to_english) EmptyString
                           +:+ acc) EmptyString ds.

Definition ascii_numeral (ds : list nat) : string :=
  fold_right (fun d acc => nth d (map snd nepali_to_english) EmptyString
                           +:+ acc) EmptyString ds.

(** every byte is below 128 *)
Fixpoint ascii_only (s : string) : bool :=
  match s with
  | EmptyString => true
  | String c rest => (nat_of_ascii c <? 128) && ascii_only rest
  end.

(** ** Notions used to state the safety of the procedures *)

(** the keys of [details] that go to a text column as they are: the court
    (under either key), the order date and the subject *)
Definition is_text_key (k : details_key) : bool :=
  match k with
  | K_ijlas | K_adalat_ijlas | K_adesh_miti | K_bisaya => true
  | _ => false
  end.

(** none of them holds a list *)
Definition text_columns (d : gmap details_key value) : Prop :=
  forall k, is_text_key k = true -> scalar_or_absent (d !! k).

(** the exception is an [IndexError] and the last tag of the block
    satisfies [P] *)
Definition raises_at_end (tags : list Tag) (P : Tag -> Prop) (e : exn)
    : Prop :=
  e = IndexError /\ exists t, last tags = Some t /\ P t.

(** a computation that returns a value satisfying [Q], or raises as
    [raises_at_end] tells *)
Definition good {A : Type} (tags : list Tag) (P : Tag -> Prop)
    (Q : A -> Prop) (r : result A) : Prop :=
  match r with
  | Ok a => Q a
  | Raise e => raises_at_end tags P e
  end.

(** the checkpoint is inside the block, or at its start when the block is
    empty *)
Definition temp_ok (n : nat) (c : cursor) : Prop :=
  temp_ind_32 c < n \/ temp_ind_32 c = 0.

(** so is the cursor, which is at the checkpoint *)
Definition cursor_ok (n : nat) (c : cursor) : Prop :=
  ind c = temp_ind_32 c /\ temp_ok n c.

Definition state_ok (n : nat) (st : cursor * gmap details_key value) : Prop :=
  temp_ok n (fst st) /\ text_columns (snd st).

Definition checked_ok (n : nat) (st : cursor * gmap details_key value)
    : Prop :=
  cursor_ok n (fst st) /\ text_columns (snd st).

(** the detail extraction of each procedure *)
Definition extract_of (e : Era) (tags : list Tag)
    : option (result (gmap details_key value)) :=
  match e with
  | E2015 => Some (Era2015.extract tags)
  | E2045 => Some (Era2045.extract tags)
  | E2051 => Some (Era2051.extract tags)
  | E2062 => Some (Era2062.extract tags)
  | E2073 => Era2073.extract tags
  end.

(** the phases before the segmentation *)
Definition fields_of (e : Era) (tags : list Tag)
    : option (result (cursor * gmap details_key value)) :=
  match e with
  | E2015 => Some (Era2015.fields tags)
  | E2045 => Some (Era2045.fields tags)
  | E2051 => Some (Era2051.fields tags)
  | E2062 => Some (Era2062.fields tags)
  | E2073 => Era2073.fields_fuel (length tags) tags
  end.

(** the [KEYWORDS_2] list of each procedure *)
Definition citation_markers (e : Era) : list string :=
  match e with
  | E2015 => KW2015.KEYWORDS_2
  | _ => KW2045.KEYWORDS_2
  end.

(** the key each procedure stores the court under, and whether it passes
    the edition fields through [or "N/A"] *)
Definition court_key_of (e : Era) : details_key :=
  match e with
  | E2015 | E2045 | E2051 => K_ijlas
  | E2062 | E2073 => K_adalat_ijlas
  end.

(** a last tag that sends a procedure past the end of the block: a line
    that is exactly a petitioner or respondent keyword, and, where the
    procedure reads ahead there too, a line with a court keyword or the
    line ["फैसला"] *)
Definition dangling (e : Era) (t : Tag) : bool :=
  match e with
  | E2015 =>
      any_eq KW2015.KEYWORDS_3 (get_text_sep t)
      || any_eq KW2015.KEYWORDS_4 (get_text_sep t)
      || any_in KW2015.KEYWORDS_6 (get_text_sep t)
  | E2045 =>
      any_eq KW2045.KEYWORDS_3 (get_text_sep t)
      || any_eq KW2045.KEYWORDS_4 (get_text_sep t)
  | E2051 => false
  | E2062 =>
      any_eq KW2045.KEYWORDS_3 (get_text_sep t)
      || any_eq KW2045.KEYWORDS_4 (get_text_sep t)
      || any_in KW2045.KEYWORDS_6 (get_text_sep t)
      || String.eqb (get_text_sep t) "फैसला"
  | E2073 =>
      any_eq KW2045.KEYWORDS_3 (get_text_strip t)
      || any_eq KW2045.KEYWORDS_4 (get_text_strip t)
  end.

(** ** Notions used to state the properties of the [cases] table *)

(** what the schema of [create_tables] promises: no two rows with the same
    link (the UNIQUE column), no two rows with the same [id] (the primary
    key), and every [id] positive and at most the AUTOINCREMENT counter,
    which starts at 0 *)
Definition table_ok (db : DB) : Prop :=
  List.NoDup (map (fun r => link (row_data r)) (cases db)) /\
  List.NoDup (map row_id (cases db)) /\
  (0 <= seq db)%Z /\
  Forall (fun r => (0 < row_id r <= seq db)%Z) (cases db).

(** ** Notions used to state the properties of the segmentation *)

(** every holding entry is a non-empty text, and so is every citation
    entry after the first *)
Definition entries_ok (s : seg) : Prop :=
  Forall (fun x => truthy x = true) (tahar s) /\
  Forall (fun x => truthy x = true) (drop 1 (prakarans s)).

(** the citation list only grows *)
Definition grows (s s' : seg) : Prop :=
  exists more, prakarans s' = prakarans s ++ more.

(** ** Notions used to state where the field values come from *)

(** the text a procedure reads from a tag in its field phases *)
Definition text_of (e : Era) (t : Tag) : string :=
  match e with
  | E2073 => get_text_strip t
  | _ => get_text_sep t
  end.

(** the text of a tag of the block, as the procedure reads it *)
Definition tag_text (e : Era) (tags : list Tag) (s : string) : Prop :=
  exists t, In t tags /\ s = text_of e t.

(** the keys under which a procedure can store the empty string without
    having read it: the court of the 2015, 2045 and 2062 procedures (the
    line before the court line, when there is none) and the subject of the
    2045 procedure (its initial value) *)
Definition empty_allowed (e : Era) (k : details_key) : bool :=
  match e, k with
  | E2015, K_ijlas | E2045, K_ijlas | E2062, K_adalat_ijlas
  | E2045, K_bisaya => true
  | _, _ => false
  end.

(** the key under which a procedure can store two texts joined by a space:
    the court of the 2015 and 2062 procedures *)
Definition joined_allowed (e : Era) (k : details_key) : bool :=
  match e, k with
  | E2015, K_ijlas | E2062, K_adalat_ijlas => true
  | _, _ => false
  end.

(** where a text stored under [k] by the procedure of [e] comes from.
    The holding holds texts the segmentation visits: the text of a tag,
    with the separator, or one of its list items.  Any other key holds the
    text of a tag as the field phases read it; or, under the keys of
    [empty_allowed], the empty string; or, under the key of
    [joined_allowed], the text of a tag, a space and the text of the tag
    that follows it. *)
Definition from_block (e : Era) (tags : list Tag) (k : details_key)
    (s : string) : Prop :=
  match k with
  | K_thahar =>
      exists t, In t tags /\ (s = get_text_sep t \/ In s (list_items t))
  | _ =>
      tag_text e tags s
      \/ (empty_allowed e k = true /\ s = EmptyString)
      \/ (joined_allowed e k = true /\
          exists i t t2,
            tags !! i = Some t /\ tags !! (i + 1) = Some t2 /\
            s = get_text_sep t +:+ " " +:+ get_text_sep t2)
  end.

Definition value_from_block (e : Era) (tags : list Tag) (k : details_key)
    (v : value) : Prop :=
  match v with
  | VStr s => from_block e tags k s
  | VList l => Forall (from_block e tags k) l
  end.

(** every value of [details], the citations apart, comes from the block as
    [from_block] tells *)
Definition fields_from_block (e : Era) (tags : list Tag)
    (d : gmap details_key value) : Prop :=
  forall k v, k <> K_prakaran -> d !! k = Some v ->
    value_from_block e tags k v.

(** the same for the state of a phase *)
Definition from_fields (e : Era) (tags : list Tag)
    (st : cursor * gmap details_key value) : Prop :=
  fields_from_block e tags (snd st).

(** a computation that, when it returns, returns a value satisfying [Q] *)
Definition returns {A : Type} (Q : A -> Prop) (r : result A) : Prop :=
  match r with
  | Ok a => Q a
  | Raise _ => True
  end.

(** ** [run_scraper]

    The world outside the function (the site, the folder of saved pages,
    the database) is a state of any type; [get_all_pages],
    [scrape_case_details_generic] and [save_failed_links] are any functions
    on it, the second one answering [True] or [False] as
    [scrape_case_details_generic] does.  What the function prints at its
    end is returned as a [Report]. *)


Section RunScraper.
Variable World : Type.
Variable get_all_pages :
  string -> string -> string -> bool -> World -> list string * World.
Variable scrape_generic :
  string -> string -> string -> bool -> World -> bool * World.
Variable save_failed_links :
  list string -> string -> string -> string -> World -> World.


End RunScraper.

(** ** Notions used to state what the court and the judges are *)

(** the court line of the 2051 procedure and of the 2073 procedure, as
    their court scans test it *)
Definition court_line (e : Era) (t : Tag) : bool :=
  match e with
  | E2051 =>
      truthy (get_text_sep t)
      && (contains "इजलास" (get_text_sep t)
          || contains "इजालास" (get_text_sep t))
  | E2073 =>
      truthy (get_text_strip t)
      && any_in KW2045.KEYWORDS_6 (get_text_strip t)
  | _ => false
  end.

(** the order-date line of the 2045, 2051 and 2073 procedures, as their
    judge scans test it *)
Definition date_line (e : Era) (t : Tag) : bool :=
  match e with
  | E2045 => Era2045.is_date (get_text_sep t)
  | E2051 => Era2051.is_date (get_text_sep t)
  | E2073 =>
      any_startswith KW2045.KEYWORDS_7 (get_text_strip t)
      && has_miti (get_text_strip t)
  | _ => false
  end.

(** the judges are stored exactly when the order date is, and the order
    date is the text of an order-date line of the block *)
Definition judges_with_date (e : Era) (tags : list Tag)
    (d : gmap details_key value) : Prop :=
  (d !! K_nyayadhish = None <-> d !! K_adesh_miti = None) /\
  (forall v, d !! K_adesh_miti = Some v ->
     exists t, In t tags /\ date_line e t = true /\ v = VStr (text_of e t)).

(** the value under [k] is the same in both states *)
Definition same_at (k : details_key) (d d' : gmap details_key value) : Prop :=
  d' !! k = d !! k.

(** ** Scanning loops: general facts *)

Section WhileFacts.
Context {S : Type} (body : nat -> Tag -> S -> outcome S).

(** when every [break] leaves [ind] beyond the line it looked at, the loop
    ends beyond its start, or at its start if there was nothing to scan *)
Lemma while_from_forward (rest : list Tag) (ind i : nat) (s s' : S) :
  (forall k t s0 k' s1, body k t s0 = Break k' s1 -> k < k') ->
  while_from body rest ind s = Ok (i, s') ->
  (rest = [] /\ i = ind) \/ ind < i.
Proof.
  intros Hb. revert ind s.
  induction rest as [|t rest IH]; intros ind s; simpl.
  - intros [= <- <-]. now left.
  - destruct (body ind t s) as [s1|k' s1|e] eqn:E; intros H.
    + apply IH in H. right. lia.
    + injection H as <- <-. right. eapply Hb; eassumption.
    + discriminate.
Qed.
End WhileFacts.

Lemma party_body_forward get KEYWORDS guarded tags k t s0 k' s1 :
  party_body get KEYWORDS guarded tags k t s0 = Break k' s1 -> k < k'.
Proof.
  unfold party_body.
  destruct (any_in KEYWORDS (get t)); [|discriminate].
  destruct (any_eq KEYWORDS (get t)).
  - destruct (tags !! (k + 1)); [|destruct guarded];
      intros H; try discriminate; injection H as <- _; lia.
  - intros H; injection H as <- _; lia.
Qed.

Lemma party_scan_forward get KEYWORDS guarded tags ind i found :
  party_scan get KEYWORDS guarded tags ind = Ok (i, found) -> ind <= i.
Proof.
  unfold party_scan, while_ind. intros H.
  apply while_from_forward in H; [lia|].
  intros. eapply party_body_forward; eassumption.
Qed.

(** ** The 2073 procedure leaves its consolidated loop *)

Lemma first_text_forward (tags : list Tag) (ind i : nat) found :
  ind < length tags ->
  while_ind tags Era2073.first_text_body ind None = Ok (i, found) -> ind < i.
Proof.
  unfold while_ind. intros Hlt H.
  apply while_from_forward in H.
  - destruct H as [[Hnil _]|H]; [|assumption].
    apply (f_equal (@length Tag)) in Hnil. rewrite length_drop in Hnil.
    simpl in Hnil. lia.
  - intros k t s0 k' s1. unfold Era2073.first_text_body.
    destruct (truthy (get_text_strip t)); [|discriminate].
    intros E; injection E as <- _; lia.
Qed.

Lemma consolidated_total (fuel : nat) (tags : list Tag) (ind : nat)
    (case_no appellant opposition : list string) (details : gmap details_key value) :
  length tags - ind <= fuel ->
  exists r, Era2073.consolidated fuel tags ind case_no appellant opposition
                                 details = Some r.
Proof.
  revert ind case_no appellant opposition.
  induction fuel as [|fuel IH]; intros ind case_no appellant opposition Hf;
    simpl; destruct (ind <? length tags) eqn:E; eauto.
  - apply Nat.ltb_lt in E. lia.
  - apply Nat.ltb_lt in E.
    destruct (while_ind tags Era2073.first_text_body ind None)
      as [[i1 found1]|e] eqn:E1; [|eauto].
    apply first_text_forward in E1; [|assumption].
    destruct (party_scan get_text_strip KW2045.KEYWORDS_3 false tags i1)
      as [[i2 found2]|e] eqn:E2; [|eauto].
    apply party_scan_forward in E2.
    destruct (party_scan get_text_strip KW2045.KEYWORDS_4 false tags i2)
      as [[i3 found3]|e] eqn:E3; [|eauto].
    apply party_scan_forward in E3.
    destruct (Era2073.end_condition (drop i3 tags)) as [[|]|];
      [eauto | apply IH; lia | apply IH; lia].
Qed.

(** the 2073 extraction always comes to a result or to an exception *)
Lemma extract_fuel_enough (tags : list Tag) :
  exists r, Era2073.extract tags = Some r.
Proof.
  unfold Era2073.extract, Era2073.extract_fuel, Era2073.fields_fuel.
  destruct (Era2073.before_structure tags) as [[[c details] bisaya]|e];
    [|eauto].
  unfold Era2073.structure_phase. destruct bisaya; [|eauto].
  destruct (consolidated_total (length tags) tags (ind (fst (c, details)))
              [] [] [] (snd (c, details))) as [r ->]; [lia|eauto].
Qed.

(** so does the procedure *)
Lemma scrape_2073_total url mudda f db :
  exists r, scrape_case_details_2073_to_2080_and_beyond url mudda f db = Some r.
Proof.
  unfold scrape_case_details_2073_to_2080_and_beyond.
  destruct (negb (status_200 f)); [eauto|].
  destruct (soup f) as [page|]; [|eauto].
  destruct (reads_2073 page); [|eauto].
  destruct (div_tag page) as [tags|]; [|eauto].
  destruct (extract_fuel_enough tags) as [r ->]. simpl. eauto.
Qed.

(** when the unguarded reads of the 2073 procedure return, they return what
    the guarded reads return *)
Lemma reads_2073_agree (page : Page) (title date : string) :
  reads_2073 page = Ok (title, date) ->
  title = decision_title page /\ date = decision_date page.
Proof.
  unfold reads_2073, decision_title_2073, decision_date_2073,
    decision_title, decision_date.
  destruct (title_words page) as [tw|]; [destruct (tw !! 2)|];
    (destruct (date_words page) as [dw|]; [destruct (dw !! 0)|]);
    cbn; intros H; try discriminate; now injection H as <- <-.
Qed.

(** they return exactly when the title, if any, has three words and the
    decision-date line, if any, has one *)
Lemma reads_2073_Ok (page : Page) :
  (forall words, title_words page = Some words -> 2 < length words) ->
  (forall words, date_words page = Some words -> 0 < length words) ->
  reads_2073 page = Ok (decision_title page, decision_date page).
Proof.
  intros Ht Hd.
  unfold reads_2073, decision_title_2073, decision_date_2073,
    decision_title, decision_date.
  destruct (title_words page) as [tw|].
  - specialize (Ht tw eq_refl). destruct (tw !! 2) as [w|] eqn:E.
    + destruct (date_words page) as [dw|]; [|reflexivity].
      specialize (Hd dw eq_refl). destruct (dw !! 0) as [w'|] eqn:E';
        [reflexivity|].
      apply lookup_ge_None in E'. lia.
    + apply lookup_ge_None in E. lia.
  - destruct (date_words page) as [dw|]; [|reflexivity].
    specialize (Hd dw eq_refl). destruct (dw !! 0) as [w'|] eqn:E';
      [reflexivity|].
    apply lookup_ge_None in E'. lia.
Qed.


(** * Properties *)

(** ** Link collection: [from_each_page] *)

Section FromEachPage.

Lemma existsb_eqb_In (x : string) (l : list string) :
  existsb (String.eqb x) l = true <-> In x l.
Proof.
  rewrite existsb_exists. split.
  - intros (y & Hy & He). apply String.eqb_eq in He. now subst.
  - intros H. exists x. split; [assumption | apply String.eqb_refl].
Qed.

Lemma existsb_eqb_not_In (x : string) (l : list string) :
  existsb (String.eqb x) l = false <-> ~ In x l.
Proof.
  rewrite <- existsb_eqb_In. destruct (existsb _ l); split; congruence.
Qed.

Lemma fold_keys (l acc : list string) :
  fold_left (fun keys k => if existsb (String.eqb k) keys then keys
                           else keys ++ [k]) l acc
  = acc ++ new_keys acc l.
Proof.
  revert acc. induction l as [|x r IH]; intros acc; simpl.
  - now rewrite app_nil_r.
  - destruct (existsb (String.eqb x) acc); rewrite IH.
    + reflexivity.
    + now rewrite <- app_assoc.
Qed.

Lemma dict_fromkeys_new_keys (l : list string) :
  dict_fromkeys l = new_keys [] l.
Proof. unfold dict_fromkeys. now rewrite fold_keys. Qed.

Lemma new_keys_In (x : string) (l seen : list string) :
  In x (new_keys seen l) <-> In x l /\ ~ In x seen.
Proof.
  revert seen. induction l as [|y r IH]; intros seen; simpl.
  - tauto.
  - destruct (existsb (String.eqb y) seen) eqn:E.
    + apply existsb_eqb_In in E. rewrite IH.
      split; [tauto|]. intros [[->|H] Hn]; tauto.
    + apply existsb_eqb_not_In in E. simpl. rewrite IH, in_app_iff. simpl.
      split.
      * intros [->|[H Hn]]; tauto.
      * intros [[->|H] Hn]; [tauto|].
        destruct (string_dec y x) as [->|Hne]; tauto.
Qed.

Lemma new_keys_NoDup (l seen : list string) : List.NoDup (new_keys seen l).
Proof.
  revert seen. induction l as [|y r IH]; intros seen; simpl.
  - constructor.
  - destruct (existsb (String.eqb y) seen); [apply IH|].
    constructor; [|apply IH].
    rewrite new_keys_In, in_app_iff. simpl. tauto.
Qed.

Lemma new_keys_order (l seen : list string) (i j : nat) (x y : string) :
  new_keys seen l !! i = Some x -> new_keys seen l !! j = Some y -> i < j ->
  first_index x l < first_index y l.
Proof.
  revert seen i j. induction l as [|a r IH]; intros seen i j; simpl.
  - intros H. rewrite lookup_nil in H. discriminate.
  - destruct (existsb (String.eqb a) seen) eqn:E.
    + apply existsb_eqb_In in E. intros Hx Hy Hij.
      assert (Hxa : String.eqb x a = false).
      { apply String.eqb_neq. intros ->.
        apply list_elem_of_lookup_2, list_elem_of_In, new_keys_In in Hx.
        tauto. }
      assert (Hya : String.eqb y a = false).
      { apply String.eqb_neq. intros ->.
        apply list_elem_of_lookup_2, list_elem_of_In, new_keys_In in Hy.
        tauto. }
      rewrite Hxa, Hya. apply -> Nat.succ_lt_mono. eauto.
    + intros Hx Hy Hij. destruct j as [|j]; [lia|]. simpl in Hy.
      assert (Hya : String.eqb y a = false).
      { apply String.eqb_neq. intros ->.
        apply list_elem_of_lookup_2, list_elem_of_In, new_keys_In in Hy.
        rewrite in_app_iff in Hy. simpl in Hy. tauto. }
      rewrite Hya. destruct i as [|i]; simpl in Hx.
      * injection Hx as <-. rewrite String.eqb_refl. lia.
      * assert (Hxa : String.eqb x a = false).
        { apply String.eqb_neq. intros ->.
          apply list_elem_of_lookup_2, list_elem_of_In, new_keys_In in Hx.
          rewrite in_app_iff in Hx. simpl in Hx. tauto. }
        rewrite Hxa. apply -> Nat.succ_lt_mono.
        apply (IH (seen ++ [a]) i j); [assumption..|lia].
Qed.

(** [list(dict.fromkeys(li))] keeps each link once, at the place of its
    first occurrence *)
Lemma dict_fromkeys_spec (li : list string) :
  List.NoDup (dict_fromkeys li) /\
  (forall x, In x (dict_fromkeys li) <-> In x li) /\
  (forall i j x y, dict_fromkeys li !! i = Some x ->
                   dict_fromkeys li !! j = Some y -> i < j ->
                   first_index x li < first_index y li).
Proof.
  rewrite dict_fromkeys_new_keys. split; [apply new_keys_NoDup|]. split.
  - intros x. rewrite new_keys_In. simpl. tauto.
  - intros i j x y. apply new_keys_order.
Qed.

End FromEachPage.

(** C10.  When the loop of [from_each_page] collects at most one link the
    result is the empty list, so a single collected link is discarded; when
    it collects two or more the result is [list(dict.fromkeys(li))]: every
    collected link exactly once, in the order of first occurrence. *)
Theorem from_each_page_single_result (links : list (option string)) :
  let li := collect_links links in
  (length li <= 1 -> from_each_page links = []) /\
  (2 <= length li ->
     from_each_page links = dict_fromkeys li /\
     List.NoDup (from_each_page links) /\
     (forall x, In x (from_each_page links) <-> In x li) /\
     (forall i j x y, from_each_page links !! i = Some x ->
                      from_each_page links !! j = Some y -> i < j ->
                      first_index x li < first_index y li)).
Proof.
  intros li. unfold from_each_page. fold li. split; intros H.
  - destruct (1 <? length li) eqn:E; [|reflexivity].
    apply Nat.ltb_lt in E. lia.
  - destruct (1 <? length li) eqn:E.
    + split; [reflexivity|]. apply dict_fromkeys_spec.
    + apply Nat.ltb_ge in E. lia.
Qed.

Lemma from_each_page_single_result_witness :
  from_each_page [Some "#"; Some "https://nkp.gov.np/full_detail/1"] = [] /\
  from_each_page [Some "#"; Some "/1"; Some "#"; Some "/2"; Some "#"; Some "/1"]
  = ["/1"; "/2"].
Proof.
  split.
  - apply (from_each_page_single_result
             [Some "#"; Some "https://nkp.gov.np/full_detail/1"]).
    simpl. lia.
  - destruct (from_each_page_single_result
                [Some "#"; Some "/1"; Some "#"; Some "/2"; Some "#"; Some "/1"])
      as [_ H].
    destruct H as [H _]; [simpl; lia|]. rewrite H. reflexivity.
Defined.

(** ** Choice of the procedure: [determine_scraper_method] *)






(** ** Persistence: [save_to_sqlite]

    The table is changed by sqlite; [save_to_sqlite] above follows what
    sqlite does for [INSERT OR REPLACE] on a table with a UNIQUE column and
    an AUTOINCREMENT key. *)

Lemma filter_other_link (url : string) (rows : list Row) :
  List.filter (fun r => negb (String.eqb (link (row_data r)) url))
    (List.filter (fun r => negb (String.eqb (link (row_data r)) url)) rows)
  = List.filter (fun r => negb (String.eqb (link (row_data r)) url)) rows.
Proof.
  induction rows as [|r rows IH]; simpl; [reflexivity|].
  destruct (negb (String.eqb (link (row_data r)) url)) eqn:E; simpl.
  - now rewrite E, IH.
  - exact IH.
Qed.

Lemma filter_link_none (url : string) (rows : list Row) :
  List.filter (fun r => String.eqb (link (row_data r)) url)
    (List.filter (fun r => negb (String.eqb (link (row_data r)) url)) rows)
  = [].
Proof.
  induction rows as [|r rows IH]; simpl; [reflexivity|].
  destruct (String.eqb (link (row_data r)) url) eqn:E; simpl.
  - exact IH.
  - now rewrite E.
Qed.

Lemma filter_link_other (url url' : string) (rows : list Row) :
  url <> url' ->
  List.filter (fun r => String.eqb (link (row_data r)) url')
    (List.filter (fun r => negb (String.eqb (link (row_data r)) url)) rows)
  = List.filter (fun r => String.eqb (link (row_data r)) url') rows.
Proof.
  intros Hne. induction rows as [|r rows IH]; simpl; [reflexivity|].
  destruct (String.eqb (link (row_data r)) url) eqn:E; simpl.
  - apply String.eqb_eq in E.
    destruct (String.eqb (link (row_data r)) url') eqn:E'.
    + apply String.eqb_eq in E'. congruence.
    + exact IH.
  - destruct (String.eqb (link (row_data r)) url'); now rewrite IH.
Qed.

(** the rows of the table after one insertion *)
Lemma save_to_sqlite_cases (db : DB) (data : Data) (t : Z) :
  cases (save_to_sqlite db data t)
  = List.filter (fun r => negb (String.eqb (link (row_data r)) (link data)))
      (cases db)
    ++ [mkRow (Z.max (seq db) (max_row_id (cases db)) + 1) data t].
Proof. reflexivity. Qed.

Lemma stored_after_save (db : DB) (data : Data) (t : Z) :
  stored (save_to_sqlite db data t) (link data) = [data].
Proof.
  unfold stored. rewrite save_to_sqlite_cases, List.filter_app, filter_link_none.
  simpl. now rewrite String.eqb_refl.
Qed.

Lemma stored_other_after_save (db : DB) (data : Data) (t : Z) (url : string) :
  link data <> url ->
  stored (save_to_sqlite db data t) url = stored db url.
Proof.
  intros Hne. unfold stored.
  rewrite save_to_sqlite_cases, List.filter_app, filter_link_other by assumption.
  simpl. destruct (String.eqb (link data) url) eqn:E.
  - apply String.eqb_eq in E. contradiction.
  - now rewrite app_nil_r.
Qed.

(** The claim of C9 as stated fails: the second [INSERT OR REPLACE] of the
    same record, even at the same time, replaces the row by one with a new
    [id], so the table is not the one left by the first call. *)
Lemma save_to_sqlite_twice_changes_id :
  let data := sample_data "https://nkp.gov.np/full_detail/1" in
  let db1 := save_to_sqlite empty_db data 0 in
  let db2 := save_to_sqlite db1 data 0 in
  db2 <> db1 /\ map row_id (cases db1) = [1%Z] /\ map row_id (cases db2) = [2%Z].
Proof.
  simpl. split; [|split; reflexivity].
  intros H. apply (f_equal seq) in H. vm_compute in H. discriminate.
Qed.

(** C9, amended.  A second [save_to_sqlite] with the same record leaves the
    table as the first call left it up to the generated columns: the same
    rows for the other links, one row for this link holding the same field
    values, the same number of rows; only the [id] of that row (the next
    AUTOINCREMENT value) and its [created_at] are new. *)
Theorem save_to_sqlite_twice (db : DB) (data : Data) (t1 t2 : Z) :
  let db1 := save_to_sqlite db data t1 in
  let db2 := save_to_sqlite db1 data t2 in
  map row_data (cases db2) = map row_data (cases db1) /\
  length (cases db2) = length (cases db1) /\
  stored db2 (link data) = [data] /\
  (forall url, stored db2 url = stored db1 url) /\
  exists others id1,
    cases db1 = others ++ [mkRow id1 data t1] /\
    cases db2 = others ++ [mkRow (id1 + 1) data t2].
Proof.
  intros db1 db2.
  set (others := List.filter
       (fun r => negb (String.eqb (link (row_data r)) (link data))) (cases db)).
  set (id1 := (Z.max (seq db) (max_row_id (cases db)) + 1)%Z).
  assert (H1 : cases db1 = others ++ [mkRow id1 data t1]) by reflexivity.
  assert (Hseq : seq db1 = id1) by reflexivity.
  assert (Hmax : (max_row_id (cases db1) <= id1)%Z).
  { rewrite H1. unfold id1.
    assert (Hm : forall rows a b, (max_row_id rows <= b)%Z -> (a <= b)%Z ->
                   (0 <= b)%Z ->
                   (max_row_id (rows ++ [mkRow a data t1]) <= b)%Z).
    { induction rows as [|r rows IH]; simpl; intros; [lia|].
      apply Z.max_lub; [lia|]. apply IH; lia. }
    assert (Hf : forall rows, (0 <= max_row_id rows)%Z).
    { induction rows; simpl; lia. }
    assert (Hsub : forall rows f,
               (max_row_id (List.filter f rows) <= max_row_id rows)%Z).
    { induction rows as [|r rows IH]; simpl; intros f; [lia|].
      destruct (f r); simpl; specialize (IH f); lia. }
    apply Hm.
    - specialize (Hsub (cases db)
        (fun r => negb (String.eqb (link (row_data r)) (link data)))).
      fold others in Hsub. lia.
    - lia.
    - specialize (Hf (cases db)). lia. }
  assert (H2 : cases db2 = others ++ [mkRow (id1 + 1) data t2]).
  { unfold db2. rewrite save_to_sqlite_cases, H1, Hseq, List.filter_app.
    unfold others at 1. rewrite filter_other_link. fold others. simpl.
    rewrite String.eqb_refl. simpl. rewrite app_nil_r.
    do 3 f_equal. rewrite <- H1. lia. }
  split; [|split; [|split; [|split]]].
  - rewrite H1, H2, !map_app. reflexivity.
  - rewrite H1, H2, !length_app. reflexivity.
  - apply stored_after_save.
  - intros url. destruct (string_dec (link data) url) as [<-|Hne].
    + unfold db2, db1. now rewrite !stored_after_save.
    + unfold db2. now rewrite stored_other_after_save.
  - exists others, id1. split; assumption.
Qed.

(** ** Empty detail block *)

(** What holds for a page whose detail block is missing or has no [h1]/[p]
    tag: the four earlier procedures save a record whose extracted fields
    are all unknown, except that the 2045 procedure stores the empty string
    as subject when the block exists; the 2073 procedure does as they do
    when its reads of the title and of the decision date return, and
    returns [False] with nothing saved when they raise. *)
Lemma empty_blocks_unknown_fields
    (url : string) (mudda : option string) (f : Fetch) (page : Page) (db : DB)
    (exists_block : bool) :
  soup f = Some page ->
  div_tag page = (if exists_block then Some [] else None) ->
  link_exists db url = false ->
  status_200 f = true ->
  (exists data,
     scrape_case_details_2015_to_2044 url mudda f db
     = (true, save_to_sqlite db data (now f)) /\
     extracted_fields data = unknown_fields) /\
  (exists data,
     scrape_case_details_2045_to_2050 url mudda f db
     = (true, save_to_sqlite db data (now f)) /\
     extracted_fields data
     = if exists_block then unknown_fields_empty_subject else unknown_fields) /\
  (exists data,
     scrape_case_details_2051_to_2061 url mudda f db
     = (true, save_to_sqlite db data (now f)) /\
     extracted_fields data = unknown_fields) /\
  (exists data,
     scrape_case_details_2062_to_2072 url mudda f db
     = (true, save_to_sqlite db data (now f)) /\
     extracted_fields data = unknown_fields) /\
  match reads_2073 page with
  | Ok _ =>
      exists data,
        scrape_case_details_2073_to_2080_and_beyond url mudda f db
        = Some (true, save_to_sqlite db data (now f)) /\
        extracted_fields data = unknown_fields
  | Raise _ =>
      scrape_case_details_2073_to_2080_and_beyond url mudda f db
      = Some (false, db)
  end.
Proof.
  intros Hsoup Hdiv Hlink Hstatus.
  unfold scrape_case_details_2015_to_2044, scrape_case_details_2045_to_2050,
    scrape_case_details_2051_to_2061, scrape_case_details_2062_to_2072,
    scrape_case_details_2073_to_2080_and_beyond, scrape_checked, details_of.
  rewrite Hsoup, Hdiv, Hlink, Hstatus.
  destruct (reads_2073 page) as [reads|x];
    destruct exists_block; simpl negb; cbv iota;
    repeat (split; [eexists; (split; [reflexivity | reflexivity])|]);
    first [reflexivity | eexists; (split; [reflexivity | reflexivity])].
Qed.

(** C3, at the failing inputs.  On a page whose detail block exists and has
    no [h1]/[p] tag, the 2045 procedure saves a record whose subject is the
    empty string, not the unknown value: it sets [details["विषय"]] to the
    empty string before it looks for the subject, which defeats the default
    of its own [details.get("विषय", "N/A")].  Its four siblings save a
    record with every extracted field unknown on the same page, and so does
    the 2045 procedure itself when the detail block is missing.  The 2073
    procedure reads the third word of the title without the length test of
    its siblings: on a page whose title has two words it raises
    [IndexError], returns [False] and saves nothing, where the 2062
    procedure saves the record with an unknown title. *)
Theorem empty_blocks_failing_inputs :
  let url := "https://nkp.gov.np/full_detail/1" in
  let short_title := mkFetch (Some (short_title_page (Some []))) EmptyString
                             true 0 in
  (exists data,
     scrape_case_details_2045_to_2050 url None (fetch_of (Some [])) empty_db
     = (true, save_to_sqlite empty_db data 0) /\
     bisaya data = EmptyString /\
     extracted_fields data = unknown_fields_empty_subject /\
     extracted_fields data <> unknown_fields) /\
  (exists data,
     scrape_case_details_2045_to_2050 url None (fetch_of None) empty_db
     = (true, save_to_sqlite empty_db data 0) /\
     extracted_fields data = unknown_fields) /\
  (exists data,
     scrape_case_details_2015_to_2044 url None (fetch_of (Some [])) empty_db
     = (true, save_to_sqlite empty_db data 0) /\
     extracted_fields data = unknown_fields) /\
  (exists data,
     scrape_case_details_2051_to_2061 url None (fetch_of (Some [])) empty_db
     = (true, save_to_sqlite empty_db data 0) /\
     extracted_fields data = unknown_fields) /\
  (exists data,
     scrape_case_details_2062_to_2072 url None (fetch_of (Some [])) empty_db
     = (true, save_to_sqlite empty_db data 0) /\
     extracted_fields data = unknown_fields) /\
  (exists data,
     scrape_case_details_2073_to_2080_and_beyond url None
       (fetch_of (Some [])) empty_db
     = Some (true, save_to_sqlite empty_db data 0) /\
     extracted_fields data = unknown_fields) /\
  scrape_case_details_2073_to_2080_and_beyond url None short_title empty_db
  = Some (false, empty_db) /\
  (exists data,
     scrape_case_details_2062_to_2072 url None short_title empty_db
     = (true, save_to_sqlite empty_db data 0) /\
     nirnaya_no data = "N/A" /\
     extracted_fields data = unknown_fields).
Proof.
  cbv zeta.
  split.
  { eexists. split; [vm_compute; reflexivity|]. split; [reflexivity|].
    split; [reflexivity|]. vm_compute. discriminate. }
  do 5 (split; [eexists; split; [vm_compute; reflexivity|reflexivity]|]).
  split; [vm_compute; reflexivity|].
  eexists. split; [vm_compute; reflexivity|]. split; reflexivity.
Qed.


(** ** The checkpoint after a phase *)

(** after [if ind >= n: ... else: ...] the cursor and the checkpoint agree *)
Lemma checkpoint_agree (n : nat) (c : cursor) :
  ind (checkpoint n c) = temp_ind_32 (checkpoint n c).
Proof. unfold checkpoint. destruct (n <=? ind c); reflexivity. Qed.

(** a scan that ran to the end is undone by [if ind >= n: ... else: ...]:
    when the phase started at the checkpoint, the cursor is back where the
    phase started *)
Lemma checkpoint_reverts (n i : nat) (c : cursor) :
  ind c = temp_ind_32 c -> n <= i ->
  ind (checkpoint n (mkCursor i (temp_ind_32 c))) = ind c.
Proof.
  intros Hc Hi. unfold checkpoint. simpl.
  destruct (n <=? i) eqn:E; simpl; [congruence|].
  apply Nat.leb_gt in E. lia.
Qed.

(** with [if ind > n:] a scan that stopped exactly at the end is kept *)
Lemma checkpoint_gt_keeps_end (n : nat) (c : cursor) :
  ind c = n -> checkpoint_gt n c = mkCursor n n.
Proof.
  intros <-. unfold checkpoint_gt. now rewrite Nat.ltb_irrefl.
Qed.

(** C1, at the failing inputs.  In the 2073 procedure the third phase starts
    at 0 on [drift_tags_2073], finds no non-empty line, and leaves the cursor
    and the checkpoint at 1 (the test is [ind > n]); the list item with the
    citation is then never visited, whereas from 0 it is.  In the 2051
    procedure the petitioner phase starts at 1 on [drift_tags_2051] (after a
    subject match, which does not move the checkpoint), finds nothing, and
    leaves the cursor at 0. *)
Theorem checkpoint_revert_drift :
  (st1 ← checkpointed 1 <$> Era2073.court_phase drift_tags_2073
                               (mkCursor 0 0, ∅);
   checkpointed 1 <$> Era2073.judges_phase drift_tags_2073 st1)
  = Ok (mkCursor 0 0, ∅) /\
  Era2073.case_phase drift_tags_2073 (mkCursor 0 0, ∅)
  = Ok (mkCursor 1 0, ∅, false) /\
  Era2073.before_structure drift_tags_2073 = Ok (mkCursor 1 1, ∅, false) /\
  prakarans (segment KW2045.KEYWORDS_2 drift_tags_2073 1) = [] /\
  prakarans (segment KW2045.KEYWORDS_2 drift_tags_2073 0)
  = ["(प्रकरण नं. १) क"] /\
  (let d := <[K_bisaya := VStr "विषय : क"]>
              (<[K_case_no := VStr "ख"]> (∅ : gmap details_key value)) in
   (st1 ← checkpointed 2 <$> Era2051.court_phase drift_tags_2051
                                (mkCursor 0 0, ∅);
    st2 ← checkpointed 2 <$> Era2051.judges_phase drift_tags_2051 st1;
    '(c3, details3) ← Era2051.subject_phase drift_tags_2051 st2;
    mret (revert_only 2 c3, details3))
   = Ok (mkCursor 1 0, d) /\
   Era2051.petitioner_phase drift_tags_2051 (mkCursor 1 0, d)
   = Ok (mkCursor 2 0, d) /\
   checkpointed 2 (mkCursor 2 0, d) = (mkCursor 0 0, d)).
Proof.
  repeat (split; [vm_compute; reflexivity|]). vm_compute. reflexivity.
Qed.

(** ** A bare label in the last block *)

(** C2, at the failing input.  On a detail block whose only line is the bare
    label [निवेदक], the petitioner scans of the 2015, 2045, 2062 and 2073
    procedures read [tags[1]] and raise [IndexError]; the procedure returns
    [False] and no record is saved.  The court scan of the 2015 procedure
    does the same on a single line containing [इजलास].  The 2051 procedure,
    whose read is under [if ind < n:], saves a record. *)
Theorem bare_label_last_block_raises :
  Era2015.extract [P "निवेदक"] = Raise IndexError /\
  Era2045.extract [P "निवेदक"] = Raise IndexError /\
  Era2062.extract [P "निवेदक"] = Raise IndexError /\
  Era2073.extract [P "निवेदक"] = Some (Raise IndexError) /\
  Era2015.extract [P "संयुक्त इजलास"] = Raise IndexError /\
  scrape_case_details_2015_to_2044 "https://nkp.gov.np/full_detail/1" None
    (fetch_of (Some [P "निवेदक"])) empty_db
  = (false, empty_db) /\
  exists data,
    scrape_case_details_2051_to_2061 "https://nkp.gov.np/full_detail/1" None
      (fetch_of (Some [P "निवेदक"])) empty_db
    = (true, save_to_sqlite empty_db data 0) /\
    nibedak data = "निवेदक".
Proof.
  repeat (split; [vm_compute; reflexivity|]).
  eexists. split; vm_compute; reflexivity.
Qed.

(** ** String facts *)

Lemma prefix_nil (s : string) : String.prefix EmptyString s = true.
Proof. now destruct s. Qed.

Lemma prefix_refl (s : string) : String.prefix s s = true.
Proof.
  induction s as [|a s IH]; simpl; [reflexivity|].
  destruct (ascii_dec a a); [assumption|contradiction].
Qed.

Lemma prefix_append (t p x : string) :
  String.prefix t p = true -> String.prefix t (p +:+ x) = true.
Proof.
  revert t. induction p as [|b p IH]; intros t; simpl.
  - destruct t; [intros _; apply prefix_nil|discriminate].
  - destruct t as [|a t]; [reflexivity|].
    destruct (ascii_dec a b); [apply IH|discriminate].
Qed.

Lemma contains_refl (t : string) : contains t t = true.
Proof.
  destruct t as [|a t]; [reflexivity|].
  change (contains (String a t) (String a t))
    with (String.prefix (String a t) (String a t)
          || contains (String a t) t).
  now rewrite prefix_refl.
Qed.

Lemma contains_append_r (t p : string) : contains t (p +:+ t) = true.
Proof.
  induction p as [|b p IH]; simpl.
  - apply contains_refl.
  - rewrite IH. apply orb_true_r.
Qed.

Lemma contains_append_l (t p x : string) :
  contains t p = true -> contains t (p +:+ x) = true.
Proof.
  induction p as [|b p IH]; simpl.
  - rewrite orb_false_r. destruct t; [intros _|discriminate].
    destruct x; reflexivity.
  - intros H. apply orb_true_iff in H as [H|H].
    + apply (prefix_append _ (String b p) x) in H. simpl in H.
      now rewrite H.
    + rewrite (IH H). apply orb_true_r.
Qed.

Lemma contains_empty (t : string) :
  truthy t = true -> contains t EmptyString = false.
Proof. now destruct t. Qed.

Lemma append_assoc (a b c : string) : (a +:+ b) +:+ c = a +:+ (b +:+ c).
Proof.
  induction a as [|x a IH]; [reflexivity|].
  change (String x ((a +:+ b) +:+ c) = String x (a +:+ (b +:+ c))).
  now f_equal.
Qed.

Lemma contains_join_new (p t : string) : contains t (join_prev p t) = true.
Proof.
  unfold join_prev. destruct (truthy p); [|apply contains_refl].
  rewrite <- append_assoc. apply contains_append_r.
Qed.

Lemma contains_join_old (p t x : string) :
  contains t p = true -> truthy t = true -> contains t (join_prev p x) = true.
Proof.
  intros H Ht. unfold join_prev. destruct p as [|a p]; simpl truthy; cbv iota.
  - now rewrite contains_empty in H.
  - now apply contains_append_l.
Qed.

Lemma tahar_token_truthy (t : string) :
  is_tahar_token t = true -> truthy t = true.
Proof. now destruct t. Qed.

(** ** The holding list *)

Section Holding.
Variable KEYWORDS_2 : list string.

Lemma hold_tahar_step (text : string) (s : seg) :
  truthy text = true ->
  hold (tahar_step text s) = holding_step (hold s) text.
Proof.
  intros Ht. unfold tahar_step, holding_step, hold. simpl. rewrite Ht.
  simpl. now destruct (is_tahar_token text || temp_flag_tahar s).
Qed.

Lemma hold_flush_and_append (text : string) (s : seg) :
  hold (flush_and_append text s) = hold s.
Proof. unfold flush_and_append. now destruct (truthy (prev s)). Qed.

Lemma hold_citation_step (text : string) (s : seg) :
  hold (citation_step KEYWORDS_2 text s) = hold s.
Proof.
  unfold citation_step.
  assert (Hsa : hold (if any_startswith KEYWORDS_2 text
                      then flush_and_append text s else s) = hold s).
  { destruct (any_startswith KEYWORDS_2 text);
      [apply hold_flush_and_append|reflexivity]. }
  set (sa := if any_startswith KEYWORDS_2 text
             then flush_and_append text s else s) in *.
  assert (Hsb : hold (if contains "§" text
                      then append_prakaran text sa else sa) = hold s).
  { destruct (contains "§" text); assumption. }
  set (sb := if contains "§" text then append_prakaran text sa else sa)
    in *.
  simpl. destruct (is_tahar_token text); [|assumption].
  destruct (prakarans sb); assumption.
Qed.

Lemma hold_seg_text (text : string) (s : seg) :
  hold (seg_text KEYWORDS_2 text s) = holding_step (hold s) text.
Proof.
  unfold seg_text. destruct (truthy text) eqn:Ht.
  - rewrite hold_tahar_step by assumption. f_equal.
    destruct (contains "§" text || any_startswith KEYWORDS_2 text
              || is_tahar_token text);
      [apply hold_citation_step|reflexivity].
  - unfold holding_step. now rewrite Ht.
Qed.

Lemma hold_seg_li (li_text : string) (s : seg) :
  hold (seg_li KEYWORDS_2 li_text s) = holding_step (hold s) li_text.
Proof.
  unfold seg_li. destruct (truthy li_text) eqn:Ht.
  - rewrite hold_tahar_step by assumption. f_equal.
    destruct (any_startswith KEYWORDS_2 li_text);
      [apply hold_flush_and_append|reflexivity].
  - unfold holding_step. now rewrite Ht.
Qed.

Lemma hold_seg_tag (s : seg) (tag : Tag) :
  hold (seg_tag KEYWORDS_2 s tag)
  = fold_left holding_step (get_text_sep tag :: list_items tag) (hold s).
Proof.
  unfold seg_tag. simpl. rewrite <- hold_seg_text.
  generalize (seg_text KEYWORDS_2 (get_text_sep tag) s).
  induction (list_items tag) as [|li lis IH]; intros s0; simpl.
  - reflexivity.
  - now rewrite IH, hold_seg_li.
Qed.

Lemma hold_fold_seg_tag (tags : list Tag) (s : seg) :
  hold (fold_left (seg_tag KEYWORDS_2) tags s)
  = fold_left holding_step (visited tags) (hold s).
Proof.
  revert s. induction tags as [|tag tags IH]; intros s.
  - reflexivity.
  - change (visited (tag :: tags))
      with ((get_text_sep tag :: list_items tag) ++ visited tags).
    rewrite fold_left_app, <- hold_seg_tag. apply IH.
Qed.

Lemma holding_started (l acc : list string) :
  fold_left holding_step l (acc, true) = (acc ++ List.filter truthy l, true).
Proof.
  revert acc. induction l as [|x l IH]; intros acc; simpl.
  - now rewrite app_nil_r.
  - unfold holding_step at 2. simpl. rewrite orb_true_r, andb_true_r.
    destruct (truthy x); rewrite IH; [|reflexivity].
    now rewrite <- app_assoc.
Qed.

Lemma holding_not_started (l acc : list string) :
  (forall x, In x l -> is_tahar_token x = false) ->
  fold_left holding_step l (acc, false) = (acc, false).
Proof.
  induction l as [|x l IH]; intros H; simpl; [reflexivity|].
  unfold holding_step at 2. simpl.
  rewrite (H x) by now left. simpl. rewrite andb_false_r.
  apply IH. intros y Hy. apply H. now right.
Qed.
End Holding.

(** C8.  Up to the first visited text that equals a holding token nothing is
    put in the holding list; from that token on every non-empty visited
    text, tag or list item, is appended.  So the holding list is the token
    followed by the non-empty texts after it, and it is empty when no token
    is visited. *)
Theorem holding_after_token (KEYWORDS_2 : list string) (tags : list Tag)
    (ind : nat) :
  (forall pre tok post,
     visited (drop ind tags) = pre ++ tok :: post ->
     is_tahar_token tok = true ->
     (forall x, In x pre -> is_tahar_token x = false) ->
     tahar (segment KEYWORDS_2 tags ind) = tok :: List.filter truthy post) /\
  ((forall x, In x (visited (drop ind tags)) -> is_tahar_token x = false) ->
   tahar (segment KEYWORDS_2 tags ind) = []).
Proof.
  assert (H : hold (segment KEYWORDS_2 tags ind)
              = fold_left holding_step (visited (drop ind tags)) ([], false)).
  { unfold segment. now rewrite hold_fold_seg_tag. }
  split.
  - intros pre tok post Hv Htok Hpre.
    rewrite Hv, fold_left_app, holding_not_started in H by assumption.
    simpl in H. unfold holding_step at 2 in H. simpl in H.
    rewrite Htok, (tahar_token_truthy _ Htok) in H. simpl in H.
    rewrite holding_started in H. now injection H as -> _.
  - intros Hno. rewrite holding_not_started in H by assumption.
    now injection H as -> _.
Qed.

Lemma holding_after_token_witness :
  tahar (segment KW2015.KEYWORDS_2
           [P "निवेदक : क"; P "(प्रकरण नं. १) ख";
            mkTag "फैसला" "फैसला" ["ग"; EmptyString; "घ"]; P "ङ"] 1)
  = ["फैसला"; "ग"; "घ"; "ङ"] /\
  tahar (segment KW2015.KEYWORDS_2 [P "निवेदक : क"; P "ख"] 0) = [].
Proof.
  split.
  - apply (holding_after_token KW2015.KEYWORDS_2
             [P "निवेदक : क"; P "(प्रकरण नं. १) ख";
              mkTag "फैसला" "फैसला" ["ग"; EmptyString; "घ"]; P "ङ"] 1
           ) with (pre := ["(प्रकरण नं. १) ख"])
                  (tok := "फैसला") (post := ["ग"; EmptyString; "घ"; "ङ"]).
    + reflexivity.
    + reflexivity.
    + intros x [<-|[]]. reflexivity.
  - apply (holding_after_token KW2015.KEYWORDS_2 [P "निवेदक : क"; P "ख"] 0).
    intros x [<-|[<-|[]]]; reflexivity.
Defined.

(** ** Citations and the pending accumulator *)

Lemma match_nonempty {A B : Type} (l : list A) (x : A) (a b : B) :
  match l ++ [x] with [] => a | _ :: _ => b end = b.
Proof. now destruct l. Qed.

Section Citations.
Variable KEYWORDS_2 : list string.

Lemma kept_append_prakaran (t x : string) (s : seg) :
  kept t s -> kept t (append_prakaran x s).
Proof.
  intros [(e & He & Hc)|[H|H]]; [left|right; now left|right; now right].
  exists e. split; [|assumption]. simpl. apply in_or_app. now left.
Qed.

Lemma kept_flush_and_append (t x : string) (s : seg) :
  truthy t = true -> kept t s -> kept t (flush_and_append x s).
Proof.
  intros Ht [(e & He & Hc)|[H|H]]; unfold flush_and_append.
  - left. exists e. split; [|assumption].
    destruct (truthy (prev s)); simpl; rewrite ?in_app_iff; tauto.
  - right; left. now destruct (truthy (prev s)).
  - left. exists (prev s). split; [|assumption].
    destruct (truthy (prev s)) eqn:E; simpl.
    + rewrite !in_app_iff. simpl. tauto.
    + destruct (prev s); [|discriminate].
      now rewrite contains_empty in H.
Qed.

Lemma kept_join (t x : string) (s : seg) :
  truthy t = true -> kept t s -> kept t (set_prev (join_prev (prev s) x) s).
Proof.
  intros Ht [H|[H|H]]; [now left|right; now left|right; right].
  simpl. now apply contains_join_old.
Qed.

Lemma kept_tahar_step (t x : string) (s : seg) :
  kept t s -> kept t (tahar_step x s).
Proof.
  unfold tahar_step.
  destruct (is_tahar_token x || temp_flag_tahar s); [|trivial].
  intros [H|[H|H]]; [now left| |right; now right].
  right; left. simpl. apply in_or_app. now left.
Qed.

Lemma kept_citation_tail (t x : string) (sa : seg) :
  kept t sa ->
  kept t (let sb := if contains "§" x then append_prakaran x sa else sa in
          if is_tahar_token x
          then match prakarans sb with
               | [] => append_prakaran (prev sb) sb
               | _ :: _ => sb
               end
          else sb).
Proof.
  intros Ha.
  set (sb := if contains "§" x then append_prakaran x sa else sa).
  assert (Hb : kept t sb).
  { unfold sb. destruct (contains "§" x);
      [now apply kept_append_prakaran|assumption]. }
  simpl. destruct (is_tahar_token x); [|assumption].
  destruct (prakarans sb); [now apply kept_append_prakaran|assumption].
Qed.

Lemma kept_citation_step (t x : string) (s : seg) :
  truthy t = true -> kept t s -> kept t (citation_step KEYWORDS_2 x s).
Proof.
  intros Ht H. unfold citation_step. apply kept_citation_tail.
  destruct (any_startswith KEYWORDS_2 x);
    [now apply kept_flush_and_append|assumption].
Qed.

Lemma seg_text_unfold (text : string) (s : seg) :
  truthy text = true ->
  seg_text KEYWORDS_2 text s
  = tahar_step text
      (if contains "§" text || any_startswith KEYWORDS_2 text
          || is_tahar_token text
       then citation_step KEYWORDS_2 text s
       else set_prev (join_prev (prev s) text) s).
Proof. intros Ht. unfold seg_text. now rewrite Ht. Qed.

Lemma kept_seg_text (t x : string) (s : seg) :
  truthy t = true -> kept t s -> kept t (seg_text KEYWORDS_2 x s).
Proof.
  intros Ht H. destruct (truthy x) eqn:Hx.
  - rewrite seg_text_unfold by assumption. apply kept_tahar_step.
    destruct (contains "§" x || any_startswith KEYWORDS_2 x
              || is_tahar_token x);
      [now apply kept_citation_step|now apply kept_join].
  - unfold seg_text. now rewrite Hx.
Qed.

Lemma kept_seg_li (t x : string) (s : seg) :
  truthy t = true -> kept t s -> kept t (seg_li KEYWORDS_2 x s).
Proof.
  intros Ht H. unfold seg_li. destruct (truthy x); [|assumption].
  apply kept_tahar_step. destruct (any_startswith KEYWORDS_2 x);
    [now apply kept_flush_and_append|now apply kept_join].
Qed.

(** a non-empty tag text is kept by its own step *)
Lemma kept_new_text (t : string) (s : seg) :
  truthy t = true -> kept t (seg_text KEYWORDS_2 t s).
Proof.
  intros Ht. rewrite seg_text_unfold by assumption.
  destruct (any_startswith KEYWORDS_2 t) eqn:E2.
  - rewrite orb_true_r. cbv iota. apply kept_tahar_step.
    unfold citation_step. rewrite E2. apply kept_citation_tail.
    left. exists t. split; [|apply contains_refl].
    unfold flush_and_append. simpl. apply in_or_app. right. now left.
  - rewrite orb_false_r. destruct (contains "§" t) eqn:E1.
    + cbv iota. apply kept_tahar_step.
      unfold citation_step. rewrite E2, E1.
      assert (Hk : kept t (append_prakaran t s)).
      { left. exists t. split; [|apply contains_refl].
        simpl. apply in_or_app. right. now left. }
      destruct (is_tahar_token t); [|assumption].
      destruct (prakarans (append_prakaran t s));
        [now apply kept_append_prakaran|assumption].
    + rewrite orb_false_l. destruct (is_tahar_token t) eqn:E3.
      * unfold tahar_step. rewrite E3. cbv iota. right; left.
        simpl. apply in_or_app. right. now left.
      * apply kept_tahar_step. right; right. simpl.
        apply contains_join_new.
Qed.

(** so is a non-empty list item *)
Lemma kept_new_li (t : string) (s : seg) :
  truthy t = true -> kept t (seg_li KEYWORDS_2 t s).
Proof.
  intros Ht. unfold seg_li. rewrite Ht. apply kept_tahar_step.
  destruct (any_startswith KEYWORDS_2 t).
  - left. exists t. split; [|apply contains_refl].
    unfold flush_and_append. simpl. apply in_or_app. right. now left.
  - right; right. simpl. apply contains_join_new.
Qed.

Lemma kept_fold_li (t : string) (lis : list string) (s : seg) :
  truthy t = true ->
  kept t s \/ In t lis ->
  kept t (fold_left (fun s li_text => seg_li KEYWORDS_2 li_text s) lis s).
Proof.
  intros Ht. revert s. induction lis as [|x lis IH]; intros s; simpl.
  - tauto.
  - intros [H|[->|H]]; apply IH.
    + left. now apply kept_seg_li.
    + left. now apply kept_new_li.
    + now right.
Qed.

Lemma kept_fold_tag (t : string) (tags : list Tag) (s : seg) :
  truthy t = true ->
  kept t s \/ In t (visited tags) ->
  kept t (fold_left (seg_tag KEYWORDS_2) tags s).
Proof.
  intros Ht. revert s. induction tags as [|tag tags IH]; intros s.
  - simpl. tauto.
  - change (visited (tag :: tags))
      with ((get_text_sep tag :: list_items tag) ++ visited tags).
    rewrite in_app_iff. simpl fold_left. intros H. apply IH.
    destruct H as [H|[[E|H]|H]]; [left|left|left|now right];
      unfold seg_tag; apply kept_fold_li; try assumption.
    + left. now apply kept_seg_text.
    + left. rewrite E. now apply kept_new_text.
    + now right.
Qed.
End Citations.

(** The claim of C7 as stated fails: a block containing [§] does not flush
    the pending accumulator, nor does a holding token once a citation
    exists; what is pending at the end of the scan is stored nowhere. *)
Lemma pending_not_flushed :
  segment KW2015.KEYWORDS_2 [P "क"; P "§ ख"] 0
  = mkSeg ["§ ख"] "क" [] false /\
  segment KW2015.KEYWORDS_2 [P "(प्रकरण नं. १)"; P "क"; P "फैसला"] 0
  = mkSeg ["(प्रकरण नं. १)"] "क" ["फैसला"] true.
Proof. split; vm_compute; reflexivity. Qed.

(** C7, amended.  For a non-empty tag text: a text that starts with a
    [KEYWORDS_2] marker flushes the non-empty pending accumulator into the
    citations, is appended as its own entry (twice if it also contains [§])
    and empties the accumulator; a text that only contains [§] is appended
    as an entry and leaves the accumulator as it is; a holding token puts
    the accumulator into the citations only while these are empty, and
    leaves it as it is; any other text is joined to the accumulator.  A
    list item flushes in the first case and is joined otherwise.  Every
    non-empty visited text ends inside a citation entry, in the holding
    list, or inside the accumulator left at the end of the scan. *)
Theorem citation_flush_rule (KEYWORDS_2 : list string) :
  (forall text s, truthy text = true ->
     let s' := seg_text KEYWORDS_2 text s in
     (any_startswith KEYWORDS_2 text = true ->
        prakarans s' = prakarans s
                       ++ (if truthy (prev s) then [prev s] else [])
                       ++ [text]
                       ++ (if contains "§" text then [text] else []) /\
        prev s' = EmptyString) /\
     (any_startswith KEYWORDS_2 text = false -> contains "§" text = true ->
        prakarans s' = prakarans s ++ [text] /\ prev s' = prev s) /\
     (any_startswith KEYWORDS_2 text = false -> contains "§" text = false ->
      is_tahar_token text = true ->
        prakarans s' = match prakarans s with
                       | [] => [prev s]
                       | _ :: _ => prakarans s
                       end /\
        prev s' = prev s) /\
     (any_startswith KEYWORDS_2 text = false -> contains "§" text = false ->
      is_tahar_token text = false ->
        prakarans s' = prakarans s /\ prev s' = join_prev (prev s) text)) /\
  (forall li_text s, truthy li_text = true ->
     let s' := seg_li KEYWORDS_2 li_text s in
     (any_startswith KEYWORDS_2 li_text = true ->
        prakarans s' = prakarans s
                       ++ (if truthy (prev s) then [prev s] else [])
                       ++ [li_text] /\
        prev s' = EmptyString) /\
     (any_startswith KEYWORDS_2 li_text = false ->
        prakarans s' = prakarans s /\
        prev s' = join_prev (prev s) li_text)) /\
  (forall tags ind t,
     In t (visited (drop ind tags)) -> truthy t = true ->
     kept t (segment KEYWORDS_2 tags ind)).
Proof.
  assert (Hts : forall x s, prakarans (tahar_step x s) = prakarans s /\
                            prev (tahar_step x s) = prev s).
  { intros x s. unfold tahar_step.
    now destruct (is_tahar_token x || temp_flag_tahar s). }
  split; [|split].
  - intros text s Ht s'. unfold s'. rewrite seg_text_unfold by assumption.
    destruct (Hts text
                (if contains "§" text || any_startswith KEYWORDS_2 text
                    || is_tahar_token text
                 then citation_step KEYWORDS_2 text s
                 else set_prev (join_prev (prev s) text) s)) as [-> ->].
    unfold citation_step, flush_and_append.
    split; [|split; [|split]].
    + intros ->. rewrite orb_true_r. simpl orb. cbv iota.
      set (sa := set_prev EmptyString
                   (append_prakaran text
                      (if truthy (prev s) then append_prakaran (prev s) s
                       else s))).
      assert (Ha : prakarans sa
                   = prakarans s
                     ++ (if truthy (prev s) then [prev s] else []) ++ [text]).
      { unfold sa. destruct (truthy (prev s)); simpl;
          now rewrite <- ?app_assoc. }
      set (sb := if contains "§" text then append_prakaran text sa else sa).
      assert (Hb : prakarans sb
                   = prakarans sa ++ (if contains "§" text then [text] else [])
                   /\ prev sb = EmptyString).
      { unfold sb. destruct (contains "§" text); simpl;
          now rewrite ?app_nil_r. }
      destruct Hb as [Hb Hp].
      assert (Hne : prakarans sb <> []).
      { rewrite Hb, Ha. intros E. apply (f_equal (@length string)) in E.
        rewrite !length_app in E. simpl in E. lia. }
      assert (Hres : prakarans sb
                     = prakarans s
                       ++ (if truthy (prev s) then [prev s] else [])
                       ++ [text]
                       ++ (if contains "§" text then [text] else [])).
      { rewrite Hb, Ha. now rewrite <- !app_assoc. }
      assert (Hm : match prakarans sb with
                   | [] => append_prakaran (prev sb) sb
                   | _ :: _ => sb
                   end = sb).
      { destruct (prakarans sb); [contradiction|reflexivity]. }
      destruct (is_tahar_token text); [rewrite Hm|]; now split.
    + intros -> ->. simpl orb. cbv iota.
      change (prakarans (append_prakaran text s)) with (prakarans s ++ [text]).
      rewrite match_nonempty.
      destruct (is_tahar_token text); split; reflexivity.
    + intros -> -> ->. simpl orb. cbv iota.
      destruct (prakarans s) eqn:E; simpl; rewrite ?E; split; reflexivity.
    + intros -> -> ->. simpl. split; reflexivity.
  - intros li_text s Ht s'. unfold s', seg_li. rewrite Ht.
    destruct (Hts li_text
                (if any_startswith KEYWORDS_2 li_text
                 then flush_and_append li_text s
                 else set_prev (join_prev (prev s) li_text) s)) as [-> ->].
    unfold flush_and_append. split.
    + intros ->. destruct (truthy (prev s)); simpl;
        rewrite <- ?app_assoc; split; reflexivity.
    + intros ->. split; reflexivity.
  - intros tags ind t Hin Ht. unfold segment.
    apply kept_fold_tag; [assumption|now right].
Qed.

Lemma citation_flush_rule_witness :
  kept "क" (segment KW2015.KEYWORDS_2 [P "क"; P "§ ख"] 0) /\
  prakarans (seg_text KW2015.KEYWORDS_2 "(प्रकरण नं. १) ग"
               (mkSeg ["§ ख"] "क" [] false))
  = ["§ ख"; "क"; "(प्रकरण नं. १) ग"].
Proof.
  destruct (citation_flush_rule KW2015.KEYWORDS_2) as (Htext & _ & Hkept).
  split.
  - apply Hkept; [simpl; tauto|reflexivity].
  - destruct (Htext "(प्रकरण नं. १) ग" (mkSeg ["§ ख"] "क" [] false)
                eq_refl) as [H _].
    destruct H as [H _]; [reflexivity|]. exact H.
Defined.

(** ** The petitioner and respondent scans *)

Section Skip.
Context {St : Type} (body : nat -> Tag -> St -> outcome St).

(** passes that fall through without changing the state are skipped *)
Lemma while_from_skip (pre : list Tag) (tag : Tag) (post : list Tag)
    (ind : nat) (s : St) :
  (forall k t, pre !! k = Some t -> body (ind + k) t s = Next s) ->
  while_from body (pre ++ tag :: post) ind s
  = match body (ind + length pre) tag s with
    | Next s' => while_from body post (ind + length pre + 1) s'
    | Break i s' => Ok (i, s')
    | Throw e => Raise e
    end.
Proof.
  revert ind. induction pre as [|t pre IH]; intros ind H; simpl.
  - now rewrite Nat.add_0_r.
  - pose proof (H 0 t eq_refl) as H0. rewrite Nat.add_0_r in H0.
    rewrite H0, IH.
    + now replace (ind + 1 + length pre) with (ind + S (length pre)) by lia.
    + intros k t' Hk. specialize (H (S k) t' Hk).
      now replace (ind + 1 + k) with (ind + S k) by lia.
Qed.

(** a scan reaches the first line at which the body does not fall
    through *)
Lemma while_ind_first (tags : list Tag) (ind i : nat) (tag : Tag) (s : St) :
  ind <= i -> tags !! i = Some tag ->
  (forall j t, ind <= j < i -> tags !! j = Some t -> body j t s = Next s) ->
  while_ind tags body ind s
  = match body i tag s with
    | Next s' => while_from body (drop (i + 1) tags) (i + 1) s'
    | Break i' s' => Ok (i', s')
    | Throw e => Raise e
    end.
Proof.
  intros Hle Hi Hskip. unfold while_ind.
  assert (Hd : drop ind tags !! (i - ind) = Some tag).
  { rewrite lookup_drop. now replace (ind + (i - ind)) with i by lia. }
  rewrite <- (take_drop_middle _ _ _ Hd).
  assert (Hlen : length (take (i - ind) (drop ind tags)) = i - ind).
  { apply lookup_lt_Some in Hd. rewrite length_take. lia. }
  rewrite while_from_skip.
  - rewrite Hlen, drop_drop.
    replace (ind + (i - ind)) with i by lia.
    now replace (ind + S (i - ind)) with (i + 1) by lia.
  - intros k t Hk. apply Hskip.
    + apply lookup_lt_Some in Hk. rewrite Hlen in Hk. lia.
    + rewrite lookup_take_Some in Hk. destruct Hk as [Hk _].
      now rewrite lookup_drop in Hk.
Qed.
End Skip.

(** the outcome of a scan in terms of the first line that contains a
    keyword *)
Lemma party_scan_first (get : Tag -> string) (KEYWORDS : list string)
    (guarded : bool) (tags : list Tag) (ind i : nat) (tag : Tag) :
  ind <= i -> tags !! i = Some tag ->
  (forall j t, ind <= j < i -> tags !! j = Some t ->
               any_in KEYWORDS (get t) = false) ->
  any_in KEYWORDS (get tag) = true ->
  party_scan get KEYWORDS guarded tags ind
  = if any_eq KEYWORDS (get tag) then
      match tags !! (i + 1) with
      | Some tag2 => Ok (i + 1 + 1, Some (get tag2))
      | None => if guarded then Ok (i + 1 + 1, Some (get tag))
                else Raise IndexError
      end
    else Ok (i + 1, Some (get tag)).
Proof.
  intros Hle Hi Hskip Hin. unfold party_scan.
  rewrite (while_ind_first _ tags ind i tag None Hle Hi).
  - unfold party_body. rewrite Hin.
    destruct (any_eq KEYWORDS (get tag)); [|reflexivity].
    destruct (tags !! (i + 1)); [reflexivity|]. now destruct guarded.
  - intros j t Hj Ht. unfold party_body. now rewrite (Hskip j t Hj Ht).
Qed.

(** The claim of C6 as stated fails when the bare label is the last block:
    the 2051 procedure, whose read of the next block is under
    [if ind < n:], records the label itself. *)
Lemma bare_label_last_block_recorded :
  any_eq KW2045.KEYWORDS_3 (get_text_sep (P "निवेदक")) = true /\
  [P "निवेदक"] !! 1 = None /\
  Era2051.petitioner_phase [P "निवेदक"] (mkCursor 0 0, ∅)
  = Ok (mkCursor 2 0, <[K_nibedak := VStr "निवेदक"]> ∅).
Proof. repeat (split; [vm_compute; reflexivity|]). vm_compute. reflexivity. Qed.

(** C6, amended.  Let block [i] be the first block at or after the cursor
    that contains a keyword of the phase.  If its text equals a keyword and
    a next block exists, the text of the next block is recorded and the
    cursor moves to [i + 2]; if its text equals a keyword, no next block
    exists and the read is guarded (the 2051 procedure), the label itself is
    recorded; if its text contains a keyword without being equal to one,
    its own text is recorded and the cursor moves to [i + 1]. *)
Theorem bare_label_rule (get : Tag -> string) (KEYWORDS : list string)
    (guarded : bool) (key : details_key) (tags : list Tag) (c : cursor)
    (details : gmap details_key value) (i : nat) (tag : Tag) :
  ind c <= i -> tags !! i = Some tag ->
  (forall j t, ind c <= j < i -> tags !! j = Some t ->
               any_in KEYWORDS (get t) = false) ->
  any_in KEYWORDS (get tag) = true ->
  (any_eq KEYWORDS (get tag) = true ->
   forall tag2, tags !! (i + 1) = Some tag2 ->
     party_phase get KEYWORDS guarded key tags (c, details)
     = Ok (mkCursor (i + 2) (temp_ind_32 c),
           <[key := VStr (get tag2)]> details)) /\
  (any_eq KEYWORDS (get tag) = true -> tags !! (i + 1) = None ->
   guarded = true ->
     party_phase get KEYWORDS guarded key tags (c, details)
     = Ok (mkCursor (i + 2) (temp_ind_32 c),
           <[key := VStr (get tag)]> details)) /\
  (any_eq KEYWORDS (get tag) = false ->
     party_phase get KEYWORDS guarded key tags (c, details)
     = Ok (mkCursor (i + 1) (temp_ind_32 c),
           <[key := VStr (get tag)]> details)).
Proof.
  intros Hle Hi Hskip Hin. unfold party_phase.
  rewrite (party_scan_first get KEYWORDS guarded tags (ind c) i tag
             Hle Hi Hskip Hin).
  split; [|split].
  - intros -> tag2 ->. simpl. now replace (i + 1 + 1) with (i + 2) by lia.
  - intros -> -> ->. simpl. now replace (i + 1 + 1) with (i + 2) by lia.
  - intros ->. reflexivity.
Qed.

Lemma bare_label_rule_witness :
  Era2015.petitioner_phase [P "क"; P "निवेदक"; P "राम"] (mkCursor 0 0, ∅)
  = Ok (mkCursor 3 0, <[K_nibedak := VStr "राम"]> ∅).
Proof.
  destruct (bare_label_rule get_text_sep KW2015.KEYWORDS_3 false K_nibedak
              [P "क"; P "निवेदक"; P "राम"] (mkCursor 0 0) ∅ 1 (P "निवेदक"))
    as [H _].
  - simpl. lia.
  - reflexivity.
  - intros j t Hj Ht. assert (j = 0) as -> by (simpl in Hj; lia).
    injection Ht as <-. reflexivity.
  - reflexivity.
  - apply (H eq_refl (P "राम") eq_refl).
Defined.

(** ** Consolidated cases in the 2062 procedure *)

Section Invariant.
Context {St : Type} (body : nat -> Tag -> St -> outcome St).
Variable Inv : St -> Prop.

End Invariant.


Lemma bind_Ok {A B : Type} (r : result A) (f : A -> result B) (b : B) :
  r ≫= f = Ok b -> exists a, r = Ok a /\ f a = Ok b.
Proof. destruct r as [a|e]; [eauto|discriminate]. Qed.













(** ** Numerals *)

Lemma devanagari_digit_Some (a b c d : ascii) :
  devanagari_digit a b c = Some d ->
  nat_of_ascii a = 224 /\ nat_of_ascii b = 165 /\
  166 <= nat_of_ascii c <= 175 /\ 48 <= nat_of_ascii d <= 57.
Proof.
  unfold devanagari_digit.
  destruct (nat_of_ascii a =? 224) eqn:Ea; [|discriminate].
  destruct (nat_of_ascii b =? 165) eqn:Eb; [|discriminate].
  destruct (166 <=? nat_of_ascii c) eqn:Ec; [|discriminate].
  destruct (nat_of_ascii c <=? 175) eqn:Ed; [|discriminate].
  intros [= <-].
  apply Nat.eqb_eq in Ea, Eb. apply Nat.leb_le in Ec, Ed.
  rewrite nat_ascii_embedding by lia. lia.
Qed.

Lemma devanagari_digit_None (a b c : ascii) :
  nat_of_ascii a <> 224 \/ nat_of_ascii b <> 165 \/
  nat_of_ascii c < 166 \/ 175 < nat_of_ascii c ->
  devanagari_digit a b c = None.
Proof.
  intros H. destruct (devanagari_digit a b c) as [d|] eqn:E; [|reflexivity].
  apply devanagari_digit_Some in E. lia.
Qed.

Lemma devanagari_digit_None_inv (a b c : ascii) :
  devanagari_digit a b c = None ->
  nat_of_ascii a <> 224 \/ nat_of_ascii b <> 165 \/
  nat_of_ascii c < 166 \/ 175 < nat_of_ascii c.
Proof.
  unfold devanagari_digit.
  destruct (nat_of_ascii a =? 224) eqn:Ea;
    [|apply Nat.eqb_neq in Ea; auto].
  destruct (nat_of_ascii b =? 165) eqn:Eb;
    [|apply Nat.eqb_neq in Eb; auto].
  destruct (166 <=? nat_of_ascii c) eqn:Ec;
    [|apply Nat.leb_gt in Ec; auto].
  destruct (nat_of_ascii c <=? 175) eqn:Ed;
    [discriminate|apply Nat.leb_gt in Ed; auto].
Qed.

Lemma translate_digits_cons3 (a b c : ascii) (rest : string) :
  translate_digits (String a (String b (String c rest)))
  = match devanagari_digit a b c with
    | Some d => String d (translate_digits rest)
    | None => String a (translate_digits (String b (String c rest)))
    end.
Proof. reflexivity. Qed.

(** a byte that is not 224 is kept *)
Lemma translate_digits_keep (a : ascii) (r : string) :
  nat_of_ascii a <> 224 ->
  translate_digits (String a r) = String a (translate_digits r).
Proof.
  intros Ha. destruct r as [|b [|c rest]]; try reflexivity.
  cbn [translate_digits]. rewrite devanagari_digit_None by auto.
  reflexivity.
Qed.

(** the first byte of a translation is the first byte read or a digit *)
Lemma translate_digits_first (a : ascii) (r : string) :
  exists a' r', translate_digits (String a r) = String a' r' /\
                (a' = a \/ 48 <= nat_of_ascii a' <= 57).
Proof.
  destruct r as [|b [|c rest]]; try (eexists _, _; split; [reflexivity|auto]).
  cbn [translate_digits].
  destruct (devanagari_digit a b c) as [d|] eqn:E.
  - apply devanagari_digit_Some in E.
    eexists _, _; split; [reflexivity|]. right. lia.
  - eexists _, _; split; [reflexivity|auto].
Qed.

(** a byte that starts no key in the text starts none in front of the
    translation of what follows *)
Lemma translate_digits_head (a : ascii) (r : string) :
  translate_digits (String a r) = String a (translate_digits r) ->
  translate_digits (String a (translate_digits r))
  = String a (translate_digits (translate_digits r)).
Proof.
  intros Hs.
  destruct (Nat.eq_dec (nat_of_ascii a) 224) as [Ha|Ha];
    [|now apply translate_digits_keep].
  destruct r as [|b r']; [reflexivity|].
  destruct (translate_digits_first b r') as (b' & y & Eb & Hb').
  rewrite Eb.
  destruct (Nat.eq_dec (nat_of_ascii b') 165) as [Hb|Hb].
  - (* the second byte is kept as it was *)
    assert (b' = b) as -> by (destruct Hb' as [->|?]; [reflexivity|lia]).
    rewrite translate_digits_keep in Eb by lia. injection Eb as <-.
    destruct r' as [|c r'']; [reflexivity|].
    destruct (translate_digits_first c r'') as (c' & z & Ec & Hc').
    rewrite Ec. cbn [translate_digits].
    rewrite devanagari_digit_None; [reflexivity|].
    destruct Hc' as [->|Hc']; [|lia].
    (* the third byte is the one read: it made no key with the first two *)
    cbn [translate_digits] in Hs.
    destruct (devanagari_digit a b c) as [d|] eqn:E.
    + injection Hs as Hd _. apply devanagari_digit_Some in E. subst d. lia.
    + apply devanagari_digit_None_inv in E. lia.
  - destruct y as [|c y']; [reflexivity|].
    cbn [translate_digits]. rewrite devanagari_digit_None by auto.
    reflexivity.
Qed.

Lemma translate_digits_idempotent_upto (n : nat) (s : string) :
  String.length s <= n ->
  translate_digits (translate_digits s) = translate_digits s.
Proof.
  revert s. induction n as [|n IH]; intros s Hn.
  - destruct s; [reflexivity|simpl in Hn; lia].
  - destruct s as [|a r]; [reflexivity|]. simpl in Hn.
    destruct r as [|b [|c rest]].
    + reflexivity.
    + change (translate_digits (String a (String b EmptyString)))
        with (String a (translate_digits (String b EmptyString))).
      rewrite translate_digits_head by reflexivity.
      rewrite IH by (simpl in *; lia). reflexivity.
    + rewrite translate_digits_cons3.
      destruct (devanagari_digit a b c) as [d|] eqn:E.
      * apply devanagari_digit_Some in E.
        rewrite translate_digits_keep by lia.
        rewrite IH by (simpl in *; lia). reflexivity.
      * rewrite translate_digits_head.
        -- rewrite IH by (simpl in *; lia). reflexivity.
        -- now rewrite translate_digits_cons3, E.
Qed.

Lemma english_sal_translated (sal : string) :
  nepali_sal_to_english_sal (nepali_sal_to_english_sal sal)
  = nepali_sal_to_english_sal sal.
Proof.
  unfold nepali_sal_to_english_sal.
  destruct (truthy sal) eqn:E; [|reflexivity].
  destruct (truthy (translate_digits sal)) eqn:E'.
  - apply (translate_digits_idempotent_upto (String.length sal)). lia.
  - destruct sal as [|a r]; [discriminate|].
    destruct (translate_digits_first a r) as (a' & r' & Hf & _).
    rewrite Hf in E'. discriminate.
Qed.

(** X1.  Translating the digits twice gives what translating them once
    gives: the result of [nepali_sal_to_english_sal] holds no Devanagari
    digit any more. *)
Theorem nepali_sal_to_english_sal_idempotent (sal : string) :
  nepali_sal_to_english_sal (nepali_sal_to_english_sal sal)
  = nepali_sal_to_english_sal sal.
Proof. exact (english_sal_translated sal). Qed.

Lemma translate_digits_key (d : nat) (rest : string) :
  d < 10 ->
  translate_digits (nth d (map fst nepali_to_english) EmptyString +:+ rest)
  = nth d (map snd nepali_to_english) EmptyString
    +:+ translate_digits rest.
Proof.
  intros Hd.
  do 10 (destruct d as [|d]; [reflexivity|]). lia.
Qed.

Lemma translate_digits_ascii (s : string) :
  ascii_only s = true -> translate_digits s = s.
Proof.
  induction s as [|a r IH]; [reflexivity|].
  cbn [ascii_only]. intros H. apply andb_true_iff in H as [Ha Hr].
  apply Nat.ltb_lt in Ha.
  rewrite translate_digits_keep by lia. now rewrite IH.
Qed.

Lemma english_sal_of_numeral (ds : list nat) :
  Forall (fun d => d < 10) ds ->
  nepali_sal_to_english_sal (nepali_numeral ds) = ascii_numeral ds.
Proof.
  intros Hds.
  assert (H : translate_digits (nepali_numeral ds) = ascii_numeral ds).
  { induction Hds as [|d ds Hd _ IH]; [reflexivity|].
    cbn [nepali_numeral ascii_numeral fold_right].
    rewrite translate_digits_key by assumption.
    f_equal. exact IH. }
  unfold nepali_sal_to_english_sal.
  destruct (truthy (nepali_numeral ds)) eqn:E; [exact H|].
  destruct ds as [|d ds]; [reflexivity|].
  exfalso. inversion Hds as [|? ? Hd _]; subst.
  cbn [nepali_numeral fold_right] in E.
  do 10 (destruct d as [|d]; [discriminate|]). lia.
Qed.

(** X2.  A Devanagari numeral is turned into the ASCII numeral with the
    same digits, and a text of ASCII bytes is returned as it is. *)
Theorem nepali_sal_to_english_sal_numeral :
  (forall ds, Forall (fun d => d < 10) ds ->
     nepali_sal_to_english_sal (nepali_numeral ds) = ascii_numeral ds) /\
  (forall s, ascii_only s = true -> nepali_sal_to_english_sal s = s).
Proof.
  split; [exact english_sal_of_numeral|].
  intros s Hs. unfold nepali_sal_to_english_sal.
  destruct s; [reflexivity|]. now apply translate_digits_ascii.
Qed.

Lemma nepali_sal_to_english_sal_numeral_witness :
  nepali_sal_to_english_sal "२०७३" = "2073" /\
  nepali_sal_to_english_sal "2073" = "2073".
Proof.
  destruct nepali_sal_to_english_sal_numeral as [H1 H2]. split.
  - apply (H1 [2; 0; 7; 3]). repeat constructor.
  - apply (H2 "2073"). reflexivity.
Defined.

(** ** Case types *)

Lemma list_index_Some (x : string) (l : list string) (k : nat) :
  list_index x l = Some k -> l !! k = Some x.
Proof.
  revert k. induction l as [|y r IH]; intros k; simpl; [discriminate|].
  destruct (String.eqb y x) eqn:E.
  - apply String.eqb_eq in E. now intros [= <-]; subst.
  - destruct (list_index x r) as [j|]; [|discriminate].
    intros [= <-]. now apply IH.
Qed.

Lemma list_index_None (x : string) (l : list string) :
  list_index x l = None <-> ~ In x l.
Proof.
  induction l as [|y r IH]; simpl; [tauto|].
  destruct (String.eqb y x) eqn:E.
  - apply String.eqb_eq in E. split; [discriminate|tauto].
  - apply String.eqb_neq in E.
    destruct (list_index x r) as [j|]; simpl.
    + split; [discriminate|]. intros H. exfalso.
      destruct IH as [_ IH]. assert (Hn : ~ In x r) by tauto.
      specialize (IH Hn). discriminate.
    + destruct IH as [IH _]. specialize (IH eq_refl).
      split; [tauto|reflexivity].
Qed.

(** X3.  [get_mudda_type_number] gives the 1-based position of a case type
    in [mudda_type_arr] and raises [ValueError] for any other text; the
    entry at the returned position is the case type given, which is what
    [extract_info_from_filename] relies on to go back. *)
Theorem get_mudda_type_number_position :
  (forall k m, mudda_type_arr !! k = Some m ->
     get_mudda_type_number m = Ok (py_str (k + 1))) /\
  (forall m s, get_mudda_type_number m = Ok s ->
     exists k, k < 7 /\ mudda_type_arr !! k = Some m /\ s = py_str (k + 1)) /\
  (forall m, ~ In m mudda_type_arr ->
     get_mudda_type_number m = Raise ValueError).
Proof.
  split; [|split].
  - intros k m H.
    do 7 (destruct k as [|k]; [injection H as <-; reflexivity|]).
    discriminate.
  - intros m s. unfold get_mudda_type_number.
    destruct (list_index m mudda_type_arr) as [k|] eqn:E; [|discriminate].
    intros [= <-]. apply list_index_Some in E. exists k.
    split; [|split; [assumption|reflexivity]].
    apply lookup_lt_Some in E. exact E.
  - intros m H. apply list_index_None in H.
    unfold get_mudda_type_number. now rewrite H.
Qed.

Lemma get_mudda_type_number_position_witness :
  get_mudda_type_number "रिट" = Ok "5" /\
  get_mudda_type_number "रिट निवेदन" = Raise ValueError.
Proof.
  destruct get_mudda_type_number_position as (H1 & _ & H3). split.
  - apply (H1 4 "रिट"). reflexivity.
  - apply H3. simpl. intros H.
    repeat (destruct H as [H|H]; [discriminate|]). exact H.
Defined.

(** ** The search URL *)

Lemma dict_get_None (key : string) (items : list (string * string)) :
  dict_get key items = None <-> ~ In key (map fst items).
Proof.
  induction items as [|[k v] r IH]; simpl; [tauto|].
  destruct (dict_get key r) as [w|].
  - split; [discriminate|]. intros H. exfalso.
    destruct IH as [_ IH]. assert (Hn : ~ In key (map fst r)) by tauto.
    specialize (IH Hn). discriminate.
  - destruct IH as [IH _]. specialize (IH eq_refl).
    destruct (String.eqb k key) eqn:E.
    + apply String.eqb_eq in E. split; [discriminate|tauto].
    + apply String.eqb_neq in E. split; [tauto|reflexivity].
Qed.

Lemma ascii_only_append (s t : string) :
  ascii_only (s +:+ t) = ascii_only s && ascii_only t.
Proof.
  induction s as [|a s IH]; [reflexivity|].
  change (ascii_only (String a (s +:+ t))
          = ascii_only (String a s) && ascii_only t).
  cbn [ascii_only]. rewrite IH. apply andb_assoc.
Qed.

Lemma ascii_only_quote_plus_char (c : ascii) :
  ascii_only (quote_plus_char c) = true.
Proof. destruct c as [[] [] [] [] [] [] [] []]; reflexivity. Qed.

Lemma ascii_only_quote_plus (s : string) : ascii_only (quote_plus s) = true.
Proof.
  induction s as [|c s IH]; [reflexivity|].
  cbn [quote_plus]. now rewrite ascii_only_append, ascii_only_quote_plus_char.
Qed.

Lemma ascii_only_concat (sep : string) (l : list string) :
  ascii_only sep = true -> Forall (fun s => ascii_only s = true) l ->
  ascii_only (String.concat sep l) = true.
Proof.
  intros Hsep Hl. induction Hl as [|s l Hs Hl IH]; [reflexivity|].
  destruct l as [|t l]; [exact Hs|].
  change (ascii_only (s +:+ sep +:+ String.concat sep (t :: l)) = true).
  now rewrite !ascii_only_append, Hs, Hsep, IH.
Qed.

Lemma ascii_only_urlencode (params : list (string * string)) :
  ascii_only (urlencode params) = true.
Proof.
  unfold urlencode. apply ascii_only_concat; [reflexivity|].
  apply Forall_map, Forall_forall. intros [k v] _. cbn [fst snd].
  now rewrite !ascii_only_append, !ascii_only_quote_plus.
Qed.

(** X4.  [search_url] raises [ValueError] exactly for the case types that
    are not in [mudda_type_arr], the ones for which [get_mudda_type_number]
    raises it too; for a case type of the list it returns a URL, whatever
    the year given, and this URL starts with the address of the site, ends
    with [#] and is made of ASCII bytes only (all the Devanagari text in it
    is percent-encoded). *)
Theorem search_url_result (mudda_type sal : string) :
  (search_url mudda_type sal = Raise ValueError
   <-> ~ In mudda_type mudda_type_arr) /\
  (search_url mudda_type sal = Raise ValueError
   <-> get_mudda_type_number mudda_type = Raise ValueError) /\
  (In mudda_type mudda_type_arr ->
   exists query,
     search_url mudda_type sal
     = Ok ("https://nkp.gov.np/?" +:+ query +:+ "#")
     /\ ascii_only query = true).
Proof.
  assert (Hraise : search_url mudda_type sal = Raise ValueError
                   <-> ~ In mudda_type mudda_type_arr).
  { unfold search_url.
    destruct (dict_get mudda_type mudda_types) as [number|] eqn:E.
    - split; [discriminate|]. intros H. exfalso.
      apply (dict_get_None mudda_type mudda_types) in H.
      rewrite H in E. discriminate.
    - apply dict_get_None in E. split; [intros _; exact E|reflexivity]. }
  split; [exact Hraise|split].
  - rewrite Hraise, <- list_index_None. unfold get_mudda_type_number.
    destruct (list_index mudda_type mudda_type_arr);
      split; try discriminate; reflexivity.
  - intros Hin. unfold search_url in *.
    destruct (dict_get mudda_type mudda_types) as [number|] eqn:E.
    + eexists. split; [reflexivity|]. apply ascii_only_urlencode.
    + exfalso. apply Hraise; [reflexivity|exact Hin].
Qed.

Lemma search_url_result_witness :
  exists query,
    search_url "रिट" "२०७३" = Ok ("https://nkp.gov.np/?" +:+ query +:+ "#")
    /\ ascii_only query = true.
Proof.
  apply (search_url_result "रिट" "२०७३").
  unfold mudda_type_arr. simpl. tauto.
Defined.

Lemma quote_plus_safe (c : ascii) (r : string) :
  always_safe c = true -> quote_plus (String c r) = String c (quote_plus r).
Proof.
  intros H. cbn [quote_plus]. unfold quote_plus_char. now rewrite H.
Qed.

Lemma ascii_digit_cons (d : nat) (acc : string) :
  d < 10 ->
  exists c, always_safe c = true /\
    nth d (map snd nepali_to_english) EmptyString +:+ acc = String c acc.
Proof.
  intros Hd.
  do 10 (destruct d as [|d]; [eexists; split; [|reflexivity]; reflexivity|]).
  lia.
Qed.

Lemma quote_plus_ascii_numeral (ds : list nat) :
  Forall (fun d => d < 10) ds ->
  quote_plus (ascii_numeral ds) = ascii_numeral ds.
Proof.
  intros Hds. induction Hds as [|d ds Hd _ IH]; [reflexivity|].
  cbn [ascii_numeral fold_right]. fold (ascii_numeral ds).
  destruct (ascii_digit_cons d (ascii_numeral ds) Hd) as (c & Hc & ->).
  now rewrite quote_plus_safe, IH.
Qed.

(** X5.  The year can be given in Devanagari or in ASCII digits:
    [search_url] gives the same result for a year and for its translation
    by [nepali_sal_to_english_sal]; and for a case type of the list and a
    Devanagari numeral as the year, the query of the URL is a list of
    parameters joined by [&], one of which is [year=] followed by the ASCII
    numeral with the same digits. *)
Theorem search_url_year (mudda_type : string) :
  (forall sal,
     search_url mudda_type (nepali_sal_to_english_sal sal)
     = search_url mudda_type sal) /\
  (forall ds, Forall (fun d => d < 10) ds ->
     In mudda_type mudda_type_arr ->
     exists parts,
       search_url mudda_type (nepali_numeral ds)
       = Ok ("https://nkp.gov.np/?" +:+ String.concat "&" parts +:+ "#")
       /\ In ("year=" +:+ ascii_numeral ds) parts).
Proof.
  split.
  - intros sal. unfold search_url.
    destruct (dict_get mudda_type mudda_types); [|reflexivity].
    cbv zeta. now rewrite english_sal_translated.
  - intros ds Hds Hin. unfold search_url.
    destruct (dict_get mudda_type mudda_types) as [number|] eqn:E.
    + cbv zeta. unfold urlencode. eexists. split; [reflexivity|].
      apply in_map_iff.
      exists ("year", nepali_sal_to_english_sal (nepali_numeral ds)).
      split.
      * cbn [fst snd]. rewrite english_sal_of_numeral by assumption.
        rewrite quote_plus_ascii_numeral by assumption. reflexivity.
      * simpl. tauto.
    + exfalso. apply (dict_get_None mudda_type mudda_types) in E.
      apply E. exact Hin.
Qed.

Lemma search_url_year_witness :
  exists parts,
    search_url "रिट" (nepali_numeral [2; 0; 7; 3])
    = Ok ("https://nkp.gov.np/?" +:+ String.concat "&" parts +:+ "#")
    /\ In ("year=" +:+ ascii_numeral [2; 0; 7; 3]) parts.
Proof.
  destruct (search_url_year "रिट") as [_ H].
  apply H; [repeat constructor|].
  unfold mudda_type_arr. simpl. tauto.
Defined.

(** ** Which links [from_each_page] collects *)

Lemma collect_links_cons (href : option string) (rest : list (option string)) :
  collect_links (href :: rest)
  = (if is_marker href then
       match rest with
       | Some temp_href :: _ => if truthy temp_href then [temp_href] else []
       | _ => []
       end
     else []) ++ collect_links rest.
Proof.
  cbn [collect_links]. destruct (is_marker href); [|reflexivity].
  destruct rest as [|[temp_href|] rest']; [reflexivity| |reflexivity].
  now destruct (truthy temp_href).
Qed.

Lemma collect_links_In (links : list (option string)) (x : string) :
  In x (collect_links links) <->
  exists i href,
    links !! i = Some href /\ is_marker href = true /\
    links !! (i + 1) = Some (Some x) /\ truthy x = true.
Proof.
  induction links as [|href rest IH].
  - simpl. split; [tauto|]. intros (i & h & H & _). now destruct i.
  - rewrite collect_links_cons, in_app_iff, IH. split.
    + intros [H|(i & h & H1 & H2 & H3 & H4)].
      * destruct (is_marker href) eqn:Em; [|destruct H].
        destruct rest as [|[t|] rest']; try destruct H.
        destruct (truthy t) eqn:Et; [|destruct H].
        destruct H as [<-|[]]. exists 0, href. auto.
      * exists (S i), h. auto.
    + intros (i & h & H1 & H2 & H3 & H4). destruct i as [|i].
      * left. injection H1 as ->. rewrite H2.
        destruct rest as [|[t|] rest']; try discriminate.
        injection H3 as ->. rewrite H4. now left.
      * right. exists i, h. auto.
Qed.

(** X6.  The links the loop of [from_each_page] collects are exactly the
    non-empty [href] values of the anchors that directly follow an anchor
    whose [href] holds [#] (every anchor is looked at as such a marker,
    also one that was just collected); every link [from_each_page] returns
    is one of them, and all of them are returned as soon as the loop has
    collected two links. *)
Theorem from_each_page_follows_marker (links : list (option string))
    (x : string) :
  let follows_marker :=
    exists i href,
      links !! i = Some href /\ is_marker href = true /\
      links !! (i + 1) = Some (Some x) /\ truthy x = true in
  (In x (collect_links links) <-> follows_marker) /\
  (In x (from_each_page links) -> follows_marker) /\
  (2 <= length (collect_links links) -> follows_marker ->
   In x (from_each_page links)).
Proof.
  cbv zeta. split; [apply collect_links_In|]. unfold from_each_page.
  split.
  - destruct (1 <? length (collect_links links)); [|intros []].
    intros H. apply collect_links_In. now apply dict_fromkeys_spec.
  - intros Hlen H. apply Nat.ltb_lt in Hlen. rewrite Hlen.
    apply dict_fromkeys_spec. now apply collect_links_In.
Qed.

Lemma from_each_page_follows_marker_witness :
  In "/2" (from_each_page [Some "#"; Some "/1"; Some "#"; Some "/2"]).
Proof.
  apply (from_each_page_follows_marker
           [Some "#"; Some "/1"; Some "#"; Some "/2"] "/2").
  - simpl. lia.
  - exists 2, (Some "#"). repeat split; reflexivity.
Defined.

(** ** What the procedures can raise, and what they hand to the table *)

Lemma text_columns_empty : text_columns ∅.
Proof. intros k _. now rewrite lookup_empty. Qed.

Lemma text_columns_insert_str (k : details_key) (s : string)
    (d : gmap details_key value) :
  text_columns d -> text_columns (<[k := VStr s]> d).
Proof.
  intros H k' Hk'. destruct (decide (k = k')) as [->|Hne].
  - now rewrite lookup_insert_eq.
  - rewrite lookup_insert_ne by assumption. now apply H.
Qed.

Lemma text_columns_insert_list (k : details_key) (l : list string)
    (d : gmap details_key value) :
  is_text_key k = false -> text_columns d -> text_columns (<[k := VList l]> d).
Proof.
  intros Hk H k' Hk'. destruct (decide (k = k')) as [->|Hne].
  - congruence.
  - rewrite lookup_insert_ne by assumption. now apply H.
Qed.

Section Good.
Variable tags : list Tag.

Lemma good_bind {A B : Type} (P : Tag -> Prop) (Q1 : A -> Prop)
    (Q2 : B -> Prop) (r : result A) (f : A -> result B) :
  good tags P Q1 r -> (forall a, Q1 a -> good tags P Q2 (f a)) ->
  good tags P Q2 (r ≫= f).
Proof. destruct r as [a|e]; simpl; auto. Qed.

Lemma good_fmap {A B : Type} (P : Tag -> Prop) (Q1 : A -> Prop)
    (Q2 : B -> Prop) (r : result A) (f : A -> B) :
  good tags P Q1 r -> (forall a, Q1 a -> Q2 (f a)) ->
  good tags P Q2 (f <$> r).
Proof. destruct r as [a|e]; simpl; auto. Qed.

Lemma good_weaken {A : Type} (P P' : Tag -> Prop) (Q Q' : A -> Prop)
    (r : result A) :
  good tags P Q r -> (forall t, P t -> P' t) -> (forall a, Q a -> Q' a) ->
  good tags P' Q' r.
Proof.
  destruct r as [a|e]; simpl; [auto|].
  intros (He & t & Ht & HP) HPP _. split; [assumption|]. eauto.
Qed.

Lemma good_raises {A : Type} (P P' : Tag -> Prop) (Q : A -> Prop)
    (r : result A) :
  good tags P Q r -> (forall t, P t -> P' t) -> good tags P' Q r.
Proof. intros H HP. eapply good_weaken; eauto. Qed.

Lemma last_of_lookup (k : nat) (t : Tag) :
  tags !! k = Some t -> tags !! (k + 1) = None -> last tags = Some t.
Proof.
  intros H1 H2. rewrite last_lookup.
  apply lookup_lt_Some in H1 as Hlt. apply lookup_ge_None in H2.
  replace (pred (length tags)) with k by lia. exact H1.
Qed.

(** a loop whose passes keep [Inv], and raise only an [IndexError] on a
    read past a last tag satisfying [P], does as much *)
Lemma while_ind_good {St : Type} (body : nat -> Tag -> St -> outcome St)
    (Inv : St -> Prop) (P : Tag -> Prop) (ind : nat) (s : St) :
  (forall k t s0, tags !! k = Some t -> Inv s0 ->
     match body k t s0 with
     | Next s1 => Inv s1
     | Break _ s1 => Inv s1
     | Throw e => e = IndexError /\ tags !! (k + 1) = None /\ P t
     end) ->
  Inv s ->
  good tags P (fun r => Inv (snd r)) (while_ind tags body ind s).
Proof.
  intros Hbody. unfold while_ind.
  assert (Hrest : forall j, drop ind tags !! j = tags !! (ind + j))
    by (intros j; apply lookup_drop).
  revert Hrest. generalize (drop ind tags) as rest. intros rest.
  revert ind s. induction rest as [|t rest IH]; intros ind s Hrest Hs; simpl.
  - exact Hs.
  - pose proof (Hrest 0) as H0. simpl in H0. rewrite Nat.add_0_r in H0.
    specialize (Hbody ind t s (eq_sym H0) Hs).
    destruct (body ind t s) as [s1|k s1|e].
    + apply IH; [|exact Hbody].
      intros j. specialize (Hrest (S j)). simpl in Hrest.
      rewrite Hrest. f_equal. lia.
    + exact Hbody.
    + destruct Hbody as (-> & Hnone & HP). split; [reflexivity|].
      exists t. split; [|exact HP].
      now apply (last_of_lookup ind).
Qed.
End Good.

Ltac keeps_text :=
  repeat first
    [ assumption
    | apply text_columns_insert_str
    | apply text_columns_insert_list; [reflexivity|] ].

Ltac pass_ok :=
  repeat case_match; simplify_eq; cbn [fst snd] in *;
  first [ keeps_text; fail
        | split; [reflexivity|split; first [assumption|reflexivity]] ].

Section Phases.
Variable tags : list Tag.
Let n := length tags.

Lemma checkpoint_cursor_ok (c : cursor) :
  temp_ok n c -> cursor_ok n (checkpoint n c).
Proof.
  unfold cursor_ok, temp_ok, checkpoint. intros H.
  destruct (n <=? ind c) eqn:E; simpl; [tauto|].
  apply Nat.leb_gt in E. split; [reflexivity|]. now left.
Qed.

Lemma checkpointed_ok (st : cursor * gmap details_key value) :
  state_ok n st -> checked_ok n (checkpointed n st).
Proof.
  intros [Hc Hd]. split; [|exact Hd]. now apply checkpoint_cursor_ok.
Qed.

Lemma checked_state_ok (st : cursor * gmap details_key value) :
  checked_ok n st -> state_ok n st.
Proof. intros [[_ Hc] Hd]. now split. Qed.

Lemma revert_only_ok (c : cursor) : temp_ok n c -> temp_ok n (revert_only n c).
Proof.
  unfold temp_ok, revert_only. now destruct (n <=? ind c).
Qed.

(** a phase followed by its checkpoint *)
Lemma good_checkpointed (P : Tag -> Prop)
    (r : result (cursor * gmap details_key value)) :
  good tags P (state_ok n) r ->
  good tags P (checked_ok n) (checkpointed n <$> r).
Proof.
  intros H. eapply good_fmap; [exact H|]. apply checkpointed_ok.
Qed.

Lemma party_scan_good (get : Tag -> string) (KEYWORDS : list string)
    (guarded : bool) (i : nat) :
  good tags (fun t => guarded = false /\ any_eq KEYWORDS (get t) = true)
       (fun _ => True) (party_scan get KEYWORDS guarded tags i).
Proof.
  unfold party_scan.
  eapply good_weaken;
    [apply (while_ind_good tags _ (fun _ => True)
              (fun t => guarded = false /\ any_eq KEYWORDS (get t) = true));
     [|exact I]
    | auto | auto ].
  intros k t s0 Ht _. unfold party_body.
  repeat case_match; simplify_eq; auto.
Qed.

Lemma party_phase_good (get : Tag -> string) (KEYWORDS : list string)
    (guarded : bool) (key : details_key)
    (st : cursor * gmap details_key value) :
  state_ok n st ->
  good tags (fun t => guarded = false /\ any_eq KEYWORDS (get t) = true)
       (state_ok n) (party_phase get KEYWORDS guarded key tags st).
Proof.
  destruct st as [c d]. intros [Hc Hd]. unfold party_phase.
  eapply good_bind; [apply party_scan_good|].
  intros [i found] _. simpl. split; [exact Hc|].
  destruct found; keeps_text.
Qed.

(** *** 2015 to 2044 *)

Lemma court_phase_2015_good st :
  state_ok n st ->
  good tags (fun t => any_in KW2015.KEYWORDS_6 (get_text_sep t) = true)
       (state_ok n) (Era2015.court_phase tags st).
Proof.
  destruct st as [c d]. intros [Hc Hd]. unfold Era2015.court_phase.
  eapply good_bind;
    [apply (while_ind_good tags _ (fun s => text_columns (fst s)));
     [|exact Hd]|].
  - intros k t [d0 tmp] Ht H0. unfold Era2015.court_body.
    pass_ok.
  - intros [i [d' tmp]] H. simpl. split; assumption.
Qed.

Lemma judges_phase_2015_good st :
  state_ok n st ->
  good tags (fun _ => False) (state_ok n) (Era2015.judges_phase tags st).
Proof.
  destruct st as [c d]. intros [Hc Hd]. unfold Era2015.judges_phase.
  eapply good_bind;
    [apply (while_ind_good tags _ (fun s => text_columns (fst s)));
     [|exact Hd]|].
  - intros k t [d0 js] Ht H0. unfold Era2015.judges_body.
    pass_ok.
  - intros [i [d' js]] H. simpl. split; assumption.
Qed.

Lemma run_body_2015_good body st :
  (forall temp k t d0, text_columns d0 ->
     match body temp k t d0 with
     | Next d1 => text_columns d1
     | Break _ d1 => text_columns d1
     | Throw _ => False
     end) ->
  state_ok n st ->
  good tags (fun _ => False) (state_ok n) (Era2015.run_body tags body st).
Proof.
  destruct st as [c d]. intros Hbody [Hc Hd]. unfold Era2015.run_body.
  eapply good_bind;
    [apply (while_ind_good tags _ text_columns); [|exact Hd]|].
  - intros k t d0 _ H0. specialize (Hbody (temp_ind_32 c) k t d0 H0).
    destruct (body (temp_ind_32 c) k t d0); tauto.
  - intros [i d'] H. simpl. split; assumption.
Qed.

Lemma subject_body_2015_ok stop temp k t d0 :
  text_columns d0 ->
  match Era2015.subject_body stop temp k t d0 with
  | Next d1 => text_columns d1
  | Break _ d1 => text_columns d1
  | Throw _ => False
  end.
Proof. intros H0. unfold Era2015.subject_body. pass_ok. Qed.

Lemma order_date_body_2015_ok stop temp k t d0 :
  text_columns d0 ->
  match Era2015.order_date_body stop temp k t d0 with
  | Next d1 => text_columns d1
  | Break _ d1 => text_columns d1
  | Throw _ => False
  end.
Proof. intros H0. unfold Era2015.order_date_body. pass_ok. Qed.

Lemma fields_2015_good :
  good tags (fun t => dangling E2015 t = true) (checked_ok n)
       (Era2015.fields tags).
Proof.
  unfold Era2015.fields. fold n.
  eapply good_bind.
  { apply good_checkpointed.
    eapply good_raises; [apply court_phase_2015_good|].
    - split; [now right|apply text_columns_empty].
    - intros t H. unfold dangling. rewrite H. apply orb_true_r. }
  intros st1 H1. apply checked_state_ok in H1.
  eapply good_bind.
  { apply good_checkpointed.
    eapply good_raises; [apply judges_phase_2015_good; assumption|].
    intros t []. }
  intros st2 H2. apply checked_state_ok in H2.
  cbv zeta.
  eapply good_bind.
  { apply good_checkpointed.
    eapply good_raises with (P := fun _ => False); [|intros t []].
    unfold Era2015.before_parties_phase.
    destruct (Era2015.bisaya_before_niweduck tags (ind (fst st2)));
      apply run_body_2015_good; try assumption;
      intros; first [now apply subject_body_2015_ok
                    |now apply order_date_body_2015_ok]. }
  intros st3 H3. apply checked_state_ok in H3.
  eapply good_bind.
  { apply good_checkpointed.
    eapply good_raises; [apply party_phase_good; exact H3|].
    intros t [_ H]. unfold dangling. rewrite H. reflexivity. }
  intros st4 H4. apply checked_state_ok in H4.
  eapply good_bind.
  { apply good_checkpointed.
    eapply good_raises; [apply party_phase_good; exact H4|].
    intros t [_ H]. unfold dangling. rewrite H.
    rewrite orb_true_r. reflexivity. }
  intros st5 H5. apply checked_state_ok in H5.
  apply good_checkpointed.
  eapply good_raises with (P := fun _ => False); [|intros t []].
  unfold Era2015.after_parties_phase.
  destruct (negb (Era2015.bisaya_before_niweduck tags (ind (fst st2))));
    apply run_body_2015_good; try assumption;
    intros; first [now apply subject_body_2015_ok
                  |now apply order_date_body_2015_ok].
Qed.
(** *** 2045 to 2050 *)

Lemma court_phase_2045_good st :
  state_ok n st ->
  good tags (fun _ => False) (state_ok n) (Era2045.court_phase tags st).
Proof.
  destruct st as [c d]. intros [Hc Hd]. unfold Era2045.court_phase.
  eapply good_bind;
    [apply (while_ind_good tags _ (fun s => text_columns (fst s)));
     [|exact Hd]|].
  - intros k t [d0 tmp] Ht H0. unfold Era2045.court_body. pass_ok.
  - intros [i [d' tmp]] H. simpl. split; assumption.
Qed.

Lemma judges_loop_2045_good is_date c d :
  temp_ok n c -> text_columns d ->
  good tags (fun _ => False)
       (fun r => text_columns (fst (snd r)))
       (while_ind tags (Era2045.judges_body is_date) (ind c) (d, [])).
Proof.
  intros Hc Hd.
  apply (while_ind_good tags _ (fun s => text_columns (fst s)));
    [|exact Hd].
  intros k t [d0 js] Ht H0. unfold Era2045.judges_body. pass_ok.
Qed.

Lemma judges_phase_2045_good st :
  state_ok n st ->
  good tags (fun _ => False) (state_ok n) (Era2045.judges_phase tags st).
Proof.
  destruct st as [c d]. intros [Hc Hd]. unfold Era2045.judges_phase.
  eapply good_bind; [now apply judges_loop_2045_good|].
  intros [i [d' js]] H. simpl. split; assumption.
Qed.

Lemma lookahead_phase_2045_good st :
  state_ok n st ->
  good tags (fun _ => False) (fun r => state_ok n (fst r))
       (Era2045.lookahead_phase tags st).
Proof.
  destruct st as [c d]. intros [Hc Hd]. unfold Era2045.lookahead_phase.
  eapply good_bind;
    [apply (while_ind_good tags _ (fun _ => True)); [|exact I]|].
  - intros k t b Ht _. unfold Era2045.lookahead_body.
    repeat case_match; simplify_eq; exact I.
  - intros [i b] _. simpl. split; [assumption|]. keeps_text.
Qed.

Lemma subject_phase_2045_good st :
  state_ok n st ->
  good tags (fun _ => False) (state_ok n) (Era2045.subject_phase tags st).
Proof.
  destruct st as [c d]. intros [Hc Hd]. unfold Era2045.subject_phase.
  eapply good_bind;
    [apply (while_ind_good tags _ text_columns); [|exact Hd]|].
  - intros k t d0 Ht H0. unfold Era2045.subject_body. pass_ok.
  - intros [i d'] H. simpl. split; assumption.
Qed.

Lemma fields_2045_good :
  good tags (fun t => dangling E2045 t = true) (checked_ok n)
       (Era2045.fields tags).
Proof.
  unfold Era2045.fields. fold n.
  eapply good_bind.
  { apply good_checkpointed.
    eapply good_raises; [apply court_phase_2045_good|intros t []].
    split; [now right|apply text_columns_empty]. }
  intros st1 H1. apply checked_state_ok in H1.
  eapply good_bind.
  { apply good_checkpointed.
    eapply good_raises; [apply judges_phase_2045_good; assumption|].
    intros t []. }
  intros st2 H2. apply checked_state_ok in H2.
  eapply good_bind.
  { eapply good_raises; [apply lookahead_phase_2045_good; assumption|].
    intros t []. }
  intros [[c3 d3] bisaya] H3. cbn [fst] in H3. cbv zeta.
  apply checkpointed_ok in H3.
  eapply good_bind with (Q1 := checked_ok n).
  { destruct bisaya; [|exact H3].
    apply good_checkpointed.
    eapply good_raises;
      [apply subject_phase_2045_good; now apply checked_state_ok|].
    intros t []. }
  intros st4 H4. apply checked_state_ok in H4.
  eapply good_bind.
  { apply good_checkpointed.
    eapply good_raises; [apply party_phase_good; exact H4|].
    intros t [_ H]. unfold dangling. rewrite H. reflexivity. }
  intros st5 H5. apply checked_state_ok in H5.
  eapply good_bind.
  { apply good_checkpointed.
    eapply good_raises; [apply party_phase_good; exact H5|].
    intros t [_ H]. unfold dangling. rewrite H. apply orb_true_r. }
  intros st6 H6.
  destruct (negb bisaya); [|exact H6].
  apply good_checkpointed.
  eapply good_raises;
    [apply subject_phase_2045_good; now apply checked_state_ok|].
  intros t [].
Qed.

(** *** 2051 to 2061 *)

Lemma run_body_2051_good body st :
  (forall k t d0, text_columns d0 ->
     match body k t d0 with
     | Next d1 => text_columns d1
     | Break _ d1 => text_columns d1
     | Throw _ => False
     end) ->
  state_ok n st ->
  good tags (fun _ => False) (state_ok n) (Era2051.run_body tags body st).
Proof.
  destruct st as [c d]. intros Hbody [Hc Hd]. unfold Era2051.run_body.
  eapply good_bind;
    [apply (while_ind_good tags _ text_columns); [|exact Hd]|].
  - intros k t d0 _ H0. specialize (Hbody k t d0 H0).
    destruct (body k t d0); tauto.
  - intros [i d'] H. simpl. split; assumption.
Qed.

Lemma judges_phase_2051_good st :
  state_ok n st ->
  good tags (fun _ => False) (state_ok n) (Era2051.judges_phase tags st).
Proof.
  destruct st as [c d]. intros [Hc Hd]. unfold Era2051.judges_phase.
  eapply good_bind; [now apply judges_loop_2045_good|].
  intros [i [d' js]] H. simpl. split; assumption.
Qed.

Lemma fields_2051_good :
  good tags (fun _ => False) (checked_ok n) (Era2051.fields tags).
Proof.
  unfold Era2051.fields. fold n.
  eapply good_bind.
  { apply good_checkpointed. apply run_body_2051_good.
    - intros k t d0 H0. unfold Era2051.court_body. pass_ok.
    - split; [now right|apply text_columns_empty]. }
  intros st1 H1. apply checked_state_ok in H1.
  eapply good_bind.
  { apply good_checkpointed. now apply judges_phase_2051_good. }
  intros st2 H2. apply checked_state_ok in H2.
  eapply good_bind.
  { apply run_body_2051_good; [|exact H2].
    intros k t d0 H0. unfold Era2051.subject_body. pass_ok. }
  intros [c3 d3] [Hc3 Hd3]. cbv zeta.
  assert (H3 : state_ok n (revert_only n c3, d3))
    by (split; [now apply revert_only_ok|assumption]).
  eapply good_bind.
  { apply good_checkpointed.
    eapply good_raises; [apply party_phase_good; exact H3|].
    intros t [H _]. discriminate. }
  intros st4 H4. apply checked_state_ok in H4.
  apply good_checkpointed.
  eapply good_raises; [apply party_phase_good; exact H4|].
  intros t [H _]. discriminate.
Qed.

(** *** 2062 to 2072 *)

Lemma court_phase_2062_good st :
  state_ok n st ->
  good tags (fun t => any_in KW2045.KEYWORDS_6 (get_text_sep t) = true)
       (state_ok n) (Era2062.court_phase tags st).
Proof.
  destruct st as [c d]. intros [Hc Hd]. unfold Era2062.court_phase.
  eapply good_bind;
    [apply (while_ind_good tags _ (fun s => text_columns (fst s)));
     [|exact Hd]|].
  - intros k t [d0 tmp] Ht H0. unfold Era2062.court_body. pass_ok.
  - intros [i [d' tmp]] H. simpl. split; assumption.
Qed.

Lemma judges_phase_2062_good st :
  state_ok n st ->
  good tags (fun t => String.eqb (get_text_sep t) "फैसला" = true)
       (fun r => state_ok n (fst r)) (Era2062.judges_phase tags st).
Proof.
  destruct st as [c d]. intros [Hc Hd]. unfold Era2062.judges_phase.
  eapply good_bind;
    [apply (while_ind_good tags _ (fun s => text_columns (fst (fst s))));
     [|exact Hd]|].
  - intros k t [[d0 js] fl] Ht H0. unfold Era2062.judges_body.
    repeat case_match; simplify_eq; cbn [fst snd] in *;
      first [ keeps_text; fail | idtac ].
    split; [reflexivity|split; [reflexivity|]].
    match goal with
    | H : negb _ = false |- _ => apply negb_false_iff in H; exact H
    end.
  - intros [i [[d' js] fl]] H. simpl. split; assumption.
Qed.

Lemma date_or_case_phase_2062_good faisla st :
  state_ok n st ->
  good tags (fun _ => False) (fun r => state_ok n (fst r))
       (Era2062.date_or_case_phase tags faisla st).
Proof.
  destruct st as [c d]. intros [Hc Hd]. unfold Era2062.date_or_case_phase.
  eapply good_bind;
    [apply (while_ind_good tags _ (fun s => text_columns (fst s)));
     [|exact Hd]|].
  - intros k t [d0 sb] Ht H0.
    destruct faisla;
      unfold Era2062.after_date_body, Era2062.order_date_body; pass_ok.
  - intros [i [d' sb]] H. simpl. split; assumption.
Qed.

Lemma case_or_subject_phase_2062_good sb st :
  state_ok n st ->
  good tags (fun _ => False) (state_ok n)
       (Era2062.case_or_subject_phase tags sb st).
Proof.
  destruct st as [c d]. intros [Hc Hd].
  unfold Era2062.case_or_subject_phase.
  eapply good_bind;
    [apply (while_ind_good tags _ text_columns); [|exact Hd]|].
  - intros k t d0 Ht H0.
    destruct sb; unfold Era2062.case_no_body, Era2062.subject_body; pass_ok.
  - intros [i d'] H. simpl. split; assumption.
Qed.

Lemma before_parties_2062_good :
  good tags (fun t => dangling E2062 t = true) (checked_ok n)
       (Era2062.before_parties tags).
Proof.
  unfold Era2062.before_parties. fold n.
  eapply good_bind.
  { apply good_checkpointed.
    eapply good_raises; [apply court_phase_2062_good|].
    - split; [now right|apply text_columns_empty].
    - intros t H. unfold dangling. rewrite H.
      rewrite orb_true_r. reflexivity. }
  intros st1 H1. apply checked_state_ok in H1.
  eapply good_bind.
  { eapply good_raises; [apply judges_phase_2062_good; assumption|].
    intros t H. unfold dangling. rewrite H. apply orb_true_r. }
  intros [[c2 d2] faisla] H2. cbn [fst] in H2. cbv zeta.
  apply checkpointed_ok, checked_state_ok in H2.
  eapply good_bind.
  { eapply good_raises; [apply date_or_case_phase_2062_good; exact H2|].
    intros t []. }
  intros [[c3 d3] sb] H3. cbn [fst] in H3. cbv zeta.
  apply checkpointed_ok, checked_state_ok in H3.
  apply good_checkpointed.
  eapply good_raises; [apply case_or_subject_phase_2062_good; exact H3|].
  intros t [].
Qed.

Lemma pairs_2062_good (count : nat) (c : cursor)
    (appellant opposition : list string) :
  cursor_ok n c ->
  good tags (fun t => dangling E2062 t = true)
       (fun r => cursor_ok n (fst (fst r)))
       (Era2062.pairs tags count c appellant opposition).
Proof.
  revert c appellant opposition.
  induction count as [|count IH]; intros c appellant opposition Hc.
  - exact Hc.
  - cbn [Era2062.pairs]. fold n.
    eapply good_bind.
    { eapply good_raises; [apply party_scan_good|].
      intros t [_ H]. unfold dangling. rewrite H. reflexivity. }
    intros [i found] _. cbv zeta.
    eapply good_bind.
    { eapply good_raises; [apply party_scan_good|].
      intros t [_ H]. unfold dangling. rewrite H.
      rewrite orb_true_r. reflexivity. }
    intros [j found2] _. cbv zeta.
    apply IH. apply checkpoint_cursor_ok. cbn [temp_ind_32].
    apply checkpoint_cursor_ok. cbn [temp_ind_32]. apply Hc.
Qed.

Lemma fields_2062_good :
  good tags (fun t => dangling E2062 t = true) (checked_ok n)
       (Era2062.fields tags).
Proof.
  unfold Era2062.fields.
  eapply good_bind; [apply before_parties_2062_good|].
  intros [c d] [Hc Hd]. cbn [fst snd] in *.
  unfold Era2062.parties_phase. fold n. cbn [fst snd].
  destruct (1 <? Era2062.count_how_many tags (ind c)).
  - eapply good_bind; [apply pairs_2062_good; exact Hc|].
    intros [[c' appellant] opposition] Hc'. cbn [fst] in Hc'.
    split; [exact Hc'|]. cbn [snd]. keeps_text.
  - assert (H0 : state_ok n (c, d)) by (split; [apply Hc|exact Hd]).
    eapply good_bind.
    { apply good_checkpointed.
      eapply good_raises; [apply party_phase_good; exact H0|].
      intros t [_ H]. unfold dangling. rewrite H. reflexivity. }
    intros st1 H1. apply checked_state_ok in H1.
    apply good_checkpointed.
    eapply good_raises; [apply party_phase_good; exact H1|].
    intros t [_ H]. unfold dangling. rewrite H.
    rewrite orb_true_r. reflexivity.
Qed.

(** *** 2073 and later: the checkpoint can sit at the end of the block, so
    only the columns are followed *)

Lemma party_phase_text (get : Tag -> string) (KEYWORDS : list string)
    (guarded : bool) (key : details_key)
    (st : cursor * gmap details_key value) :
  text_columns (snd st) ->
  good tags (fun t => guarded = false /\ any_eq KEYWORDS (get t) = true)
       (fun st' => text_columns (snd st'))
       (party_phase get KEYWORDS guarded key tags st).
Proof.
  destruct st as [c d]. intros Hd. unfold party_phase.
  eapply good_bind; [apply party_scan_good|].
  intros [i found] _. cbn [snd] in *.
  destruct found; keeps_text.
Qed.

Lemma good_checkpointed_text (P : Tag -> Prop)
    (r : result (cursor * gmap details_key value)) :
  good tags P (fun st => text_columns (snd st)) r ->
  good tags P (fun st => text_columns (snd st)) (checkpointed n <$> r).
Proof.
  intros H. eapply good_fmap; [exact H|]. intros [c d] Hd. exact Hd.
Qed.

Lemma run_body_2073_good body st :
  (forall k t d0, text_columns d0 ->
     match body k t d0 with
     | Next d1 => text_columns d1
     | Break _ d1 => text_columns d1
     | Throw _ => False
     end) ->
  text_columns (snd st) ->
  good tags (fun _ => False) (fun st' => text_columns (snd st'))
       (Era2073.run_body tags body st).
Proof.
  destruct st as [c d]. intros Hbody Hd. unfold Era2073.run_body.
  eapply good_bind;
    [apply (while_ind_good tags _ text_columns); [|exact Hd]|].
  - intros k t d0 _ H0. specialize (Hbody k t d0 H0).
    destruct (body k t d0); tauto.
  - intros [i d'] H. exact H.
Qed.

Lemma judges_phase_2073_good st :
  text_columns (snd st) ->
  good tags (fun _ => False) (fun st' => text_columns (snd st'))
       (Era2073.judges_phase tags st).
Proof.
  destruct st as [c d]. intros Hd. unfold Era2073.judges_phase.
  eapply good_bind;
    [apply (while_ind_good tags _ (fun s => text_columns (fst s)));
     [|exact Hd]|].
  - intros k t [d0 js] Ht H0. unfold Era2073.judges_body. pass_ok.
  - intros [i [d' js]] H. exact H.
Qed.

Lemma case_phase_2073_good st :
  text_columns (snd st) ->
  good tags (fun _ => False) (fun r => text_columns (snd (fst r)))
       (Era2073.case_phase tags st).
Proof.
  destruct st as [c d]. intros Hd. unfold Era2073.case_phase.
  eapply good_bind;
    [apply (while_ind_good tags _ (fun s => text_columns (fst s)));
     [|exact Hd]|].
  - intros k t [d0 b] Ht H0. unfold Era2073.case_body. pass_ok.
  - intros [i [d' b]] H. exact H.
Qed.

Lemma before_structure_2073_good :
  good tags (fun _ => False) (fun r => text_columns (snd (fst r)))
       (Era2073.before_structure tags).
Proof.
  unfold Era2073.before_structure. fold n.
  eapply good_bind.
  { apply good_checkpointed_text.
    apply run_body_2073_good; [|apply text_columns_empty].
    intros k t d0 H0. unfold Era2073.court_body. pass_ok. }
  intros st1 H1.
  eapply good_bind.
  { apply good_checkpointed_text. now apply judges_phase_2073_good. }
  intros st2 H2.
  eapply good_bind; [now apply case_phase_2073_good|].
  intros [[c3 d3] b] H3. exact H3.
Qed.

Lemma consolidated_2073_good (fuel : nat) (i : nat)
    (case_no appellant opposition : list string)
    (d : gmap details_key value) :
  text_columns d ->
  match Era2073.consolidated fuel tags i case_no appellant opposition d with
  | Some r => good tags (fun t => dangling E2073 t = true)
                   (fun r => text_columns (snd r)) r
  | None => True
  end.
Proof.
  intros Hd. revert i case_no appellant opposition.
  induction fuel as [|fuel IH]; intros i case_no appellant opposition;
    cbn [Era2073.consolidated]; destruct (i <? length tags); try exact Hd;
    [exact I|].
  pose proof (while_ind_good tags Era2073.first_text_body (fun _ => True)
                (fun _ => False) i None) as H1.
  destruct (while_ind tags Era2073.first_text_body i None)
    as [[i1 found1]|e1].
  2:{ exfalso. destruct H1 as (_ & t & _ & []); [|exact I].
      intros k t s0 _ _. unfold Era2073.first_text_body.
      now destruct (truthy (get_text_strip t)). }
  clear H1.
  pose proof (party_scan_good get_text_strip KW2045.KEYWORDS_3 false i1)
    as H2.
  destruct (party_scan get_text_strip KW2045.KEYWORDS_3 false tags i1)
    as [[i2 found2]|e2].
  2:{ eapply good_raises; [exact H2|]. intros t [_ H].
      unfold dangling. rewrite H. reflexivity. }
  clear H2.
  pose proof (party_scan_good get_text_strip KW2045.KEYWORDS_4 false i2)
    as H3.
  destruct (party_scan get_text_strip KW2045.KEYWORDS_4 false tags i2)
    as [[i3 found3]|e3].
  2:{ eapply good_raises; [exact H3|]. intros t [_ H].
      unfold dangling. rewrite H. apply orb_true_r. }
  clear H3. cbv zeta.
  destruct (Era2073.end_condition (drop i3 tags)) as [[|]|]; try apply IH.
  cbn [good snd]. keeps_text.
Qed.

Lemma fields_2073_good :
  match Era2073.fields_fuel (length tags) tags with
  | Some r => good tags (fun t => dangling E2073 t = true)
                   (fun st => text_columns (snd st)) r
  | None => True
  end.
Proof.
  unfold Era2073.fields_fuel.
  pose proof before_structure_2073_good as H.
  destruct (Era2073.before_structure tags) as [[[c d] b]|e].
  2:{ eapply good_raises; [exact H|intros t []]. }
  cbn [good fst snd] in H. unfold Era2073.structure_phase. fold n.
  cbn [fst snd]. destruct b.
  - pose proof (consolidated_2073_good n (ind c) [] [] [] d H) as Hc.
    destruct (Era2073.consolidated n tags (ind c) [] [] [] d) as [r|];
      [|exact I].
    eapply good_bind; [exact Hc|].
    intros [i d'] Hd'. exact Hd'.
  - eapply good_bind.
    { apply good_checkpointed_text.
      eapply good_raises with (P := fun _ => False); [|intros t []].
      apply run_body_2073_good; [|exact H].
      intros k t d0 H0. unfold Era2073.subject_body. pass_ok. }
    intros st1 H1.
    eapply good_bind.
    { apply good_checkpointed_text.
      eapply good_raises; [apply party_phase_text; exact H1|].
      intros t [_ Ht]. unfold dangling. rewrite Ht. reflexivity. }
    intros st2 H2.
    apply good_checkpointed_text.
    eapply good_raises; [apply party_phase_text; exact H2|].
    intros t [_ Ht]. unfold dangling. rewrite Ht. apply orb_true_r.
Qed.

(** *** the five extractions *)

Lemma store_segment_text KEYWORDS_2 i (d : gmap details_key value) :
  text_columns d -> text_columns (store_segment KEYWORDS_2 tags i d).
Proof. intros H. unfold store_segment. cbv zeta. keeps_text. Qed.

Lemma extract_of_good (e : Era) :
  match extract_of e tags with
  | Some r => good tags (fun t => dangling e t = true) text_columns r
  | None => True
  end.
Proof.
  destruct e; cbn [extract_of].
  - unfold Era2015.extract. eapply good_bind; [apply fields_2015_good|].
    intros [c d] [_ Hd]. now apply store_segment_text.
  - unfold Era2045.extract. eapply good_bind; [apply fields_2045_good|].
    intros [c d] [_ Hd]. now apply store_segment_text.
  - unfold Era2051.extract. eapply good_bind.
    + eapply good_raises; [apply fields_2051_good|intros t []].
    + intros [c d] [_ Hd]. now apply store_segment_text.
  - unfold Era2062.extract. eapply good_bind; [apply fields_2062_good|].
    intros [c d] [_ Hd]. now apply store_segment_text.
  - unfold Era2073.extract, Era2073.extract_fuel.
    pose proof fields_2073_good as H.
    destruct (Era2073.fields_fuel (length tags) tags) as [r|]; [|exact I].
    eapply good_bind; [exact H|].
    intros [c d] Hd. now apply store_segment_text.
Qed.
End Phases.

(** ** The procedures on a fetched page *)

Lemma get_text_field_Ok (d : gmap details_key value) (k : details_key) :
  text_columns d -> is_text_key k = true ->
  exists s, get_text_field d k = Ok s.
Proof.
  intros Hd Hk. specialize (Hd k Hk). unfold get_text_field.
  destruct (d !! k) as [[s|l]|]; [eauto|destruct Hd|eauto].
Qed.

Lemma combine_data_Ok (court_key : details_key) (defaulted : bool)
    (url : string) (mudda : option string) (page : Page) (path : string)
    (d : gmap details_key value) :
  text_columns d -> is_text_key court_key = true ->
  exists data,
    combine_data court_key defaulted url mudda page path d = Ok data
    /\ link data = url.
Proof.
  intros Hd Hk. unfold combine_data.
  destruct (get_text_field_Ok d court_key Hd Hk) as [s1 ->].
  destruct (get_text_field_Ok d K_adesh_miti Hd eq_refl) as [s2 ->].
  destruct (get_text_field_Ok d K_bisaya Hd eq_refl) as [s3 ->].
  eexists. split; reflexivity.
Qed.

Lemma finish_Ok (court_key : details_key) (defaulted : bool)
    (url : string) (mudda : option string) (f : Fetch) (page : Page)
    (db : DB) (d : gmap details_key value) :
  text_columns d -> is_text_key court_key = true ->
  exists data,
    finish court_key defaulted url mudda f page db (Ok d)
    = (true, save_to_sqlite db data (now f))
    /\ link data = url.
Proof.
  intros Hd Hk. unfold finish.
  destruct (combine_data_Ok court_key defaulted url mudda page (saved_path f)
              d Hd Hk) as (data & E & Hl).
  exists data. cbn [mbind result_bind]. now rewrite E.
Qed.

Lemma extract_of_total (e : Era) (tags : list Tag) :
  exists r, extract_of e tags = Some r.
Proof. destruct e; cbn [extract_of]; eauto using extract_fuel_enough. Qed.

(** a procedure that looks the link up, on a page that was fetched and has
    a detail block, the link being new *)
Lemma scraper_of_fetched (e : Era) (url : string) (mudda : option string)
    (f : Fetch) (db : DB) (page : Page) (tags : list Tag)
    (r : result (gmap details_key value)) :
  e <> E2073 ->
  soup f = Some page -> div_tag page = Some tags ->
  link_exists db url = false ->
  extract_of e tags = Some r ->
  scraper_of url mudda f e db
  = Some (finish (court_key_of e) true url mudda f page db r).
Proof.
  intros He Hs Hd Hl Hr.
  destruct e; cbn [scraper_of extract_of court_key_of] in *;
    try contradiction;
    injection Hr as <-;
    unfold scrape_case_details_2015_to_2044,
      scrape_case_details_2045_to_2050,
      scrape_case_details_2051_to_2061,
      scrape_case_details_2062_to_2072, scrape_checked, details_of;
    rewrite Hl, Hs, Hd; reflexivity.
Qed.

(** X7.  The 2051 to 2061 procedure never loses a page it could fetch: its
    field extraction returns for every block sequence (the read after a
    bare label is under [if ind < n:]), and for a link that is not in the
    table yet the procedure returns [True] and stores a record under the
    link, whether the page has a detail block or not. *)
Theorem scrape_2051_never_fails :
  (forall tags, exists d, Era2051.extract tags = Ok d) /\
  (forall url mudda f db page,
     link_exists db url = false -> soup f = Some page ->
     exists data,
       scrape_case_details_2051_to_2061 url mudda f db
       = (true, save_to_sqlite db data (now f))
       /\ link data = url).
Proof.
  assert (H51 : forall tags, exists d,
             Era2051.extract tags = Ok d /\ text_columns d).
  { intros tags. pose proof (extract_of_good tags E2051) as H.
    cbn [extract_of] in H.
    destruct (Era2051.extract tags) as [d|x]; [eauto|].
    destruct H as (_ & t & _ & Ht). discriminate. }
  split.
  - intros tags. destruct (H51 tags) as (d & E & _). eauto.
  - intros url mudda f db page Hl Hs.
    unfold scrape_case_details_2051_to_2061, scrape_checked, details_of.
    rewrite Hl, Hs. destruct (div_tag page) as [tags|].
    + destruct (H51 tags) as (d & -> & Hd). now apply finish_Ok.
    + apply finish_Ok; [apply text_columns_empty|reflexivity].
Qed.

Lemma scrape_2051_never_fails_witness :
  exists data,
    scrape_case_details_2051_to_2061 "https://nkp.gov.np/full_detail/1" None
      (fetch_of (Some [P "निवेदक"])) empty_db
    = (true, save_to_sqlite empty_db data 0)
    /\ link data = "https://nkp.gov.np/full_detail/1".
Proof.
  destruct scrape_2051_never_fails as [_ H].
  apply (H "https://nkp.gov.np/full_detail/1" None
           (fetch_of (Some [P "निवेदक"])) empty_db
           (page_of (Some [P "निवेदक"])));
    reflexivity.
Defined.

(** X8.  No procedure hands a list to a text column: whenever the field
    extraction of a procedure returns, the court, the order date and the
    subject of [details] are texts or missing, so the record can always be
    built and bound.  For the four procedures that look the link up first
    (their reads before the detail block are all bounds-checked) this
    settles the answer on a fetched page with a detail block and a new
    link: [True], with the record stored under the link, when the
    extraction returns, and [False], with the table untouched, when the
    extraction raises. *)
Theorem scraper_saves_what_extract_returns (e : Era) (tags : list Tag) :
  (forall d, extract_of e tags = Some (Ok d) ->
     text_columns d /\
     forall url mudda page path,
       exists data,
         combine_data (court_key_of e)
                      (match e with E2073 => false | _ => true end)
                      url mudda page path d = Ok data
         /\ link data = url) /\
  (e <> E2073 ->
   forall url mudda f db page,
     soup f = Some page -> div_tag page = Some tags ->
     link_exists db url = false ->
     exists r, extract_of e tags = Some r /\
       match r with
       | Ok d =>
           exists data,
             scraper_of url mudda f e db
             = Some (true, save_to_sqlite db data (now f))
             /\ link data = url
             /\ stored (save_to_sqlite db data (now f)) url = [data]
       | Raise _ => scraper_of url mudda f e db = Some (false, db)
       end).
Proof.
  pose proof (extract_of_good tags e) as Hg.
  split.
  - intros d Hr. rewrite Hr in Hg. cbn [good] in Hg.
    split; [exact Hg|]. intros url mudda page path.
    apply combine_data_Ok; [exact Hg|now destruct e].
  - intros He url mudda f db page Hs Hd Hl.
    destruct (extract_of_total e tags) as [r Hr]. exists r.
    split; [exact Hr|].
    rewrite (scraper_of_fetched e url mudda f db page tags r)
      by assumption.
    rewrite Hr in Hg.
    destruct r as [d|x]; [|reflexivity].
    cbn [good] in Hg.
    destruct (finish_Ok (court_key_of e) true
                url mudda f page db d Hg) as (data & -> & Hlink).
    { now destruct e. }
    exists data. split; [reflexivity|]. split; [exact Hlink|].
    rewrite <- Hlink. apply stored_after_save.
Qed.

Lemma scraper_saves_what_extract_returns_witness :
  exists r, extract_of E2062 single_case_tags = Some r /\
    match r with
    | Ok d =>
        exists data,
          scraper_of "https://nkp.gov.np/full_detail/1" None
            (fetch_of (Some single_case_tags)) E2062 empty_db
          = Some (true, save_to_sqlite empty_db data 0)
          /\ link data = "https://nkp.gov.np/full_detail/1"
          /\ stored (save_to_sqlite empty_db data 0)
               "https://nkp.gov.np/full_detail/1" = [data]
    | Raise _ =>
        scraper_of "https://nkp.gov.np/full_detail/1" None
          (fetch_of (Some single_case_tags)) E2062 empty_db
        = Some (false, empty_db)
    end.
Proof.
  destruct (scraper_saves_what_extract_returns E2062 single_case_tags)
    as [_ H].
  apply (H ltac:(discriminate) "https://nkp.gov.np/full_detail/1" None
           (fetch_of (Some single_case_tags)) empty_db
           (page_of (Some single_case_tags)));
    reflexivity.
Defined.

(** X9.  The only exception a field extraction can raise is the
    [IndexError] of a read past the end of the block, and it raises it
    only when the last tag of the block is a dangling label: a line that
    is exactly a petitioner or respondent keyword, or, in the 2015 and
    2062 procedures, a line holding a court keyword, or, in the 2062
    procedure, the line ["फैसला"]. *)
Theorem extract_raises_only_at_dangling_end (e : Era) (tags : list Tag)
    (x : exn) :
  extract_of e tags = Some (Raise x) ->
  x = IndexError /\ exists t, last tags = Some t /\ dangling e t = true.
Proof.
  intros H. pose proof (extract_of_good tags e) as Hg.
  rewrite H in Hg. exact Hg.
Qed.

Lemma extract_raises_only_at_dangling_end_witness :
  IndexError = IndexError /\
  exists t, last [P "संयुक्त इजलास"] = Some t /\ dangling E2015 t = true.
Proof.
  apply (extract_raises_only_at_dangling_end E2015 [P "संयुक्त इजलास"]).
  vm_compute. reflexivity.
Defined.

Lemma last_in_drop (tags : list Tag) (t : Tag) (i : nat) :
  last tags = Some t -> i < length tags -> In t (drop i tags).
Proof.
  intros Hl Hi. rewrite last_lookup in Hl.
  apply list_elem_of_In, list_elem_of_lookup.
  exists (pred (length tags) - i). rewrite lookup_drop.
  rewrite <- Hl. f_equal. lia.
Qed.

(** X10.  In the four procedures that end every phase with
    [if ind >= n: ind = temp_ind_32 else: temp_ind_32 = ind] (all but the
    2073 one) the segmentation never starts past the end of a non-empty
    block: after the field phases the cursor is at the checkpoint and
    before the last tag or on it, so the last tag is always read by the
    segmentation, and its text, when not empty, ends inside a citation
    entry, in the holding list, or inside the pending accumulator. *)
Theorem segmentation_reads_last_block (e : Era) (tags : list Tag)
    (t : Tag) (c : cursor) (d : gmap details_key value) :
  e <> E2073 ->
  last tags = Some t ->
  fields_of e tags = Some (Ok (c, d)) ->
  ind c = temp_ind_32 c /\ ind c < length tags /\
  In t (drop (ind c) tags) /\
  (truthy (get_text_sep t) = true ->
   kept (get_text_sep t) (segment (citation_markers e) tags (ind c))).
Proof.
  intros He Hl Hf.
  assert (Hc : cursor_ok (length tags) c).
  { destruct e; cbn [fields_of] in Hf; try congruence;
      injection Hf as Hf.
    - pose proof (fields_2015_good tags) as H. rewrite Hf in H. apply H.
    - pose proof (fields_2045_good tags) as H. rewrite Hf in H. apply H.
    - pose proof (fields_2051_good tags) as H. rewrite Hf in H. apply H.
    - pose proof (fields_2062_good tags) as H. rewrite Hf in H. apply H. }
  destruct Hc as [Hc1 Hc2]. unfold temp_ok in Hc2.
  assert (Hn : 0 < length tags).
  { destruct tags; [discriminate|simpl; lia]. }
  assert (Hlt : ind c < length tags) by lia.
  pose proof (last_in_drop tags t (ind c) Hl Hlt) as Hin.
  split; [exact Hc1|]. split; [exact Hlt|]. split; [exact Hin|].
  intros Ht. unfold segment. apply kept_fold_tag; [exact Ht|].
  right. unfold visited. apply in_flat_map. exists t.
  split; [exact Hin|now left].
Qed.

Lemma segmentation_reads_last_block_witness :
  let tags := [P "विषय : क"; P "ख"] in
  ind (mkCursor 0 0) = temp_ind_32 (mkCursor 0 0) /\
  ind (mkCursor 0 0) < length tags /\
  In (P "ख") (drop (ind (mkCursor 0 0)) tags) /\
  (truthy (get_text_sep (P "ख")) = true ->
   kept (get_text_sep (P "ख"))
        (segment (citation_markers E2051) tags (ind (mkCursor 0 0)))).
Proof.
  apply (segmentation_reads_last_block E2051 [P "विषय : क"; P "ख"] (P "ख")
           (mkCursor 0 0)
           (<[K_bisaya := VStr "विषय : क"]>
              (<[K_case_no := VStr "ख"]> (∅ : gmap details_key value))));
    [discriminate|reflexivity|vm_compute; reflexivity].
Defined.

(** ** The [cases] table under the procedures *)

Lemma in_map_filter {A B : Type} (g : A -> B) (p : A -> bool) (l : list A)
    (y : B) :
  In y (map g (List.filter p l)) -> In y (map g l).
Proof.
  rewrite !in_map_iff. intros (x & <- & Hx). apply filter_In in Hx.
  exists x. tauto.
Qed.

Lemma NoDup_map_filter {A B : Type} (g : A -> B) (p : A -> bool)
    (l : list A) :
  List.NoDup (map g l) -> List.NoDup (map g (List.filter p l)).
Proof.
  induction l as [|x l IH]; simpl; [auto|].
  intros H. inversion H as [|? ? Hx Hl]; subst.
  destruct (p x); simpl; [|auto].
  constructor; [|auto]. intros Hin. apply Hx.
  now apply in_map_filter in Hin.
Qed.

Lemma NoDup_snoc {B : Type} (l : list B) (y : B) :
  List.NoDup l -> ~ In y l -> List.NoDup (l ++ [y]).
Proof.
  intros Hl Hy. induction l as [|x l IH]; simpl.
  - constructor; [intros []|constructor].
  - inversion Hl as [|? ? Hx Hl']; subst. constructor.
    + rewrite in_app_iff. simpl. intros [H|[H|[]]]; [tauto|].
      apply Hy. now left.
    + apply IH; [assumption|]. intros H. apply Hy. now right.
Qed.

Lemma max_row_id_ge (rows : list Row) (r : Row) :
  In r rows -> (row_id r <= max_row_id rows)%Z.
Proof.
  induction rows as [|r' rows IH]; simpl; [intros []|].
  intros [->|H]; [lia|]. specialize (IH H). lia.
Qed.

Lemma max_row_id_bound (rows : list Row) (b : Z) :
  (0 <= b)%Z -> Forall (fun r => (0 < row_id r <= b)%Z) rows ->
  (max_row_id rows <= b)%Z.
Proof.
  intros Hb H. induction H as [|r rows Hr _ IH]; simpl; lia.
Qed.

Lemma link_not_kept (url : string) (rows : list Row) :
  ~ In url
      (map (fun r => link (row_data r))
           (List.filter (fun r => negb (String.eqb (link (row_data r)) url))
                        rows)).
Proof.
  rewrite in_map_iff. intros (r & Hr & Hin). apply filter_In in Hin.
  destruct Hin as [_ Hin]. rewrite <- Hr, String.eqb_refl in Hin.
  discriminate.
Qed.

Lemma save_to_sqlite_table_ok (db : DB) (data : Data) (t : Z) :
  table_ok db ->
  table_ok (save_to_sqlite db data t) /\
  seq (save_to_sqlite db data t) = (seq db + 1)%Z.
Proof.
  intros (Hl & Hi & Hs & Hb).
  pose proof (max_row_id_bound (cases db) (seq db) Hs Hb) as Hm.
  assert (Hid : (Z.max (seq db) (max_row_id (cases db)) + 1 = seq db + 1)%Z)
    by lia.
  unfold save_to_sqlite, table_ok. cbn [cases seq]. rewrite Hid.
  split; [|reflexivity].
  split; [|split; [|split]].
  - rewrite map_app. apply NoDup_snoc.
    + now apply NoDup_map_filter.
    + apply link_not_kept.
  - rewrite map_app. apply NoDup_snoc.
    + now apply NoDup_map_filter.
    + cbn [map row_id]. intros Hin. apply in_map_filter in Hin.
      apply in_map_iff in Hin as (r & Hr & Hin).
      rewrite List.Forall_forall in Hb. specialize (Hb r Hin). lia.
  - lia.
  - apply Forall_app. split.
    + rewrite List.Forall_forall in *. intros r Hr. apply filter_In in Hr.
      destruct Hr as [Hr _]. specialize (Hb r Hr). lia.
    + constructor; [cbn [row_id]; lia|constructor].
Qed.

Lemma combine_data_link (court_key : details_key) (defaulted : bool)
    (url : string) (mudda : option string) (page : Page) (path : string)
    (d : gmap details_key value) (data : Data) :
  combine_data court_key defaulted url mudda page path d = Ok data ->
  link data = url.
Proof.
  unfold combine_data. intros H.
  apply bind_Ok in H as (s1 & _ & H).
  apply bind_Ok in H as (s2 & _ & H).
  apply bind_Ok in H as (s3 & _ & H).
  injection H as <-. reflexivity.
Qed.

(** what [finish] can do to the table *)
Lemma finish_cases (court_key : details_key) (defaulted : bool)
    (url : string) (mudda : option string) (f : Fetch) (page : Page)
    (db : DB) (r : result (gmap details_key value)) :
  finish court_key defaulted url mudda f page db r = (false, db) \/
  exists data,
    finish court_key defaulted url mudda f page db r
    = (true, save_to_sqlite db data (now f))
    /\ link data = url.
Proof.
  unfold finish.
  destruct (r ≫= combine_data court_key defaulted url mudda page
                               (saved_path f)) as [data|x] eqn:E;
    [right|now left].
  exists data. split; [reflexivity|].
  apply bind_Ok in E as (d & _ & E). now apply combine_data_link in E.
Qed.

(** a call of a procedure leaves the table as it is, with either answer,
    or answers [True] after one [save_to_sqlite] of a record for the link *)
Lemma scraper_of_cases (e : Era) (url : string) (mudda : option string)
    (f : Fetch) (db : DB) (ok : bool) (db' : DB) :
  scraper_of url mudda f e db = Some (ok, db') ->
  (db' = db /\ (ok = true -> e <> E2073 /\ link_exists db url = true)) \/
  (ok = true /\ exists data,
      db' = save_to_sqlite db data (now f) /\ link data = url).
Proof.
  assert (Hfin : forall court_key defaulted page r,
             finish court_key defaulted url mudda f page db r = (ok, db') ->
             (db' = db /\ (ok = true ->
                           e <> E2073 /\ link_exists db url = true)) \/
             (ok = true /\ exists data,
                 db' = save_to_sqlite db data (now f) /\ link data = url)).
  { intros court_key defaulted page r H.
    destruct (finish_cases court_key defaulted url mudda f page db r)
      as [E|(data & E & Hl)]; rewrite E in H; injection H as <- <-.
    - left. split; [reflexivity|discriminate].
    - right. split; [reflexivity|]. eauto. }
  assert (Hchk : forall extract court_key,
             scrape_checked extract court_key url mudda f db = (ok, db') ->
             e <> E2073 ->
             (db' = db /\ (ok = true ->
                           e <> E2073 /\ link_exists db url = true)) \/
             (ok = true /\ exists data,
                 db' = save_to_sqlite db data (now f) /\ link data = url)).
  { intros extract court_key H He. unfold scrape_checked in H.
    destruct (link_exists db url) eqn:El.
    - injection H as <- <-. left. split; [reflexivity|]. now split.
    - destruct (soup f) as [page|]; [now apply Hfin in H|].
      injection H as <- <-. left. split; [reflexivity|discriminate]. }
  destruct e; cbn [scraper_of]; intros H.
  1-4: apply (inj Some) in H; now apply Hchk in H.
  unfold scrape_case_details_2073_to_2080_and_beyond in H.
  destruct (negb (status_200 f)).
  { injection H as <- <-. left. split; [reflexivity|discriminate]. }
  destruct (soup f) as [page|].
  2:{ injection H as <- <-. left. split; [reflexivity|discriminate]. }
  destruct (reads_2073 page) as [reads|x].
  2:{ injection H as <- <-. left. split; [reflexivity|discriminate]. }
  destruct (div_tag page) as [tags|].
  - destruct (Era2073.extract tags) as [r|]; [|discriminate].
    apply (inj Some) in H. now apply Hfin in H.
  - apply (inj Some) in H. now apply Hfin in H.
Qed.

Lemma link_exists_stored (db : DB) (url : string) :
  link_exists db url = true <-> stored db url <> [].
Proof.
  unfold link_exists, stored.
  induction (cases db) as [|r rows IH]; simpl; [split; [discriminate|tauto]|].
  destruct (String.eqb (link (row_data r)) url); simpl; [|exact IH].
  split; [discriminate|reflexivity].
Qed.

(** X11.  Whatever a procedure is called on, it keeps what the schema of
    the [cases] table promises: starting from a table with at most one row
    per link and distinct positive [id]s below the AUTOINCREMENT counter
    (as the empty table is), every call of [save_to_sqlite] and every call
    of a scraping procedure leaves such a table; a failed call ([False])
    leaves the table as it was, a successful one leaves the link stored,
    and no call changes what is stored under another link. *)
Theorem procedures_keep_table (e : Era) (url : string)
    (mudda : option string) (f : Fetch) (db : DB) (ok : bool) (db' : DB) :
  table_ok db ->
  scraper_of url mudda f e db = Some (ok, db') ->
  table_ok db' /\
  (ok = false -> db' = db) /\
  (ok = true -> link_exists db' url = true) /\
  (forall url', url' <> url -> stored db' url' = stored db url').
Proof.
  intros Hok H.
  apply scraper_of_cases in H as [[-> Hskip]|(-> & data & -> & Hl)].
  - split; [exact Hok|]. split; [reflexivity|]. split; [|reflexivity].
    intros Ht. now apply Hskip.
  - split; [now apply save_to_sqlite_table_ok|].
    split; [discriminate|]. split.
    + intros _. apply link_exists_stored. rewrite <- Hl.
      rewrite stored_after_save. discriminate.
    + intros url' Hne. apply stored_other_after_save. congruence.
Qed.

Lemma procedures_keep_table_witness :
  table_ok empty_db /\
  exists db',
    scraper_of "https://nkp.gov.np/full_detail/1" None
      (fetch_of (Some single_case_tags)) E2062 empty_db = Some (true, db') /\
    table_ok db' /\
    link_exists db' "https://nkp.gov.np/full_detail/1" = true.
Proof.
  assert (H0 : table_ok empty_db).
  { split; [constructor|]. split; [constructor|].
    split; [reflexivity|constructor]. }
  split; [exact H0|].
  assert (E : exists db',
             scraper_of "https://nkp.gov.np/full_detail/1" None
               (fetch_of (Some single_case_tags)) E2062 empty_db
             = Some (true, db'))
    by (vm_compute; eexists; reflexivity).
  destruct E as [db' E]. exists db'. split; [exact E|].
  destruct (procedures_keep_table E2062 "https://nkp.gov.np/full_detail/1"
              None (fetch_of (Some single_case_tags)) empty_db true db' H0 E)
    as (H1 & _ & H2 & _).
  split; [exact H1|now apply H2].
Defined.

(** X12.  A link that is stored is not scraped again by the four
    procedures that look the link up first: after a call that answered
    [True], any later call for the same link, whatever the server would
    answer, answers [True] and leaves the table as it is.  The 2073
    procedure does not look the link up: called again with the same
    answer of the server it stores the same record again, as a new row
    with the next [id]. *)
Theorem stored_link_is_skipped (url : string) (mudda : option string)
    (f : Fetch) (db db' : DB) :
  (forall e, e <> E2073 ->
     scraper_of url mudda f e db = Some (true, db') ->
     forall mudda' f',
       scraper_of url mudda' f' e db' = Some (true, db')) /\
  (scraper_of url mudda f E2073 db = Some (true, db') ->
   exists data,
     db' = save_to_sqlite db data (now f) /\
     scraper_of url mudda f E2073 db'
     = Some (true, save_to_sqlite db' data (now f)) /\
     seq (save_to_sqlite db' data (now f)) <> seq db').
Proof.
  split.
  - intros e He H mudda' f'.
    assert (Hl : link_exists db' url = true).
    { apply scraper_of_cases in H as [[-> Hskip]|(_ & data & -> & Hl)].
      - now apply Hskip.
      - apply link_exists_stored. rewrite <- Hl, stored_after_save.
        discriminate. }
    destruct e; try congruence; cbn [scraper_of];
      unfold scrape_case_details_2015_to_2044,
        scrape_case_details_2045_to_2050, scrape_case_details_2051_to_2061,
        scrape_case_details_2062_to_2072, scrape_checked;
      now rewrite Hl.
  - cbn [scraper_of]. unfold scrape_case_details_2073_to_2080_and_beyond.
    destruct (negb (status_200 f)); [discriminate|].
    destruct (soup f) as [page|]; [|discriminate].
    destruct (reads_2073 page) as [reads|x]; [|discriminate].
    assert (Hfin : forall r,
               finish K_adalat_ijlas false url mudda f page db r
               = (true, db') ->
               exists data,
                 db' = save_to_sqlite db data (now f) /\
                 finish K_adalat_ijlas false url mudda f page db' r
                 = (true, save_to_sqlite db' data (now f)) /\
                 seq (save_to_sqlite db' data (now f)) <> seq db').
    { intros r. unfold finish.
      destruct (r ≫= combine_data K_adalat_ijlas false url mudda page
                                   (saved_path f)) as [data|x];
        [|discriminate].
      intros [= <-]. exists data. split; [reflexivity|].
      split; [reflexivity|]. cbn [save_to_sqlite seq]. lia. }
    destruct (div_tag page) as [tags|].
    + destruct (Era2073.extract tags) as [r|]; [|discriminate].
      cbn [fmap option_fmap option_map]. intros H.
      apply (inj Some) in H.
      destruct (Hfin r H) as (data & H1 & H2 & H3).
      exists data. rewrite H2. auto.
    + intros H. apply (inj Some) in H.
      destruct (Hfin _ H) as (data & H1 & H2 & H3).
      exists data. rewrite H2. auto.
Qed.

Lemma stored_link_is_skipped_witness :
  exists db',
    scraper_of "https://nkp.gov.np/full_detail/1" None
      (fetch_of (Some single_case_tags)) E2062 empty_db = Some (true, db') /\
    scraper_of "https://nkp.gov.np/full_detail/1" None
      (fetch_of None) E2062 db' = Some (true, db').
Proof.
  assert (E : exists db',
             scraper_of "https://nkp.gov.np/full_detail/1" None
               (fetch_of (Some single_case_tags)) E2062 empty_db
             = Some (true, db'))
    by (vm_compute; eexists; reflexivity).
  destruct E as [db' E]. exists db'. split; [exact E|].
  destruct (stored_link_is_skipped "https://nkp.gov.np/full_detail/1" None
              (fetch_of (Some single_case_tags)) empty_db db') as [Hs _].
  apply (Hs E2062); [discriminate|exact E].
Defined.

(** ** The counts of [run_scraper] *)

Section RunScraperFacts.
Context {World : Type}.
Variable get_all_pages :
  string -> string -> string -> bool -> World -> list string * World.
Variable scrape_generic :
  string -> string -> string -> bool -> World -> bool * World.
Variable save_failed_links :
  list string -> string -> string -> string -> World -> World.



End RunScraperFacts.


(** ** Empty entries in the citation and holding lists *)

Section Entries.
Variable KEYWORDS_2 : list string.

Lemma drop1_snoc (l : list string) (x : string) :
  Forall (fun x => truthy x = true) (drop 1 l) ->
  (l <> [] -> truthy x = true) ->
  Forall (fun x => truthy x = true) (drop 1 (l ++ [x])).
Proof.
  destruct l as [|y l]; simpl; [constructor|].
  intros Hl Hx. rewrite drop_0 in *. apply Forall_app. split; [exact Hl|].
  constructor; [now apply Hx|constructor].
Qed.

Lemma entries_append_prakaran (x : string) (s : seg) :
  entries_ok s -> (prakarans s <> [] -> truthy x = true) ->
  entries_ok (append_prakaran x s).
Proof.
  intros [Ht Hp] Hx. split; [exact Ht|]. now apply drop1_snoc.
Qed.

Lemma entries_set_prev (p : string) (s : seg) :
  entries_ok s -> entries_ok (set_prev p s).
Proof. intros H. exact H. Qed.

Lemma entries_flush_and_append (text : string) (s : seg) :
  truthy text = true -> entries_ok s -> entries_ok (flush_and_append text s).
Proof.
  intros Ht H. unfold flush_and_append. apply entries_set_prev.
  apply entries_append_prakaran; [|auto].
  destruct (truthy (prev s)) eqn:E; [|exact H].
  apply entries_append_prakaran; auto.
Qed.

Lemma entries_tahar_step (text : string) (s : seg) :
  truthy text = true -> entries_ok s -> entries_ok (tahar_step text s).
Proof.
  intros Ht [H1 H2]. unfold tahar_step.
  destruct (is_tahar_token text || temp_flag_tahar s); [|now split].
  split; [|exact H2]. cbn [tahar]. apply Forall_app. split; [exact H1|].
  constructor; [exact Ht|constructor].
Qed.

Lemma entries_citation_step (text : string) (s : seg) :
  truthy text = true -> entries_ok s ->
  entries_ok (citation_step KEYWORDS_2 text s).
Proof.
  intros Ht H. unfold citation_step.
  set (sa := if any_startswith KEYWORDS_2 text
             then flush_and_append text s else s).
  assert (Ha : entries_ok sa).
  { unfold sa. destruct (any_startswith KEYWORDS_2 text); [|exact H].
    now apply entries_flush_and_append. }
  set (sb := if contains "§" text then append_prakaran text sa else sa).
  assert (Hb : entries_ok sb).
  { unfold sb. destruct (contains "§" text); [|exact Ha].
    apply entries_append_prakaran; auto. }
  destruct (is_tahar_token text); [|exact Hb].
  destruct (prakarans sb) eqn:E; [|exact Hb].
  apply entries_append_prakaran; [exact Hb|]. intros Hne. congruence.
Qed.

Lemma entries_seg_text (text : string) (s : seg) :
  entries_ok s -> entries_ok (seg_text KEYWORDS_2 text s).
Proof.
  intros H. unfold seg_text. destruct (truthy text) eqn:Ht; [|exact H].
  apply entries_tahar_step; [exact Ht|].
  destruct (contains "§" text || any_startswith KEYWORDS_2 text
            || is_tahar_token text).
  - now apply entries_citation_step.
  - now apply entries_set_prev.
Qed.

Lemma entries_seg_li (li_text : string) (s : seg) :
  entries_ok s -> entries_ok (seg_li KEYWORDS_2 li_text s).
Proof.
  intros H. unfold seg_li. destruct (truthy li_text) eqn:Ht; [|exact H].
  cbv zeta. apply entries_tahar_step; [exact Ht|].
  destruct (any_startswith KEYWORDS_2 li_text).
  - now apply entries_flush_and_append.
  - now apply entries_set_prev.
Qed.

Lemma entries_seg_tag (s : seg) (tag : Tag) :
  entries_ok s -> entries_ok (seg_tag KEYWORDS_2 s tag).
Proof.
  intros H. unfold seg_tag.
  assert (H1 := entries_seg_text (get_text_sep tag) s H).
  revert H1. generalize (seg_text KEYWORDS_2 (get_text_sep tag) s).
  induction (list_items tag) as [|x l IH]; intros s1 H1; simpl; [exact H1|].
  apply IH. now apply entries_seg_li.
Qed.

Lemma entries_fold (tags : list Tag) (s : seg) :
  entries_ok s -> entries_ok (fold_left (seg_tag KEYWORDS_2) tags s).
Proof.
  revert s. induction tags as [|tag tags IH]; intros s H; simpl; [exact H|].
  apply IH. now apply entries_seg_tag.
Qed.

Lemma grows_refl (s : seg) : grows s s.
Proof. exists []. now rewrite app_nil_r. Qed.

Lemma grows_trans (s1 s2 s3 : seg) : grows s1 s2 -> grows s2 s3 -> grows s1 s3.
Proof.
  intros [m1 H1] [m2 H2]. exists (m1 ++ m2). now rewrite H2, H1, app_assoc.
Qed.

Lemma grows_append_prakaran (x : string) (s : seg) :
  grows s (append_prakaran x s).
Proof. now exists [x]. Qed.

Lemma grows_set_prev (p : string) (s : seg) : grows s (set_prev p s).
Proof. exists []. cbn [prakarans set_prev]. now rewrite app_nil_r. Qed.

Lemma grows_flush_and_append (text : string) (s : seg) :
  grows s (flush_and_append text s).
Proof.
  unfold flush_and_append. destruct (truthy (prev s)).
  - exists [prev s; text]. cbn [prakarans set_prev append_prakaran].
    now rewrite <- app_assoc.
  - now exists [text].
Qed.

Lemma grows_tahar_step (text : string) (s : seg) : grows s (tahar_step text s).
Proof.
  unfold tahar_step.
  destruct (is_tahar_token text || temp_flag_tahar s);
    exists []; now rewrite app_nil_r.
Qed.

Lemma grows_citation_step (text : string) (s : seg) :
  grows s (citation_step KEYWORDS_2 text s).
Proof.
  unfold citation_step.
  set (sa := if any_startswith KEYWORDS_2 text
             then flush_and_append text s else s).
  assert (Ha : grows s sa).
  { unfold sa. destruct (any_startswith KEYWORDS_2 text);
      [apply grows_flush_and_append|apply grows_refl]. }
  set (sb := if contains "§" text then append_prakaran text sa else sa).
  assert (Hb : grows s sb).
  { unfold sb. destruct (contains "§" text); [|exact Ha].
    eapply grows_trans; [exact Ha|apply grows_append_prakaran]. }
  destruct (is_tahar_token text); [|exact Hb].
  destruct (prakarans sb); [|exact Hb].
  eapply grows_trans; [exact Hb|apply grows_append_prakaran].
Qed.

Lemma grows_seg_text (text : string) (s : seg) :
  grows s (seg_text KEYWORDS_2 text s).
Proof.
  unfold seg_text. destruct (truthy text); [|apply grows_refl].
  eapply grows_trans; [|apply grows_tahar_step].
  destruct (contains "§" text || any_startswith KEYWORDS_2 text
            || is_tahar_token text).
  - apply grows_citation_step.
  - apply grows_set_prev.
Qed.

Lemma grows_seg_li (li_text : string) (s : seg) :
  grows s (seg_li KEYWORDS_2 li_text s).
Proof.
  unfold seg_li. destruct (truthy li_text); [|apply grows_refl].
  cbv zeta. eapply grows_trans; [|apply grows_tahar_step].
  destruct (any_startswith KEYWORDS_2 li_text).
  - apply grows_flush_and_append.
  - apply grows_set_prev.
Qed.

Lemma grows_fold_li (lis : list string) (s : seg) :
  grows s (fold_left (fun s li_text => seg_li KEYWORDS_2 li_text s) lis s).
Proof.
  revert s. induction lis as [|x l IH]; intros s; simpl; [apply grows_refl|].
  eapply grows_trans; [apply grows_seg_li|apply IH].
Qed.

Lemma grows_seg_tag (s : seg) (tag : Tag) :
  grows s (seg_tag KEYWORDS_2 s tag).
Proof.
  unfold seg_tag.
  eapply grows_trans; [apply grows_seg_text|apply grows_fold_li].
Qed.

Lemma grows_fold (tags : list Tag) (s : seg) :
  grows s (fold_left (seg_tag KEYWORDS_2) tags s).
Proof.
  revert s. induction tags as [|tag tags IH]; intros s; simpl;
    [apply grows_refl|].
  eapply grows_trans; [apply grows_seg_tag|apply IH].
Qed.

(** a holding token read first, with a marker list it does not start
    with, puts the empty accumulator into the citations *)
Lemma token_first (text : string) :
  is_tahar_token text = true -> any_startswith KEYWORDS_2 text = false ->
  prakarans (seg_text KEYWORDS_2 text seg_init) = [EmptyString].
Proof.
  intros Ht Hk.
  assert (Hnon : truthy text = true) by now apply tahar_token_truthy.
  assert (Hs : contains "§" text = false).
  { unfold is_tahar_token in Ht.
    apply orb_true_iff in Ht as [Ht|Ht];
      [apply orb_true_iff in Ht as [Ht|Ht]|];
      apply String.eqb_eq in Ht; subst text; reflexivity. }
  unfold seg_text. rewrite Hnon, Hs, Hk, Ht. cbn [orb].
  unfold citation_step. rewrite Hk, Hs, Ht. cbn [prakarans seg_init].
  unfold tahar_step. rewrite Ht. reflexivity.
Qed.
End Entries.

(** X14.  The holding list never holds an empty text, and the citation
    list holds one at most as its first entry: every entry after the
    first is a non-empty text.  The first entry is empty when the
    segmentation starts on a holding token (a token that is not itself a
    citation marker): nothing is pending and no citation exists yet, and
    the pending accumulator, empty, is put into the citations. *)
Theorem citation_entries_nonempty (KEYWORDS_2 : list string)
    (tags : list Tag) (ind : nat) :
  let s := segment KEYWORDS_2 tags ind in
  Forall (fun x => truthy x = true) (tahar s) /\
  Forall (fun x => truthy x = true) (drop 1 (prakarans s)) /\
  (forall tag rest,
     drop ind tags = tag :: rest ->
     is_tahar_token (get_text_sep tag) = true ->
     any_startswith KEYWORDS_2 (get_text_sep tag) = false ->
     exists more, prakarans s = EmptyString :: more).
Proof.
  cbv zeta. unfold segment.
  assert (H0 : entries_ok seg_init) by (split; constructor).
  pose proof (entries_fold KEYWORDS_2 (drop ind tags) seg_init H0) as [H1 H2].
  split; [exact H1|]. split; [exact H2|].
  intros tag rest E Ht Hk. rewrite E. cbn [fold_left].
  pose proof (token_first KEYWORDS_2 (get_text_sep tag) Ht Hk) as Hf.
  destruct (grows_fold_li KEYWORDS_2 (list_items tag)
              (seg_text KEYWORDS_2 (get_text_sep tag) seg_init)) as [m1 Hm1].
  destruct (grows_fold KEYWORDS_2 rest (seg_tag KEYWORDS_2 seg_init tag))
    as [m2 Hm2].
  exists (m1 ++ m2). rewrite Hm2. unfold seg_tag. rewrite Hm1, Hf.
  now rewrite <- app_assoc.
Qed.

Lemma citation_entries_nonempty_witness :
  exists more,
    prakarans (segment KW2015.KEYWORDS_2 [P "क"; P "फैसला"; P "ख"] 1)
    = EmptyString :: more.
Proof.
  destruct (citation_entries_nonempty KW2015.KEYWORDS_2
              [P "क"; P "फैसला"; P "ख"] 1) as (_ & _ & H).
  apply (H (P "फैसला") [P "ख"]); reflexivity.
Defined.

(** ** Where the field values come from *)

Lemma returns_bind {A B : Type} (Q1 : A -> Prop) (Q2 : B -> Prop)
    (r : result A) (f : A -> result B) :
  returns Q1 r -> (forall a, Q1 a -> returns Q2 (f a)) ->
  returns Q2 (r ≫= f).
Proof. destruct r as [a|e]; simpl; auto. Qed.

Lemma returns_fmap {A B : Type} (Q1 : A -> Prop) (Q2 : B -> Prop)
    (r : result A) (f : A -> B) :
  returns Q1 r -> (forall a, Q1 a -> Q2 (f a)) -> returns Q2 (f <$> r).
Proof. destruct r as [a|e]; simpl; auto. Qed.

Section FromBlock.
Variable e : Era.
Variable tags : list Tag.

Lemma lookup_In (k : nat) (t : Tag) : tags !! k = Some t -> In t tags.
Proof.
  intros H. apply list_elem_of_In, list_elem_of_lookup. eauto.
Qed.

Lemma tag_text_lookup (i : nat) (t : Tag) :
  tags !! i = Some t -> tag_text e tags (text_of e t).
Proof. intros H. exists t. split; [now apply (lookup_In i)|reflexivity]. Qed.

Lemma from_block_tag (k : details_key) (s : string) :
  k <> K_thahar -> tag_text e tags s -> from_block e tags k s.
Proof. intros Hk H. destruct k; try contradiction; now left. Qed.

Lemma from_block_empty (k : details_key) :
  empty_allowed e k = true -> from_block e tags k EmptyString.
Proof.
  intros H. destruct k; try (right; left; now split).
  now destruct e.
Qed.

Lemma from_block_join (k : details_key) (i : nat) (t t2 : Tag) :
  joined_allowed e k = true ->
  tags !! i = Some t -> tags !! (i + 1) = Some t2 ->
  from_block e tags k (get_text_sep t +:+ " " +:+ get_text_sep t2).
Proof.
  intros H Ht Ht2.
  destruct k; try (right; right; split; [exact H|]; eauto 6).
  now destruct e.
Qed.

(** under a key with no exception, a stored text is the text of a tag *)
Lemma from_block_plain (k : details_key) (s : string) :
  k <> K_thahar -> empty_allowed e k = false -> joined_allowed e k = false ->
  from_block e tags k s -> tag_text e tags s.
Proof.
  intros Hk He Hj H.
  destruct k; try contradiction;
    (destruct H as [H|[[H _]|[H _]]]; [exact H|congruence|congruence]).
Qed.

Lemma Forall_from_block_tag (k : details_key) (l : list string) :
  k <> K_thahar -> Forall (tag_text e tags) l ->
  Forall (from_block e tags k) l.
Proof.
  intros Hk H. eapply Forall_impl; [exact H|].
  intros s Hs. now apply from_block_tag.
Qed.

Lemma fields_from_block_empty : fields_from_block e tags ∅.
Proof. intros k v _ H. now rewrite lookup_empty in H. Qed.

Lemma fields_from_block_insert (k : details_key) (v : value)
    (d : gmap details_key value) :
  value_from_block e tags k v -> fields_from_block e tags d ->
  fields_from_block e tags (<[k := v]> d).
Proof.
  intros Hv Hd k' v' Hk' H. destruct (decide (k = k')) as [->|Hne].
  - rewrite lookup_insert_eq in H. now injection H as <-.
  - rewrite lookup_insert_ne in H by assumption. now apply (Hd k').
Qed.

Lemma fields_from_block_prakaran (l : list string)
    (d : gmap details_key value) :
  fields_from_block e tags d ->
  fields_from_block e tags (<[K_prakaran := VList l]> d).
Proof.
  intros Hd k' v' Hk' H.
  rewrite lookup_insert_ne in H by congruence. now apply (Hd k').
Qed.

(** a loop whose passes keep [Inv] returns a state satisfying it *)
Lemma while_ind_returns {St : Type} (body : nat -> Tag -> St -> outcome St)
    (Inv : St -> Prop) (ind : nat) (s : St) :
  (forall k t s0, tags !! k = Some t -> Inv s0 ->
     match body k t s0 with
     | Next s1 => Inv s1
     | Break _ s1 => Inv s1
     | Throw _ => True
     end) ->
  Inv s ->
  returns (fun r => Inv (snd r)) (while_ind tags body ind s).
Proof.
  intros Hbody. unfold while_ind.
  assert (Hrest : forall j, drop ind tags !! j = tags !! (ind + j))
    by (intros j; apply lookup_drop).
  revert Hrest. generalize (drop ind tags) as rest. intros rest.
  revert ind s. induction rest as [|t rest IH]; intros ind s Hrest Hs; simpl.
  - exact Hs.
  - pose proof (Hrest 0) as H0. simpl in H0. rewrite Nat.add_0_r in H0.
    specialize (Hbody ind t s (eq_sym H0) Hs).
    destruct (body ind t s) as [s1|k s1|x]; [|exact Hbody|exact I].
    apply IH; [|exact Hbody].
    intros j. specialize (Hrest (S j)). simpl in Hrest.
    rewrite Hrest. f_equal. lia.
Qed.
End FromBlock.

Ltac block_step :=
  match goal with
  | |- True => exact I
  | |- _ /\ _ => split
  | |- fields_from_block _ _ (<[_ := _]> _) => apply fields_from_block_insert
  | |- value_from_block _ _ _ _ => cbn [value_from_block]
  | |- from_block _ _ _ EmptyString => apply from_block_empty; reflexivity
  | |- from_block _ _ _ (_ +:+ " " +:+ _) =>
      eapply from_block_join; [reflexivity|eassumption|eassumption]
  | |- from_block _ _ _ _ => apply from_block_tag; [discriminate|]
  | |- Forall (from_block _ _ _) _ =>
      apply Forall_from_block_tag; [discriminate|]
  | |- Forall _ (_ ++ [_]) =>
      apply Forall_app; split; [|constructor; [|constructor]]
  | |- Forall _ [] => constructor
  | |- ?x = ?x \/ _ => left; reflexivity
  | |- _ = EmptyString \/ tag_text _ _ _ => right
  | |- tag_text ?e _ (get_text_sep ?t) =>
      change (get_text_sep t) with (text_of e t);
      eapply tag_text_lookup; eassumption
  | |- tag_text ?e _ (get_text_strip ?t) =>
      change (get_text_strip t) with (text_of e t);
      eapply tag_text_lookup; eassumption
  | |- _ => assumption
  end.

Ltac block_ok :=
  repeat case_match; simplify_eq; cbn [fst snd] in *; destruct_and?;
  destruct_or?; simplify_eq; repeat block_step.

Section FromBlockPhases.
Variable tags : list Tag.

Lemma returns_checkpointed (e : Era) (n : nat)
    (r : result (cursor * gmap details_key value)) :
  returns (from_fields e tags) r ->
  returns (from_fields e tags) (checkpointed n <$> r).
Proof.
  intros H. eapply returns_fmap; [exact H|]. intros [c d] Hd. exact Hd.
Qed.

Lemma party_scan_from_block (e : Era) (get : Tag -> string)
    (KEYWORDS : list string) (guarded : bool) (i : nat) :
  (forall t, get t = text_of e t) ->
  returns (fun r => forall s, snd r = Some s -> tag_text e tags s)
          (party_scan get KEYWORDS guarded tags i).
Proof.
  intros Hget. unfold party_scan.
  apply (while_ind_returns tags _
           (fun found => forall s, found = Some s -> tag_text e tags s));
    [|discriminate].
  intros k t found Ht H0. unfold party_body.
  repeat case_match; simplify_eq; try exact I; try assumption;
    intros s [= <-]; rewrite Hget; eapply tag_text_lookup; eassumption.
Qed.

Lemma party_phase_from_block (e : Era) (get : Tag -> string)
    (KEYWORDS : list string) (guarded : bool) (key : details_key)
    (st : cursor * gmap details_key value) :
  (forall t, get t = text_of e t) -> key <> K_thahar ->
  fields_from_block e tags (snd st) ->
  returns (from_fields e tags) (party_phase get KEYWORDS guarded key tags st).
Proof.
  destruct st as [c d]. intros Hget Hkey Hd. unfold party_phase.
  eapply returns_bind; [now apply (party_scan_from_block e)|].
  intros [i found] H. cbn [snd] in *. destruct found as [s|]; [|exact Hd].
  apply fields_from_block_insert; [|exact Hd].
  apply from_block_tag; [exact Hkey|]. now apply H.
Qed.

(** *** 2015 to 2044 *)

Lemma court_phase_2015_from st :
  fields_from_block E2015 tags (snd st) ->
  returns (from_fields E2015 tags) (Era2015.court_phase tags st).
Proof.
  destruct st as [c d]. intros Hd. unfold Era2015.court_phase.
  eapply returns_bind;
    [apply (while_ind_returns tags _
              (fun s => fields_from_block E2015 tags (fst s)
                        /\ (snd s = EmptyString
                            \/ tag_text E2015 tags (snd s))));
     [|split; [exact Hd|now left]]|].
  - intros k t [d0 tmp] Ht H0. unfold Era2015.court_body. block_ok.
  - intros [i [d' tmp]] [H _]. exact H.
Qed.

Lemma judges_phase_2015_from st :
  fields_from_block E2015 tags (snd st) ->
  returns (from_fields E2015 tags) (Era2015.judges_phase tags st).
Proof.
  destruct st as [c d]. intros Hd. unfold Era2015.judges_phase.
  eapply returns_bind;
    [apply (while_ind_returns tags _
              (fun s => fields_from_block E2015 tags (fst s)
                        /\ Forall (tag_text E2015 tags) (snd s)));
     [|split; [exact Hd|constructor]]|].
  - intros k t [d0 js] Ht H0. unfold Era2015.judges_body. block_ok.
  - intros [i [d' js]] [H _]. exact H.
Qed.

Lemma run_body_2015_from body st :
  (forall temp k t d0, tags !! k = Some t ->
     fields_from_block E2015 tags d0 ->
     match body temp k t d0 with
     | Next d1 => fields_from_block E2015 tags d1
     | Break _ d1 => fields_from_block E2015 tags d1
     | Throw _ => True
     end) ->
  fields_from_block E2015 tags (snd st) ->
  returns (from_fields E2015 tags) (Era2015.run_body tags body st).
Proof.
  destruct st as [c d]. intros Hbody Hd. unfold Era2015.run_body.
  eapply returns_bind;
    [apply (while_ind_returns tags _ (fields_from_block E2015 tags));
     [|exact Hd]|].
  - intros k t d0 Ht H0. now apply Hbody.
  - intros [i d'] H. exact H.
Qed.

Lemma fields_2015_from :
  returns (from_fields E2015 tags) (Era2015.fields tags).
Proof.
  assert (Hsub : forall stop temp k t d0,
             tags !! k = Some t -> fields_from_block E2015 tags d0 ->
             match Era2015.subject_body stop temp k t d0 with
             | Next d1 => fields_from_block E2015 tags d1
             | Break _ d1 => fields_from_block E2015 tags d1
             | Throw _ => True
             end).
  { intros stop temp k t d0 Ht H0. unfold Era2015.subject_body. block_ok. }
  assert (Hord : forall stop temp k t d0,
             tags !! k = Some t -> fields_from_block E2015 tags d0 ->
             match Era2015.order_date_body stop temp k t d0 with
             | Next d1 => fields_from_block E2015 tags d1
             | Break _ d1 => fields_from_block E2015 tags d1
             | Throw _ => True
             end).
  { intros stop temp k t d0 Ht H0. unfold Era2015.order_date_body.
    block_ok. }
  unfold Era2015.fields.
  eapply returns_bind.
  { apply returns_checkpointed, court_phase_2015_from.
    apply fields_from_block_empty. }
  intros st1 H1.
  eapply returns_bind.
  { now apply returns_checkpointed, judges_phase_2015_from. }
  intros st2 H2. cbv zeta.
  eapply returns_bind.
  { apply returns_checkpointed. unfold Era2015.before_parties_phase.
    destruct (Era2015.bisaya_before_niweduck tags (ind (fst st2)));
      apply run_body_2015_from; try assumption;
      intros; first [now apply Hsub|now apply Hord]. }
  intros st3 H3.
  eapply returns_bind.
  { apply returns_checkpointed, (party_phase_from_block E2015);
      [reflexivity|discriminate|exact H3]. }
  intros st4 H4.
  eapply returns_bind.
  { apply returns_checkpointed, (party_phase_from_block E2015);
      [reflexivity|discriminate|exact H4]. }
  intros st5 H5.
  apply returns_checkpointed. unfold Era2015.after_parties_phase.
  destruct (negb (Era2015.bisaya_before_niweduck tags (ind (fst st2))));
    apply run_body_2015_from; try assumption;
    intros; first [now apply Hsub|now apply Hord].
Qed.
(** *** 2045 to 2050 and 2051 to 2061 *)

Lemma court_phase_2045_from st :
  fields_from_block E2045 tags (snd st) ->
  returns (from_fields E2045 tags) (Era2045.court_phase tags st).
Proof.
  destruct st as [c d]. intros Hd. unfold Era2045.court_phase.
  eapply returns_bind;
    [apply (while_ind_returns tags _
              (fun s => fields_from_block E2045 tags (fst s)
                        /\ (snd s = EmptyString
                            \/ tag_text E2045 tags (snd s))));
     [|split; [exact Hd|now left]]|].
  - intros k t [d0 tmp] Ht H0. unfold Era2045.court_body. block_ok.
  - intros [i [d' tmp]] [H _]. exact H.
Qed.

(** the judges loop of the 2045 procedure, which the 2051 procedure
    shares; neither stores an empty string or a join under its keys *)
Lemma judges_loop_2045_from (e : Era) is_date i d :
  (forall t, get_text_sep t = text_of e t) ->
  fields_from_block e tags d ->
  returns (fun r => fields_from_block e tags (fst (snd r)))
          (while_ind tags (Era2045.judges_body is_date) i (d, [])).
Proof.
  intros He Hd.
  pose proof (while_ind_returns tags (Era2045.judges_body is_date)
                (fun s => fields_from_block e tags (fst s)
                          /\ Forall (tag_text e tags) (snd s)) i (d, []))
    as H.
  destruct (while_ind tags (Era2045.judges_body is_date) i (d, []))
    as [[j [d' js]]|x]; [|exact I].
  apply H; [|split; [exact Hd|constructor]].
  intros k t [d0 js0] Ht H0. unfold Era2045.judges_body.
  assert (Htext : tag_text e tags (get_text_sep t))
    by (rewrite He; now apply (tag_text_lookup e tags k)).
  block_ok.
Qed.

Lemma judges_phase_2045_from st :
  fields_from_block E2045 tags (snd st) ->
  returns (from_fields E2045 tags) (Era2045.judges_phase tags st).
Proof.
  destruct st as [c d]. intros Hd. unfold Era2045.judges_phase.
  eapply returns_bind;
    [now apply (judges_loop_2045_from E2045)|].
  intros [i [d' js]] H. exact H.
Qed.

Lemma lookahead_phase_2045_from st :
  fields_from_block E2045 tags (snd st) ->
  returns (fun r => from_fields E2045 tags (fst r))
          (Era2045.lookahead_phase tags st).
Proof.
  destruct st as [c d]. intros Hd. unfold Era2045.lookahead_phase.
  eapply returns_bind;
    [apply (while_ind_returns tags _ (fun _ => True)); [|exact I]|].
  - intros k t b Ht _. unfold Era2045.lookahead_body.
    repeat case_match; exact I.
  - intros [i b] _. unfold from_fields. cbn [returns mret result_ret fst snd].
    repeat block_step.
Qed.

Lemma subject_phase_2045_from st :
  fields_from_block E2045 tags (snd st) ->
  returns (from_fields E2045 tags) (Era2045.subject_phase tags st).
Proof.
  destruct st as [c d]. intros Hd. unfold Era2045.subject_phase.
  eapply returns_bind;
    [apply (while_ind_returns tags _ (fields_from_block E2045 tags));
     [|exact Hd]|].
  - intros k t d0 Ht H0. unfold Era2045.subject_body. block_ok.
  - intros [i d'] H. exact H.
Qed.

Lemma fields_2045_from :
  returns (from_fields E2045 tags) (Era2045.fields tags).
Proof.
  unfold Era2045.fields.
  eapply returns_bind.
  { apply returns_checkpointed, court_phase_2045_from.
    apply fields_from_block_empty. }
  intros st1 H1.
  eapply returns_bind.
  { now apply returns_checkpointed, judges_phase_2045_from. }
  intros st2 H2.
  eapply returns_bind; [now apply lookahead_phase_2045_from|].
  intros [[c3 d3] bisaya] H3. cbv zeta.
  eapply returns_bind with (Q1 := from_fields E2045 tags).
  { destruct bisaya; [|exact H3].
    now apply returns_checkpointed, subject_phase_2045_from. }
  intros st4 H4.
  eapply returns_bind.
  { apply returns_checkpointed, (party_phase_from_block E2045);
      [reflexivity|discriminate|exact H4]. }
  intros st5 H5.
  eapply returns_bind.
  { apply returns_checkpointed, (party_phase_from_block E2045);
      [reflexivity|discriminate|exact H5]. }
  intros st6 H6.
  destruct (negb bisaya); [|exact H6].
  now apply returns_checkpointed, subject_phase_2045_from.
Qed.

Lemma run_body_2051_from body st :
  (forall k t d0, tags !! k = Some t -> fields_from_block E2051 tags d0 ->
     match body k t d0 with
     | Next d1 => fields_from_block E2051 tags d1
     | Break _ d1 => fields_from_block E2051 tags d1
     | Throw _ => True
     end) ->
  fields_from_block E2051 tags (snd st) ->
  returns (from_fields E2051 tags) (Era2051.run_body tags body st).
Proof.
  destruct st as [c d]. intros Hbody Hd. unfold Era2051.run_body.
  eapply returns_bind;
    [apply (while_ind_returns tags _ (fields_from_block E2051 tags));
     [|exact Hd]|].
  - intros k t d0 Ht H0. now apply Hbody.
  - intros [i d'] H. exact H.
Qed.

Lemma fields_2051_from :
  returns (from_fields E2051 tags) (Era2051.fields tags).
Proof.
  unfold Era2051.fields.
  eapply returns_bind.
  { apply returns_checkpointed, run_body_2051_from;
      [|apply fields_from_block_empty].
    intros k t d0 Ht H0. unfold Era2051.court_body. block_ok. }
  intros st1 H1.
  eapply returns_bind.
  { apply returns_checkpointed. destruct st1 as [c1 d1].
    unfold Era2051.judges_phase.
    eapply returns_bind;
      [now apply (judges_loop_2045_from E2051)|].
    intros [i [d' js]] H. exact H. }
  intros st2 H2.
  eapply returns_bind.
  { apply run_body_2051_from; [|exact H2].
    intros k t d0 Ht H0. unfold Era2051.subject_body. block_ok. }
  intros [c3 d3] H3. cbv zeta.
  eapply returns_bind.
  { apply returns_checkpointed, (party_phase_from_block E2051);
      [reflexivity|discriminate|exact H3]. }
  intros st4 H4.
  apply returns_checkpointed, (party_phase_from_block E2051);
    [reflexivity|discriminate|exact H4].
Qed.

(** *** 2062 to 2072 *)

Lemma court_phase_2062_from st :
  fields_from_block E2062 tags (snd st) ->
  returns (from_fields E2062 tags) (Era2062.court_phase tags st).
Proof.
  destruct st as [c d]. intros Hd. unfold Era2062.court_phase.
  eapply returns_bind;
    [apply (while_ind_returns tags _
              (fun s => fields_from_block E2062 tags (fst s)
                        /\ (snd s = EmptyString
                            \/ tag_text E2062 tags (snd s))));
     [|split; [exact Hd|now left]]|].
  - intros k t [d0 tmp] Ht H0. unfold Era2062.court_body. block_ok.
  - intros [i [d' tmp]] [H _]. exact H.
Qed.

Lemma judges_phase_2062_from st :
  fields_from_block E2062 tags (snd st) ->
  returns (fun r => from_fields E2062 tags (fst r))
          (Era2062.judges_phase tags st).
Proof.
  destruct st as [c d]. intros Hd. unfold Era2062.judges_phase.
  eapply returns_bind;
    [apply (while_ind_returns tags _
              (fun s => fields_from_block E2062 tags (fst (fst s))
                        /\ Forall (tag_text E2062 tags) (snd (fst s))));
     [|split; [exact Hd|constructor]]|].
  - intros k t [[d0 js] fl] Ht H0. unfold Era2062.judges_body. block_ok.
  - intros [i [[d' js] fl]] [H _]. exact H.
Qed.

Lemma date_or_case_phase_2062_from faisla st :
  fields_from_block E2062 tags (snd st) ->
  returns (fun r => from_fields E2062 tags (fst r))
          (Era2062.date_or_case_phase tags faisla st).
Proof.
  destruct st as [c d]. intros Hd. unfold Era2062.date_or_case_phase.
  eapply returns_bind;
    [apply (while_ind_returns tags _
              (fun s => fields_from_block E2062 tags (fst s)));
     [|exact Hd]|].
  - intros k t [d0 sb] Ht H0.
    destruct faisla;
      unfold Era2062.after_date_body, Era2062.order_date_body; block_ok.
  - intros [i [d' sb]] H. exact H.
Qed.

Lemma case_or_subject_phase_2062_from sb st :
  fields_from_block E2062 tags (snd st) ->
  returns (from_fields E2062 tags)
          (Era2062.case_or_subject_phase tags sb st).
Proof.
  destruct st as [c d]. intros Hd. unfold Era2062.case_or_subject_phase.
  eapply returns_bind;
    [apply (while_ind_returns tags _ (fields_from_block E2062 tags));
     [|exact Hd]|].
  - intros k t d0 Ht H0.
    destruct sb; unfold Era2062.case_no_body, Era2062.subject_body;
      block_ok.
  - intros [i d'] H. exact H.
Qed.

Lemma before_parties_2062_from :
  returns (from_fields E2062 tags) (Era2062.before_parties tags).
Proof.
  unfold Era2062.before_parties.
  eapply returns_bind.
  { apply returns_checkpointed, court_phase_2062_from.
    apply fields_from_block_empty. }
  intros st1 H1.
  eapply returns_bind; [now apply judges_phase_2062_from|].
  intros [[c2 d2] faisla] H2. cbv zeta.
  eapply returns_bind; [now apply date_or_case_phase_2062_from|].
  intros [[c3 d3] sb] H3. cbv zeta.
  now apply returns_checkpointed, case_or_subject_phase_2062_from.
Qed.

Lemma push_from_block (e : Era) (l : list string) (found : option string) :
  Forall (tag_text e tags) l ->
  (forall s, found = Some s -> tag_text e tags s) ->
  Forall (tag_text e tags)
         (match found with Some text => l ++ [text] | None => l end).
Proof.
  intros Hl Hf. destruct found as [s|]; [|exact Hl].
  apply Forall_app. split; [exact Hl|].
  constructor; [now apply Hf|constructor].
Qed.

Lemma pairs_2062_from (count : nat) (c : cursor)
    (appellant opposition : list string) :
  Forall (tag_text E2062 tags) appellant ->
  Forall (tag_text E2062 tags) opposition ->
  returns (fun r => Forall (tag_text E2062 tags) (snd (fst r))
                    /\ Forall (tag_text E2062 tags) (snd r))
          (Era2062.pairs tags count c appellant opposition).
Proof.
  revert c appellant opposition.
  induction count as [|count IH]; intros c appellant opposition Ha Ho.
  - now split.
  - cbn [Era2062.pairs].
    eapply returns_bind;
      [apply (party_scan_from_block E2062); reflexivity|].
    intros [i found] Hf. cbv zeta.
    eapply returns_bind;
      [apply (party_scan_from_block E2062); reflexivity|].
    intros [j found2] Hf2. cbv zeta.
    apply IH; now apply push_from_block.
Qed.

Lemma collect_case_no_from :
  Forall (tag_text E2062 tags) (Era2062.collect_case_no tags).
Proof.
  unfold Era2062.collect_case_no.
  pose proof (while_ind_returns tags Era2062.case_no_list_body
                (Forall (tag_text E2062 tags)) 0 []) as H.
  destruct (while_ind tags Era2062.case_no_list_body 0 [])
    as [[i l]|x]; [|constructor].
  apply H; [|constructor].
  intros k t l0 Ht H0. unfold Era2062.case_no_list_body. block_ok.
Qed.

Lemma fields_2062_from :
  returns (from_fields E2062 tags) (Era2062.fields tags).
Proof.
  unfold Era2062.fields.
  eapply returns_bind; [apply before_parties_2062_from|].
  intros [c d] Hd. unfold from_fields in Hd. cbn [snd] in Hd.
  unfold Era2062.parties_phase. cbn [fst snd].
  destruct (1 <? Era2062.count_how_many tags (ind c)).
  - eapply returns_bind; [apply pairs_2062_from; constructor|].
    intros [[c' appellant] opposition] [Ha Ho]. cbn [fst snd] in *.
    pose proof collect_case_no_from as Hc.
    unfold from_fields. cbn [returns mret result_ret snd].
    repeat block_step.
  - eapply returns_bind.
    { apply returns_checkpointed, (party_phase_from_block E2062);
        [reflexivity|discriminate|exact Hd]. }
    intros st1 H1.
    apply returns_checkpointed, (party_phase_from_block E2062);
      [reflexivity|discriminate|exact H1].
Qed.

(** *** 2073 and later *)

Lemma run_body_2073_from body st :
  (forall k t d0, tags !! k = Some t -> fields_from_block E2073 tags d0 ->
     match body k t d0 with
     | Next d1 => fields_from_block E2073 tags d1
     | Break _ d1 => fields_from_block E2073 tags d1
     | Throw _ => True
     end) ->
  fields_from_block E2073 tags (snd st) ->
  returns (from_fields E2073 tags) (Era2073.run_body tags body st).
Proof.
  destruct st as [c d]. intros Hbody Hd. unfold Era2073.run_body.
  eapply returns_bind;
    [apply (while_ind_returns tags _ (fields_from_block E2073 tags));
     [|exact Hd]|].
  - intros k t d0 Ht H0. now apply Hbody.
  - intros [i d'] H. exact H.
Qed.

Lemma judges_phase_2073_from st :
  fields_from_block E2073 tags (snd st) ->
  returns (from_fields E2073 tags) (Era2073.judges_phase tags st).
Proof.
  destruct st as [c d]. intros Hd. unfold Era2073.judges_phase.
  eapply returns_bind;
    [apply (while_ind_returns tags _
              (fun s => fields_from_block E2073 tags (fst s)
                        /\ Forall (tag_text E2073 tags) (snd s)));
     [|split; [exact Hd|constructor]]|].
  - intros k t [d0 js] Ht H0. unfold Era2073.judges_body. block_ok.
  - intros [i [d' js]] [H _]. exact H.
Qed.

Lemma case_phase_2073_from st :
  fields_from_block E2073 tags (snd st) ->
  returns (fun r => from_fields E2073 tags (fst r))
          (Era2073.case_phase tags st).
Proof.
  destruct st as [c d]. intros Hd. unfold Era2073.case_phase.
  eapply returns_bind;
    [apply (while_ind_returns tags _
              (fun s => fields_from_block E2073 tags (fst s)));
     [|exact Hd]|].
  - intros k t [d0 b] Ht H0. unfold Era2073.case_body. block_ok.
  - intros [i [d' b]] H. exact H.
Qed.

Lemma before_structure_2073_from :
  returns (fun r => from_fields E2073 tags (fst r))
          (Era2073.before_structure tags).
Proof.
  unfold Era2073.before_structure.
  eapply returns_bind.
  { apply returns_checkpointed, run_body_2073_from;
      [|apply fields_from_block_empty].
    intros k t d0 Ht H0. unfold Era2073.court_body. block_ok. }
  intros st1 H1.
  eapply returns_bind.
  { now apply returns_checkpointed, judges_phase_2073_from. }
  intros st2 H2.
  eapply returns_bind; [now apply case_phase_2073_from|].
  intros [[c3 d3] b] H3. exact H3.
Qed.

Lemma consolidated_2073_from (fuel : nat) (i : nat)
    (case_no appellant opposition : list string)
    (d : gmap details_key value) :
  fields_from_block E2073 tags d ->
  Forall (tag_text E2073 tags) case_no ->
  Forall (tag_text E2073 tags) appellant ->
  Forall (tag_text E2073 tags) opposition ->
  match Era2073.consolidated fuel tags i case_no appellant opposition d with
  | Some r => returns (fun r => fields_from_block E2073 tags (snd r)) r
  | None => True
  end.
Proof.
  intros Hd. revert i case_no appellant opposition.
  induction fuel as [|fuel IH];
    intros i case_no appellant opposition Hc Ha Ho;
    cbn [Era2073.consolidated]; destruct (i <? length tags); try exact Hd;
    [exact I|].
  pose proof (while_ind_returns tags Era2073.first_text_body
                (fun found => forall s, found = Some s ->
                                        tag_text E2073 tags s)
                i None) as H1.
  destruct (while_ind tags Era2073.first_text_body i None)
    as [[i1 found1]|e1]; [|exact I].
  assert (Hf1 : forall s, found1 = Some s -> tag_text E2073 tags s).
  { apply H1; [|discriminate].
    intros k t found Ht H0. unfold Era2073.first_text_body.
    destruct (truthy (get_text_strip t)); [|exact H0].
    intros s [= <-]. now apply (tag_text_lookup E2073 tags k). }
  clear H1.
  pose proof (party_scan_from_block E2073 get_text_strip KW2045.KEYWORDS_3
                false i1 (fun t => eq_refl)) as H2.
  destruct (party_scan get_text_strip KW2045.KEYWORDS_3 false tags i1)
    as [[i2 found2]|e2]; [|exact I].
  pose proof (party_scan_from_block E2073 get_text_strip KW2045.KEYWORDS_4
                false i2 (fun t => eq_refl)) as H3.
  destruct (party_scan get_text_strip KW2045.KEYWORDS_4 false tags i2)
    as [[i3 found3]|e3]; [|exact I].
  cbn [returns snd] in H2, H3. cbv zeta.
  assert (Hc' : Forall (tag_text E2073 tags) (Era2073.push case_no found1))
    by now apply push_from_block.
  assert (Ha' : Forall (tag_text E2073 tags)
                       (Era2073.push appellant found2))
    by now apply push_from_block.
  assert (Ho' : Forall (tag_text E2073 tags)
                       (Era2073.push opposition found3))
    by now apply push_from_block.
  destruct (Era2073.end_condition (drop i3 tags)) as [[|]|];
    try now apply IH.
  cbn [returns snd]. repeat block_step.
Qed.

Lemma fields_2073_from :
  match Era2073.fields_fuel (length tags) tags with
  | Some r => returns (from_fields E2073 tags) r
  | None => True
  end.
Proof.
  unfold Era2073.fields_fuel.
  pose proof before_structure_2073_from as H.
  destruct (Era2073.before_structure tags) as [[[c d] b]|e]; [|exact I].
  cbn [returns fst] in H. unfold from_fields in H. cbn [snd] in H.
  unfold Era2073.structure_phase. cbn [fst snd]. destruct b.
  - pose proof (consolidated_2073_from (length tags) (ind c) [] [] [] d H)
      as Hc.
    destruct (Era2073.consolidated (length tags) tags (ind c) [] [] [] d)
      as [r|]; [|exact I].
    eapply returns_bind; [apply Hc; constructor|].
    intros [i d'] Hd'. exact Hd'.
  - eapply returns_bind.
    { apply returns_checkpointed, run_body_2073_from; [|exact H].
      intros k t d0 Ht H0. unfold Era2073.subject_body. block_ok. }
    intros st1 H1.
    eapply returns_bind.
    { apply returns_checkpointed, (party_phase_from_block E2073);
        [reflexivity|discriminate|exact H1]. }
    intros st2 H2.
    apply returns_checkpointed, (party_phase_from_block E2073);
      [reflexivity|discriminate|exact H2].
Qed.

(** *** the holding list *)

Lemma holding_step_from (P : string -> Prop) (l : list string)
    (h : list string * bool) :
  Forall P l -> Forall P (fst h) ->
  Forall P (fst (fold_left holding_step l h)).
Proof.
  intros Hl. revert h. induction Hl as [|x l Hx _ IH]; intros h Hh; simpl.
  - exact Hh.
  - apply IH. unfold holding_step.
    destruct (truthy x && (is_tahar_token x || snd h)); [|exact Hh].
    cbn [fst]. apply Forall_app. split; [exact Hh|].
    constructor; [exact Hx|constructor].
Qed.

Lemma visited_from (e : Era) (i : nat) :
  Forall (from_block e tags K_thahar) (visited (drop i tags)).
Proof.
  apply List.Forall_forall. intros x Hx. unfold visited in Hx.
  apply in_flat_map in Hx as (t & Ht & Hx).
  assert (Hin : In t tags).
  { apply list_elem_of_In in Ht. apply list_elem_of_In.
    eapply subseteq_drop. exact Ht. }
  exists t. split; [exact Hin|].
  destruct Hx as [<-|Hx]; auto.
Qed.

Lemma store_segment_from (e : Era) KEYWORDS_2 (i : nat)
    (d : gmap details_key value) :
  fields_from_block e tags d ->
  fields_from_block e tags (store_segment KEYWORDS_2 tags i d).
Proof.
  intros Hd. unfold store_segment. cbv zeta.
  apply fields_from_block_insert;
    [|now apply fields_from_block_prakaran].
  cbn [value_from_block].
  change (tahar (segment KEYWORDS_2 tags i))
    with (fst (hold (segment KEYWORDS_2 tags i))).
  unfold segment. rewrite hold_fold_seg_tag.
  apply holding_step_from; [apply visited_from|constructor].
Qed.

Lemma extract_of_from (e : Era) :
  match extract_of e tags with
  | Some r => returns (fields_from_block e tags) r
  | None => True
  end.
Proof.
  destruct e; cbn [extract_of].
  - unfold Era2015.extract. eapply returns_bind; [apply fields_2015_from|].
    intros [c d] Hd. now apply store_segment_from.
  - unfold Era2045.extract. eapply returns_bind; [apply fields_2045_from|].
    intros [c d] Hd. now apply store_segment_from.
  - unfold Era2051.extract. eapply returns_bind; [apply fields_2051_from|].
    intros [c d] Hd. now apply store_segment_from.
  - unfold Era2062.extract. eapply returns_bind; [apply fields_2062_from|].
    intros [c d] Hd. now apply store_segment_from.
  - unfold Era2073.extract, Era2073.extract_fuel.
    pose proof fields_2073_from as H.
    destruct (Era2073.fields_fuel (length tags) tags) as [r|]; [|exact I].
    eapply returns_bind; [exact H|].
    intros [c d] Hd. now apply store_segment_from.
Qed.
End FromBlockPhases.

(** X15.  No procedure makes up or alters a field value.  Whenever the
    field extraction of a procedure returns, every value of [details]
    other than the citations is taken from the detail block as it is:
    - under the key of the holding, every entry is the text of a tag of
      the block or one of its list items;
    - under any other key (the court, the judges, the order date, the case
      numbers, the subject, the petitioners, the respondents), a text is
      the text of a tag of the block as the procedure reads it, and a list
      holds such texts only; with two exceptions:
    - the empty string, only as the court of the 2015, 2045 and 2062
      procedures and as the subject of the 2045 procedure;
    - the text of a tag, one space and the text of the tag that follows
      it in the block, only as the court of the 2015 and 2062
      procedures. *)
Theorem field_values_come_from_block (e : Era) (tags : list Tag)
    (d : gmap details_key value) :
  extract_of e tags = Some (Ok d) ->
  forall k v, k <> K_prakaran -> d !! k = Some v ->
    value_from_block e tags k v.
Proof.
  intros H. pose proof (extract_of_from tags e) as Hf.
  rewrite H in Hf. exact Hf.
Qed.

Lemma field_values_come_from_block_witness :
  exists d, extract_of E2051 drift_tags_2051 = Some (Ok d) /\
    forall k v, k <> K_prakaran -> d !! k = Some v ->
      value_from_block E2051 drift_tags_2051 k v.
Proof.
  assert (E : exists d, extract_of E2051 drift_tags_2051 = Some (Ok d))
    by (vm_compute; eexists; reflexivity).
  destruct E as [d E]. exists d. split; [exact E|].
  exact (field_values_come_from_block E2051 drift_tags_2051 d E).
Defined.

(** ** The keys a phase writes *)

Ltac frame_ok :=
  repeat case_match; simplify_eq; cbn [fst snd] in *;
  unfold same_at in *; rewrite ?lookup_insert_ne by congruence;
  first [assumption|exact I].

Section Frames.
Variable tags : list Tag.
Variable k : details_key.

Lemma same_at_checkpointed (n : nat) (d : gmap details_key value)
    (r : result (cursor * gmap details_key value)) :
  returns (fun st => same_at k d (snd st)) r ->
  returns (fun st => same_at k d (snd st)) (checkpointed n <$> r).
Proof.
  intros H. eapply returns_fmap; [exact H|]. intros [c d'] Hd. exact Hd.
Qed.

Lemma party_phase_frame (get : Tag -> string) (KEYWORDS : list string)
    (guarded : bool) (key : details_key) (d : gmap details_key value)
    (st : cursor * gmap details_key value) :
  k <> key -> same_at k d (snd st) ->
  returns (fun st' => same_at k d (snd st'))
          (party_phase get KEYWORDS guarded key tags st).
Proof.
  destruct st as [c d0]. intros Hk Hd. unfold party_phase.
  destruct (party_scan get KEYWORDS guarded tags (ind c)) as [[i found]|x];
    [|exact I].
  cbn [mbind result_bind returns mret result_ret snd] in *.
  destruct found; frame_ok.
Qed.

Lemma store_segment_frame KEYWORDS_2 (i : nat)
    (d d0 : gmap details_key value) :
  k <> K_prakaran -> k <> K_thahar -> same_at k d d0 ->
  same_at k d (store_segment KEYWORDS_2 tags i d0).
Proof.
  intros H1 H2 H. unfold store_segment, same_at in *. cbv zeta.
  now rewrite !lookup_insert_ne by congruence.
Qed.

(** *** 2045 to 2050 and 2051 to 2061 *)

Lemma court_phase_2045_frame d st :
  k <> K_ijlas -> same_at k d (snd st) ->
  returns (fun st' => same_at k d (snd st')) (Era2045.court_phase tags st).
Proof.
  destruct st as [c d0]. intros Hk Hd. unfold Era2045.court_phase.
  eapply returns_bind;
    [apply (while_ind_returns tags _ (fun s => same_at k d (fst s)));
     [|exact Hd]|].
  - intros j t [d1 tmp] Ht H0. unfold Era2045.court_body. frame_ok.
  - intros [i [d' tmp]] H. exact H.
Qed.

Lemma lookahead_phase_2045_frame d st :
  k <> K_bisaya -> same_at k d (snd st) ->
  returns (fun r => same_at k d (snd (fst r)))
          (Era2045.lookahead_phase tags st).
Proof.
  destruct st as [c d0]. intros Hk Hd. unfold Era2045.lookahead_phase.
  destruct (while_ind tags Era2045.lookahead_body (ind c) false)
    as [[i b]|x]; [|exact I].
  cbn [mbind result_bind returns mret result_ret fst snd] in *. frame_ok.
Qed.

Lemma subject_phase_2045_frame d st :
  k <> K_bisaya -> same_at k d (snd st) ->
  returns (fun st' => same_at k d (snd st')) (Era2045.subject_phase tags st).
Proof.
  destruct st as [c d0]. intros Hk Hd. unfold Era2045.subject_phase.
  eapply returns_bind;
    [apply (while_ind_returns tags _ (same_at k d)); [|exact Hd]|].
  - intros j t d1 Ht H0. unfold Era2045.subject_body. frame_ok.
  - intros [i d'] H. exact H.
Qed.

Lemma judges_loop_2045_frame is_date i d d0 :
  k <> K_nyayadhish -> k <> K_adesh_miti -> k <> K_case_no ->
  same_at k d d0 ->
  returns (fun r => same_at k d (fst (snd r)))
          (while_ind tags (Era2045.judges_body is_date) i (d0, [])).
Proof.
  intros H1 H2 H3 Hd.
  apply (while_ind_returns tags _ (fun s => same_at k d (fst s)));
    [|exact Hd].
  intros j t [d1 js] Ht H0. unfold Era2045.judges_body. frame_ok.
Qed.

Lemma run_body_2051_frame body d st :
  (forall j t d1, same_at k d d1 ->
     match body j t d1 with
     | Next d2 => same_at k d d2
     | Break _ d2 => same_at k d d2
     | Throw _ => True
     end) ->
  same_at k d (snd st) ->
  returns (fun st' => same_at k d (snd st')) (Era2051.run_body tags body st).
Proof.
  destruct st as [c d0]. intros Hbody Hd. unfold Era2051.run_body.
  eapply returns_bind;
    [apply (while_ind_returns tags _ (same_at k d)); [|exact Hd]|].
  - intros j t d1 _ H0. now apply Hbody.
  - intros [i d'] H. exact H.
Qed.

(** *** 2073 and later *)

Lemma run_body_2073_frame body d st :
  (forall j t d1, same_at k d d1 ->
     match body j t d1 with
     | Next d2 => same_at k d d2
     | Break _ d2 => same_at k d d2
     | Throw _ => True
     end) ->
  same_at k d (snd st) ->
  returns (fun st' => same_at k d (snd st')) (Era2073.run_body tags body st).
Proof.
  destruct st as [c d0]. intros Hbody Hd. unfold Era2073.run_body.
  eapply returns_bind;
    [apply (while_ind_returns tags _ (same_at k d)); [|exact Hd]|].
  - intros j t d1 _ H0. now apply Hbody.
  - intros [i d'] H. exact H.
Qed.

Lemma judges_phase_2073_frame d st :
  k <> K_nyayadhish -> k <> K_adesh_miti -> same_at k d (snd st) ->
  returns (fun st' => same_at k d (snd st')) (Era2073.judges_phase tags st).
Proof.
  destruct st as [c d0]. intros H1 H2 Hd. unfold Era2073.judges_phase.
  eapply returns_bind;
    [apply (while_ind_returns tags _ (fun s => same_at k d (fst s)));
     [|exact Hd]|].
  - intros j t [d1 js] Ht H0. unfold Era2073.judges_body. frame_ok.
  - intros [i [d' js]] H. exact H.
Qed.

Lemma case_phase_2073_frame d st :
  k <> K_bisaya -> k <> K_case_no -> same_at k d (snd st) ->
  returns (fun r => same_at k d (snd (fst r))) (Era2073.case_phase tags st).
Proof.
  destruct st as [c d0]. intros H1 H2 Hd. unfold Era2073.case_phase.
  eapply returns_bind;
    [apply (while_ind_returns tags _ (fun s => same_at k d (fst s)));
     [|exact Hd]|].
  - intros j t [d1 b] Ht H0. unfold Era2073.case_body. frame_ok.
  - intros [i [d' b]] H. exact H.
Qed.

Lemma consolidated_2073_frame (fuel : nat) (i : nat)
    (case_no appellant opposition : list string)
    (d d0 : gmap details_key value) :
  k <> K_case_no -> k <> K_nibedak -> k <> K_bipakshi ->
  same_at k d d0 ->
  match Era2073.consolidated fuel tags i case_no appellant opposition d0 with
  | Some r => returns (fun r => same_at k d (snd r)) r
  | None => True
  end.
Proof.
  intros H1 H2 H3 Hd. revert i case_no appellant opposition.
  induction fuel as [|fuel IH]; intros i case_no appellant opposition;
    cbn [Era2073.consolidated]; destruct (i <? length tags); try exact Hd;
    [exact I|].
  destruct (while_ind tags Era2073.first_text_body i None)
    as [[i1 found1]|e1]; [|exact I].
  destruct (party_scan get_text_strip KW2045.KEYWORDS_3 false tags i1)
    as [[i2 found2]|e2]; [|exact I].
  destruct (party_scan get_text_strip KW2045.KEYWORDS_4 false tags i2)
    as [[i3 found3]|e3]; [|exact I].
  cbv zeta.
  destruct (Era2073.end_condition (drop i3 tags)) as [[|]|]; try apply IH.
  cbn [returns snd]. unfold same_at in *.
  now rewrite !lookup_insert_ne by congruence.
Qed.

Lemma structure_phase_2073_frame (fuel : nat) (b : bool) d st :
  k <> K_bisaya -> k <> K_case_no -> k <> K_nibedak -> k <> K_bipakshi ->
  same_at k d (snd st) ->
  match Era2073.structure_phase fuel tags b st with
  | Some r => returns (fun st' => same_at k d (snd st')) r
  | None => True
  end.
Proof.
  intros H1 H2 H3 H4 Hd. unfold Era2073.structure_phase.
  destruct st as [c3 d3]. cbn [fst snd] in *. destruct b.
  - pose proof (consolidated_2073_frame fuel (ind c3) [] [] [] d d3
                  H2 H3 H4 Hd) as Hk.
    destruct (Era2073.consolidated fuel tags (ind c3) [] [] [] d3)
      as [r|]; [|exact I].
    eapply returns_bind; [exact Hk|]. intros [i d'] Hd'. exact Hd'.
  - eapply returns_bind.
    { apply same_at_checkpointed.
      apply (run_body_2073_frame _ d); [|exact Hd].
      intros j t d1 H0. unfold Era2073.subject_body. frame_ok. }
    intros st1 Hs1.
    eapply returns_bind.
    { apply same_at_checkpointed.
      apply (party_phase_frame _ _ _ _ d); [exact H3|exact Hs1]. }
    intros st2 Hs2.
    apply same_at_checkpointed.
    apply (party_phase_frame _ _ _ _ d); [exact H4|exact Hs2].
Qed.

(** a phase that keeps the value under [k] keeps what is known of it *)
Lemma frame_value {A : Type} (get_d : A -> gmap details_key value)
    (X : option value) (d : gmap details_key value) (r : result A) :
  returns (fun a => same_at k d (get_d a)) r -> d !! k = X ->
  returns (fun a => get_d a !! k = X) r.
Proof.
  intros H Hd. destruct r as [a|x]; [|exact I].
  cbn [returns] in *. unfold same_at in H. congruence.
Qed.
End Frames.

(** ** The court of the 2051 and 2073 procedures *)

Section FirstMatch.
Context {St : Type} (body : nat -> Tag -> St -> outcome St).
Variable pred : Tag -> bool.
Variable upd : Tag -> St -> St.
Hypothesis body_eq : forall k t s,
  body k t s = if pred t then Break (k + 1) (upd t s) else Next s.

(** a scan that stops at the first tag satisfying [pred] *)
Lemma while_from_find (rest : list Tag) (ind : nat) (s : St) :
  exists i,
    while_from body rest ind s
    = Ok (i, match List.find pred rest with
             | Some t => upd t s
             | None => s
             end).
Proof.
  revert ind. induction rest as [|t rest IH]; intros ind; simpl.
  - eauto.
  - rewrite body_eq. destruct (pred t); [eauto|apply IH].
Qed.
End FirstMatch.

Lemma court_phase_2051_first (tags : list Tag) :
  returns (fun st => snd st !! K_ijlas
                     = (fun t => VStr (get_text_sep t))
                         <$> List.find (court_line E2051) tags)
          (Era2051.court_phase tags (mkCursor 0 0, ∅)).
Proof.
  unfold Era2051.court_phase, Era2051.run_body, while_ind.
  cbn [ind]. rewrite drop_0.
  destruct (while_from_find Era2051.court_body (court_line E2051)
              (fun t d => <[K_ijlas := VStr (get_text_sep t)]> d)
              (fun k t s => eq_refl) tags 0 ∅) as [i ->].
  cbn [mbind result_bind returns mret result_ret snd].
  destruct (List.find (court_line E2051) tags) as [t|]; cbn [fmap option_fmap option_map].
  - apply lookup_insert_eq.
  - apply lookup_empty.
Qed.

Lemma court_phase_2073_first (tags : list Tag) :
  returns (fun st => snd st !! K_adalat_ijlas
                     = (fun t => VStr (get_text_strip t))
                         <$> List.find (court_line E2073) tags)
          (Era2073.court_phase tags (mkCursor 0 0, ∅)).
Proof.
  unfold Era2073.court_phase, Era2073.run_body, while_ind.
  cbn [ind]. rewrite drop_0.
  destruct (while_from_find Era2073.court_body (court_line E2073)
              (fun t d => <[K_adalat_ijlas := VStr (get_text_strip t)]> d)
              (fun k t s => eq_refl) tags 0 ∅) as [i ->].
  cbn [mbind result_bind returns mret result_ret snd].
  destruct (List.find (court_line E2073) tags) as [t|]; cbn [fmap option_fmap option_map].
  - apply lookup_insert_eq.
  - apply lookup_empty.
Qed.

Lemma returns_checkpointed_value (n : nat) (k : details_key)
    (X : option value) (r : result (cursor * gmap details_key value)) :
  returns (fun st => snd st !! k = X) r ->
  returns (fun st => snd st !! k = X) (checkpointed n <$> r).
Proof.
  intros H. eapply returns_fmap; [exact H|]. intros [c d] Hd. exact Hd.
Qed.

Lemma judges_phase_2051_frame (tags : list Tag) (k : details_key) d st :
  k <> K_nyayadhish -> k <> K_adesh_miti -> k <> K_case_no ->
  same_at k d (snd st) ->
  returns (fun st' => same_at k d (snd st')) (Era2051.judges_phase tags st).
Proof.
  destruct st as [c d0]. intros H1 H2 H3 Hd. unfold Era2051.judges_phase.
  eapply returns_bind;
    [apply (judges_loop_2045_frame tags k _ _ d); assumption|].
  intros [i [d' js]] H. exact H.
Qed.

Lemma fields_2051_court (tags : list Tag) :
  returns (fun st => snd st !! K_ijlas
                     = (fun t => VStr (get_text_sep t))
                         <$> List.find (court_line E2051) tags)
          (Era2051.fields tags).
Proof.
  unfold Era2051.fields.
  eapply returns_bind.
  { apply returns_checkpointed_value, court_phase_2051_first. }
  intros st1 H1.
  eapply returns_bind.
  { apply returns_checkpointed_value.
    eapply frame_value; [|exact H1].
    apply judges_phase_2051_frame; try discriminate. reflexivity. }
  intros st2 H2.
  eapply returns_bind.
  { eapply frame_value with (get_d := snd); [|exact H2].
    apply run_body_2051_frame; [|reflexivity].
    intros j t d1 H0. unfold Era2051.subject_body. frame_ok. }
  intros [c3 d3] H3. cbv zeta. cbn [snd] in H3.
  eapply returns_bind.
  { apply returns_checkpointed_value.
    eapply frame_value with (get_d := snd); [|exact H3].
    apply party_phase_frame; [discriminate|reflexivity]. }
  intros st4 H4.
  apply returns_checkpointed_value.
  eapply frame_value with (get_d := snd); [|exact H4].
  apply party_phase_frame; [discriminate|reflexivity].
Qed.

Lemma before_structure_2073_court (tags : list Tag) :
  returns (fun r => snd (fst r) !! K_adalat_ijlas
                    = (fun t => VStr (get_text_strip t))
                        <$> List.find (court_line E2073) tags)
          (Era2073.before_structure tags).
Proof.
  unfold Era2073.before_structure.
  eapply returns_bind.
  { apply returns_checkpointed_value, court_phase_2073_first. }
  intros st1 H1.
  eapply returns_bind.
  { apply returns_checkpointed_value.
    eapply frame_value with (get_d := snd); [|exact H1].
    apply judges_phase_2073_frame; try discriminate. reflexivity. }
  intros st2 H2.
  eapply returns_bind.
  { eapply frame_value with (get_d := fun r => snd (fst r)); [|exact H2].
    apply case_phase_2073_frame; try discriminate. reflexivity. }
  intros [[c3 d3] b] H3. exact H3.
Qed.

(** X16.  The court stored by the 2051 procedure and by the 2073
    procedure is the text of the first tag of the block that is a court
    line (a non-empty text holding a court word), whatever the later
    phases find; the court is missing exactly when the block has no court
    line. *)
Theorem court_is_first_court_line (e : Era) (tags : list Tag)
    (d : gmap details_key value) :
  e = E2051 \/ e = E2073 ->
  extract_of e tags = Some (Ok d) ->
  d !! court_key_of e
  = (fun t => VStr (text_of e t)) <$> List.find (court_line e) tags.
Proof.
  intros [->| ->]; cbn [extract_of court_key_of]; intros H.
  - apply (inj Some) in H. unfold Era2051.extract in H.
    pose proof (fields_2051_court tags) as Hf.
    destruct (Era2051.fields tags) as [[c d1]|x]; [|discriminate].
    cbn [mbind result_bind mret result_ret] in H. injection H as <-.
    cbn [returns snd] in Hf. etransitivity; [|exact Hf].
    apply store_segment_frame; [discriminate|discriminate|reflexivity].
  - unfold Era2073.extract, Era2073.extract_fuel, Era2073.fields_fuel in H.
    pose proof (before_structure_2073_court tags) as Hb.
    destruct (Era2073.before_structure tags) as [[[c3 d3] b]|x];
      [|discriminate].
    cbn [returns fst snd] in Hb.
    pose proof (structure_phase_2073_frame tags K_adalat_ijlas (length tags)
                  b d3 (c3, d3)) as Hs.
    destruct (Era2073.structure_phase (length tags) tags b (c3, d3))
      as [[[c d1]|x]|]; try discriminate.
    cbn [mbind result_bind mret result_ret] in H.
    apply (inj Some) in H. injection H as <-.
    etransitivity; [|exact Hb].
    apply store_segment_frame; [discriminate|discriminate|].
    apply Hs; try discriminate. reflexivity.
Qed.

Lemma court_is_first_court_line_witness :
  exists d, extract_of E2073 [P "क"; P "संयुक्त इजलास"; P "पूर्ण इजलास"]
            = Some (Ok d) /\
    d !! K_adalat_ijlas = Some (VStr "संयुक्त इजलास").
Proof.
  assert (E : exists d,
             extract_of E2073 [P "क"; P "संयुक्त इजलास"; P "पूर्ण इजलास"]
             = Some (Ok d))
    by (vm_compute; eexists; reflexivity).
  destruct E as [d E]. exists d. split; [exact E|].
  exact (court_is_first_court_line E2073 _ d (or_intror eq_refl) E).
Defined.

(** ** Judges and order date in the 2045, 2051 and 2073 procedures *)

Section JudgesWithDate.
Variable e : Era.
Variable tags : list Tag.

Lemma judges_with_date_empty : judges_with_date e tags ∅.
Proof.
  split; [now rewrite !lookup_empty|].
  intros v H. now rewrite lookup_empty in H.
Qed.

Lemma judges_with_date_both (k : nat) (t : Tag) (js : list string)
    (d : gmap details_key value) :
  tags !! k = Some t -> date_line e t = true ->
  judges_with_date e tags
    (<[K_adesh_miti := VStr (text_of e t)]> (<[K_nyayadhish := VList js]> d)).
Proof.
  intros Ht Hd. split.
  - rewrite lookup_insert_ne by discriminate.
    rewrite !lookup_insert_eq. split; discriminate.
  - rewrite lookup_insert_eq. intros v [= <-]. exists t.
    split; [|split; [exact Hd|reflexivity]].
    apply list_elem_of_In, list_elem_of_lookup. eauto.
Qed.

Lemma judges_with_date_other (k : details_key) (v : value)
    (d : gmap details_key value) :
  k <> K_nyayadhish -> k <> K_adesh_miti ->
  judges_with_date e tags d -> judges_with_date e tags (<[k := v]> d).
Proof.
  intros H1 H2 [Hp Hd]. unfold judges_with_date.
  now rewrite !lookup_insert_ne by congruence.
Qed.

(** a phase that writes neither key keeps the two together *)
Lemma judges_with_date_frame {A : Type}
    (get_d : A -> gmap details_key value) (d : gmap details_key value)
    (r : result A) :
  (forall k, k = K_nyayadhish \/ k = K_adesh_miti ->
     returns (fun a => same_at k d (get_d a)) r) ->
  judges_with_date e tags d ->
  returns (fun a => judges_with_date e tags (get_d a)) r.
Proof.
  intros Hk [Hp Hd].
  pose proof (Hk K_nyayadhish (or_introl eq_refl)) as H1.
  pose proof (Hk K_adesh_miti (or_intror eq_refl)) as H2.
  destruct r as [a|x]; [|exact I]. cbn [returns] in *.
  unfold same_at in *. unfold judges_with_date. now rewrite H1, H2.
Qed.

Lemma judges_with_date_checkpointed (n : nat)
    (r : result (cursor * gmap details_key value)) :
  returns (fun st => judges_with_date e tags (snd st)) r ->
  returns (fun st => judges_with_date e tags (snd st))
          (checkpointed n <$> r).
Proof.
  intros H. eapply returns_fmap; [exact H|]. intros [c d] Hd. exact Hd.
Qed.

Lemma judges_loop_2045_with_date is_date i d :
  (forall t, is_date (get_text_sep t) = true -> date_line e t = true) ->
  (forall t, text_of e t = get_text_sep t) ->
  judges_with_date e tags d ->
  returns (fun r => judges_with_date e tags (fst (snd r)))
          (while_ind tags (Era2045.judges_body is_date) i (d, [])).
Proof.
  intros Hdate Htext Hd.
  apply (while_ind_returns tags _
           (fun s => judges_with_date e tags (fst s))); [|exact Hd].
  intros k t [d0 js] Ht H0. unfold Era2045.judges_body.
  repeat case_match; simplify_eq; cbn [fst snd] in *; try assumption;
    first [ apply judges_with_date_other;
            [discriminate|discriminate|assumption]
          | rewrite <- Htext; apply (judges_with_date_both k); auto ].
Qed.

End JudgesWithDate.

Lemma judges_phase_2073_with_date (tags : list Tag) st :
  judges_with_date E2073 tags (snd st) ->
  returns (fun st' => judges_with_date E2073 tags (snd st'))
          (Era2073.judges_phase tags st).
Proof.
  destruct st as [c d]. intros Hd. unfold Era2073.judges_phase.
  eapply returns_bind;
    [apply (while_ind_returns tags _
              (fun s => judges_with_date E2073 tags (fst s)));
     [|exact Hd]|].
  - intros k t [d0 js] Ht H0. unfold Era2073.judges_body.
    repeat case_match; simplify_eq; cbn [fst snd] in *; try assumption;
      apply (judges_with_date_both E2073 tags k t); assumption.
  - intros [i [d' js]] H. exact H.
Qed.


Lemma fields_2045_with_date (tags : list Tag) :
  returns (fun st => judges_with_date E2045 tags (snd st))
          (Era2045.fields tags).
Proof.
  unfold Era2045.fields.
  eapply returns_bind.
  { apply (judges_with_date_checkpointed E2045 tags).
    eapply (judges_with_date_frame E2045 tags) with (get_d := snd);
      [|apply (judges_with_date_empty E2045 tags)].
    intros k [->| ->]; apply court_phase_2045_frame;
      first [discriminate|reflexivity]. }
  intros [c1 d1] H1. cbn [snd] in H1.
  eapply returns_bind.
  { apply (judges_with_date_checkpointed E2045 tags). unfold Era2045.judges_phase.
    eapply returns_bind;
      [apply (judges_loop_2045_with_date E2045 tags);
       [intros t Ht; exact Ht|reflexivity|assumption]|].
    intros [i [d' js]] H. exact H. }
  intros [c2 d2] H2. cbn [snd] in H2.
  eapply returns_bind.
  { eapply (judges_with_date_frame E2045 tags) with (get_d := fun r => snd (fst r));
      [|exact H2].
    intros k [->| ->]; apply lookahead_phase_2045_frame;
      first [discriminate|reflexivity]. }
  intros [[c3 d3] bisaya] H3. cbn [fst snd] in H3. cbv zeta.
  eapply returns_bind
    with (Q1 := fun st => judges_with_date E2045 tags (snd st)).
  { destruct bisaya; [|exact H3].
    apply (judges_with_date_checkpointed E2045 tags).
    eapply (judges_with_date_frame E2045 tags) with (get_d := snd); [|exact H3].
    intros k [->| ->]; apply subject_phase_2045_frame;
      first [discriminate|reflexivity]. }
  intros [c4 d4] H4. cbn [snd] in H4.
  eapply returns_bind.
  { apply (judges_with_date_checkpointed E2045 tags).
    eapply (judges_with_date_frame E2045 tags) with (get_d := snd); [|exact H4].
    intros k [->| ->]; apply party_phase_frame;
      first [discriminate|reflexivity]. }
  intros [c5 d5] H5. cbn [snd] in H5.
  eapply returns_bind.
  { apply (judges_with_date_checkpointed E2045 tags).
    eapply (judges_with_date_frame E2045 tags) with (get_d := snd); [|exact H5].
    intros k [->| ->]; apply party_phase_frame;
      first [discriminate|reflexivity]. }
  intros [c6 d6] H6. cbn [snd] in H6.
  destruct (negb bisaya); [|exact H6].
  apply (judges_with_date_checkpointed E2045 tags).
  eapply (judges_with_date_frame E2045 tags) with (get_d := snd); [|exact H6].
  intros k [->| ->]; apply subject_phase_2045_frame;
    first [discriminate|reflexivity].
Qed.

Lemma fields_2051_with_date (tags : list Tag) :
  returns (fun st => judges_with_date E2051 tags (snd st))
          (Era2051.fields tags).
Proof.
  unfold Era2051.fields.
  eapply returns_bind.
  { apply (judges_with_date_checkpointed E2051 tags).
    eapply (judges_with_date_frame E2051 tags) with (get_d := snd);
      [|apply (judges_with_date_empty E2051 tags)].
    intros k [->| ->]; (apply run_body_2051_frame; [|reflexivity]);
      intros j t d1 H0; unfold Era2051.court_body; frame_ok. }
  intros [c1 d1] H1. cbn [snd] in H1.
  eapply returns_bind.
  { apply (judges_with_date_checkpointed E2051 tags). unfold Era2051.judges_phase.
    eapply returns_bind;
      [apply (judges_loop_2045_with_date E2051 tags);
       [intros t Ht; exact Ht|reflexivity|assumption]|].
    intros [i [d' js]] H. exact H. }
  intros [c2 d2] H2. cbn [snd] in H2.
  eapply returns_bind.
  { eapply (judges_with_date_frame E2051 tags) with (get_d := snd); [|exact H2].
    intros k [->| ->]; (apply run_body_2051_frame; [|reflexivity]);
      intros j t d3 H0; unfold Era2051.subject_body; frame_ok. }
  intros [c3 d3] H3. cbn [snd] in H3. cbv zeta.
  eapply returns_bind.
  { apply (judges_with_date_checkpointed E2051 tags).
    eapply (judges_with_date_frame E2051 tags) with (get_d := snd); [|exact H3].
    intros k [->| ->]; apply party_phase_frame;
      first [discriminate|reflexivity]. }
  intros [c4 d4] H4. cbn [snd] in H4.
  apply (judges_with_date_checkpointed E2051 tags).
  eapply (judges_with_date_frame E2051 tags) with (get_d := snd); [|exact H4].
  intros k [->| ->]; apply party_phase_frame;
    first [discriminate|reflexivity].
Qed.

Lemma before_structure_2073_with_date (tags : list Tag) :
  returns (fun r => judges_with_date E2073 tags (snd (fst r)))
          (Era2073.before_structure tags).
Proof.
  unfold Era2073.before_structure.
  eapply returns_bind.
  { apply (judges_with_date_checkpointed E2073 tags).
    eapply (judges_with_date_frame E2073 tags) with (get_d := snd);
      [|apply (judges_with_date_empty E2073 tags)].
    intros k [->| ->]; (apply run_body_2073_frame; [|reflexivity]);
      intros j t d1 H0; unfold Era2073.court_body; frame_ok. }
  intros [c1 d1] H1. cbn [snd] in H1.
  eapply returns_bind.
  { apply (judges_with_date_checkpointed E2073 tags).
    now apply judges_phase_2073_with_date. }
  intros [c2 d2] H2. cbn [snd] in H2.
  eapply returns_bind.
  { eapply (judges_with_date_frame E2073 tags) with (get_d := fun r => snd (fst r));
      [|exact H2].
    intros k [->| ->]; apply case_phase_2073_frame;
      first [discriminate|reflexivity]. }
  intros [[c3 d3] b] H3. exact H3.
Qed.

Lemma store_segment_with_date (e : Era) (tags : list Tag) KEYWORDS_2 i d :
  judges_with_date e tags d ->
  judges_with_date e tags (store_segment KEYWORDS_2 tags i d).
Proof.
  intros H. unfold store_segment. cbv zeta.
  repeat apply judges_with_date_other; (discriminate || assumption).
Qed.

Lemma extract_with_date (e : Era) (tags : list Tag)
    (d : gmap details_key value) :
  e = E2045 \/ e = E2051 \/ e = E2073 ->
  extract_of e tags = Some (Ok d) -> judges_with_date e tags d.
Proof.
  intros [->|[->| ->]]; cbn [extract_of]; intros H.
  - apply (inj Some) in H. unfold Era2045.extract in H.
    pose proof (fields_2045_with_date tags) as Hf.
    destruct (Era2045.fields tags) as [[c d1]|x]; [|discriminate].
    cbn [mbind result_bind mret result_ret] in H. injection H as <-.
    now apply store_segment_with_date.
  - apply (inj Some) in H. unfold Era2051.extract in H.
    pose proof (fields_2051_with_date tags) as Hf.
    destruct (Era2051.fields tags) as [[c d1]|x]; [|discriminate].
    cbn [mbind result_bind mret result_ret] in H. injection H as <-.
    now apply store_segment_with_date.
  - unfold Era2073.extract, Era2073.extract_fuel, Era2073.fields_fuel in H.
    pose proof (before_structure_2073_with_date tags) as Hb.
    destruct (Era2073.before_structure tags) as [[[c3 d3] b]|x];
      [|discriminate].
    cbn [returns fst snd] in Hb.
    assert (Hs : match Era2073.structure_phase (length tags) tags b (c3, d3)
                 with
                 | Some r => returns (fun st => judges_with_date E2073 tags
                                                  (snd st)) r
                 | None => True
                 end).
    { pose proof (structure_phase_2073_frame tags K_nyayadhish (length tags)
                    b d3 (c3, d3)) as F1.
      pose proof (structure_phase_2073_frame tags K_adesh_miti (length tags)
                    b d3 (c3, d3)) as F2.
      destruct (Era2073.structure_phase (length tags) tags b (c3, d3))
        as [r|]; [|exact I].
      eapply (judges_with_date_frame E2073 tags) with (get_d := snd); [|exact Hb].
      intros k [->| ->]; [apply F1|apply F2];
        first [discriminate|reflexivity]. }
    destruct (Era2073.structure_phase (length tags) tags b (c3, d3))
      as [[[c d1]|x]|]; try discriminate.
    cbn [mbind result_bind mret result_ret] in H.
    apply (inj Some) in H. injection H as <-.
    now apply store_segment_with_date.
Qed.

(** X17.  In the 2045, 2051 and 2073 procedures the judges are stored
    only together with an order date: when the extraction returns, the
    judges are set exactly when the order date is, and the order date is
    the text of an order-date line of the block.  So on a block without
    an order-date line no judge is stored, whatever judge lines were
    read. *)
Theorem judges_stored_with_order_date (e : Era) (tags : list Tag)
    (d : gmap details_key value) :
  e = E2045 \/ e = E2051 \/ e = E2073 ->
  extract_of e tags = Some (Ok d) ->
  (d !! K_nyayadhish = None <-> d !! K_adesh_miti = None) /\
  (forall v, d !! K_adesh_miti = Some v ->
     exists t, In t tags /\ date_line e t = true /\ v = VStr (text_of e t)) /\
  ((forall t, In t tags -> date_line e t = false) ->
   d !! K_nyayadhish = None /\ d !! K_adesh_miti = None).
Proof.
  intros He H. destruct (extract_with_date e tags d He H) as [Hp Hd].
  split; [exact Hp|]. split; [exact Hd|].
  intros Hno.
  assert (Hn : d !! K_adesh_miti = None).
  { destruct (d !! K_adesh_miti) as [v|] eqn:E; [|reflexivity].
    destruct (Hd v eq_refl) as (t & Ht & Hl & _).
    rewrite (Hno t Ht) in Hl. discriminate. }
  split; [now apply Hp|exact Hn].
Qed.

Lemma judges_stored_with_order_date_witness :
  exists d, extract_of E2045 [P "माननीय न्यायाधीश क"; P "ख"] = Some (Ok d) /\
    d !! K_nyayadhish = None /\ d !! K_adesh_miti = None.
Proof.
  assert (E : exists d,
             extract_of E2045 [P "माननीय न्यायाधीश क"; P "ख"] = Some (Ok d))
    by (vm_compute; eexists; reflexivity).
  destruct E as [d E]. exists d. split; [exact E|].
  apply (judges_stored_with_order_date E2045
           [P "माननीय न्यायाधीश क"; P "ख"] d (or_introl eq_refl) E).
  intros t [<-|[<-|[]]]; reflexivity.
Defined.
